(** * Hopsworks client SDK: search-index helper, model-registry API and
      expectation suites

    A shallow embedding of three modules of the Python client:

    - [hopsworks_common/core/opensearch_api.py]  (module [OpenSearchApi]),
    - [hsml/core/model_api.py]                   (module [ModelApi]),
    - [hsfs/expectation_suite.py]                (module [ExpectationSuite]).

    Python objects are records, Python values that are inspected at run time
    ([isinstance], truthiness) are trees of type [PyVal], dictionaries are
    insertion-ordered association lists with unique keys, and every method
    that can raise or talk to the backend is a computation in a small
    state-and-exception monad whose state survives a raised exception, as the
    attributes of a Python object do.  A Python string is the sequence of
    bytes of its UTF-8 encoding: [lower] and [upper] are the case mappings
    of the ASCII range, Python's own [str.lower], which follows the Unicode
    tables, is [str_lower], and where the outcome of a string operation
    depends on those tables the embedding follows the strings of ASCII
    characters and marks the others. *)

From Stdlib Require Import ZArith List String Ascii Bool Lia.
From Stdlib Require Import DecimalString.
Import ListNotations.

Local Open Scope string_scope.
Local Open Scope list_scope.

(* ===================================================================== *)
(** * Part I.  The Python fragment the three modules are written in      *)
(* ===================================================================== *)

Module Py.

(** ** Strings *)

Definition is_upper (c : ascii) : bool :=
  (65 <=? nat_of_ascii c)%nat && (nat_of_ascii c <=? 90)%nat.

Definition is_lower (c : ascii) : bool :=
  (97 <=? nat_of_ascii c)%nat && (nat_of_ascii c <=? 122)%nat.

Definition is_digit (c : ascii) : bool :=
  (48 <=? nat_of_ascii c)%nat && (nat_of_ascii c <=? 57)%nat.

Definition lower_char (c : ascii) : ascii :=
  if is_upper c then ascii_of_nat (nat_of_ascii c + 32) else c.

Definition upper_char (c : ascii) : ascii :=
  if is_lower c then ascii_of_nat (nat_of_ascii c - 32) else c.

Fixpoint map_chars (f : ascii -> ascii) (s : string) : string :=
  match s with
  | EmptyString => EmptyString
  | String c s' => String (f c) (map_chars f s')
  end.

(** [str.lower()] and [str.upper()] on the ASCII range: the letters [A-Z]
    and [a-z] change case, every other byte is kept.  [upper] is applied to
    the validation policy, which is annotated as one of two ASCII
    literals. *)
Definition lower : string -> string := map_chars lower_char.
Definition upper : string -> string := map_chars upper_char.

(** A string of ASCII characters only. *)
Definition is_ascii_char (c : ascii) : bool := (nat_of_ascii c <? 128)%nat.

Fixpoint is_ascii (s : string) : bool :=
  match s with
  | EmptyString => true
  | String c s' => is_ascii_char c && is_ascii s'
  end.

(** [str.lower()] as the interpreter computes it, with the case mappings of
    the Unicode tables, which are not written out here.  On a string of
    ASCII characters it is [lower]. *)
Class Unicode : Type := {
  str_lower : string -> string;
  str_lower_ascii : forall s, is_ascii s = true -> str_lower s = lower s;
}.

(** [str(n)] for an [int]. *)
Definition str_of_int (z : Z) : string := NilZero.string_of_int (Z.to_int z).

(** [s.startswith(p)], returning what follows the prefix. *)
Fixpoint strip_prefix (p s : string) : option string :=
  match p with
  | EmptyString => Some s
  | String a p' =>
      match s with
      | EmptyString => None
      | String b s' => if Ascii.eqb a b then strip_prefix p' s' else None
      end
  end.

(** The longest prefix of decimal digits, and what follows it. *)
Fixpoint span_digits (s : string) : string * string :=
  match s with
  | EmptyString => (EmptyString, EmptyString)
  | String c s' =>
      if is_digit c
      then let (d, r) := span_digits s' in (String c d, r)
      else (EmptyString, s)
  end.

(** [int(s)] on a string of decimal digits. *)
Fixpoint int_of_digits_from (acc : Z) (s : string) : Z :=
  match s with
  | EmptyString => acc
  | String c s' =>
      int_of_digits_from (10 * acc + Z.of_nat (nat_of_ascii c - 48))%Z s'
  end.

Definition int_of_digits : string -> Z := int_of_digits_from 0%Z.

(** ** Exceptions and results *)

(** The payload of [RestAPIError]: the HTTP status of the response and the
    backend's own error code. *)
Record RestError : Type := mkRestError {
  status_code : Z;
  error_code : Z;
}.

Inductive PyExc : Type :=
| FeatureStoreException (msg : string)
| RestAPIError (e : RestError)
| TypeError (msg : string)
| ValueError (msg : string)
| JSONDecodeError (msg : string)      (* a subclass of ValueError *)
| AttributeError (msg : string)
| AssertionError (msg : string)
| IllTypedArgument (param : string).
(** [IllTypedArgument] is not a Python exception: it marks a keyword
    argument whose value lies outside the annotated type of the
    parameter, or outside the values on which the embedding follows
    Python, where the typed embedding stops following Python. *)



Inductive result (A : Type) : Type :=
| Ok (a : A)
| Raise (e : PyExc).
Arguments Ok {A} a.
Arguments Raise {A} e.

Definition rbind {A B} (r : result A) (k : A -> result B) : result B :=
  match r with
  | Ok a => k a
  | Raise e => Raise e
  end.

(** A list comprehension whose body can raise: the first exception wins. *)
Fixpoint traverse {A B} (f : A -> result B) (l : list A) : result (list B) :=
  match l with
  | [] => Ok []
  | a :: l' => rbind (f a) (fun b => rbind (traverse f l') (fun bs => Ok (b :: bs)))
  end.

(** ** Methods: state and exceptions

    A method runs on a state [S] (the object, the session, the requests
    sent so far) and either returns or raises; what it did to the state
    before raising stays done. *)

Definition M (S A : Type) : Type := S -> result A * S.

Definition ret {S A} (a : A) : M S A := fun s => (Ok a, s).

Definition raise {S A} (e : PyExc) : M S A := fun s => (Raise e, s).

Definition bind {S A B} (m : M S A) (k : A -> M S B) : M S B :=
  fun s =>
    match m s with
    | (Ok a, s') => k a s'
    | (Raise e, s') => (Raise e, s')
    end.

Definition gets {S A} (f : S -> A) : M S A := fun s => (Ok (f s), s).

Definition modify {S} (f : S -> S) : M S unit := fun s => (Ok tt, f s).

Definition lift {S A} (r : result A) : M S A := fun s => (r, s).

(** [json.loads] of a string returns or raises [JSONDecodeError];
    [json.dumps] returns or raises [TypeError].  A JSON codec is given by
    two partial functions, and these turn [None] into the exception. *)
Definition decoded {A} (o : option A) : result A :=
  match o with
  | Some a => Ok a
  | None => Raise (JSONDecodeError "the text is not a JSON document")
  end.

Definition encoded {A} (o : option A) : result A :=
  match o with
  | Some a => Ok a
  | None => Raise (TypeError "Object is not JSON serializable")
  end.

(** ** Values

    [O] is the type of the class instances that can occur inside a value. *)

#[local] Unset Elimination Schemes.
Inductive PyVal (O : Type) : Type :=
| PyNone
| PyBool (b : bool)
| PyInt (z : Z)
| PyFloat (literal : string)
| PyStr (s : string)
| PyList (l : list (PyVal O))
| PyDict (items : list (string * PyVal O))
| PyObj (o : O).
#[local] Set Elimination Schemes.
Arguments PyNone {O}.
Arguments PyBool {O} b.
Arguments PyInt {O} z.
Arguments PyFloat {O} literal.
Arguments PyStr {O} s.
Arguments PyList {O} l.
Arguments PyDict {O} items.
Arguments PyObj {O} o.

(** ** Dictionaries with string keys, in insertion order *)

Fixpoint dict_get {V} (k : string) (d : list (string * V)) : option V :=
  match d with
  | [] => None
  | (k', v) :: d' => if String.eqb k k' then Some v else dict_get k d'
  end.

(** [d[k] = v]: an existing key keeps its place. *)
Fixpoint dict_set {V} (k : string) (v : V) (d : list (string * V))
  : list (string * V) :=
  match d with
  | [] => [(k, v)]
  | (k', v') :: d' =>
      if String.eqb k k' then (k, v) :: d' else (k', v') :: dict_set k v d'
  end.

(** [{k: v for k, v in items}]. *)
Definition dict_of_items {V} (items : list (string * V)) : list (string * V) :=
  fold_left (fun d kv => dict_set (fst kv) (snd kv) d) items [].

Definition of_option_int {O} (o : option Z) : PyVal O :=
  match o with
  | Some z => PyInt z
  | None => PyNone
  end.

(** Truthiness of an [Optional[int]]: [None] and [0] are falsy. *)
Definition truthy_id (o : option Z) : bool :=
  match o with
  | Some z => negb (Z.eqb z 0)
  | None => false
  end.

(** ** [humps.decamelize] on containers

    [humps] is a third-party package.  On a list or a mapping it rewrites
    every key, recursively, and leaves every other value alone
    ([_process_keys]); on a key it is the string function [fn], which the
    embedding takes as a parameter. *)

Fixpoint process_keys {O} (fn : string -> string) (v : PyVal O) : PyVal O :=
  match v with
  | PyList l => PyList (map (process_keys fn) l)
  | PyDict items =>
      PyDict (dict_of_items
                (map (fun kv => (fn (fst kv), process_keys fn (snd kv))) items))
  | _ => v
  end.

Definition decamelize_dict {O} (fn : string -> string)
    (d : list (string * PyVal O)) : list (string * PyVal O) :=
  dict_of_items (map (fun kv => (fn (fst kv), process_keys fn (snd kv))) d).

End Py.

Export Py.

Declare Scope py_scope.
Delimit Scope py_scope with py.
Notation "x <- m ;; k" := (bind m (fun x => k))
  (at level 61, m at next level, right associativity) : py_scope.
Notation "m ;;; k" := (bind m (fun _ => k))
  (at level 61, right associativity) : py_scope.

Local Open Scope py_scope.

(* ===================================================================== *)
(** * Part II.  The session and its transport                            *)
(* ===================================================================== *)

(** [client.get_instance()] is the session singleton.  The embedding keeps
    the two identifiers the modules read and the requests sent so far;
    [_send_request] appends the request and hands back what the backend
    answers, which is either the decoded JSON body or a [RestAPIError]. *)

Module Client.

Section Transport.

Context {O : Type}.

Record Request : Type := mkRequest {
  method : string;
  path_params : list (PyVal O);
  query_params : option (list (string * PyVal O));
  headers : option (list (string * string));
  data : option string;
}.

Record Session : Type := mkSession {
  _project_id : Z;
  _project_name : string;
  sent : list Request;
}.

(** The backend: its answer may depend on everything sent before. *)
Variable backend : list Request -> Request -> result (PyVal O).

Definition _send_request (r : Request) : M Session (PyVal O) :=
  fun c =>
    (backend (sent c) r,
     {| _project_id := _project_id c;
        _project_name := _project_name c;
        sent := sent c ++ [r] |}).

End Transport.

Arguments Request O : clear implicits.
Arguments Session O : clear implicits.

End Client.

(* ===================================================================== *)
(** * Part III.  hopsworks_common/core/opensearch_api.py                 *)
(* ===================================================================== *)

Module OpenSearchApi.

Import Client.

(** [OpenSearchApi.get_project_index].  The [usage.method_logger]
    decorator only records that the method was called. *)
Definition get_project_index {O} `{Unicode} (index : string)
  : M (Session O) string :=
  _project_name <- gets (@_project_name O) ;;
  ret (str_lower (_project_name ++ "_" ++ index)).

End OpenSearchApi.

(* ===================================================================== *)
(** * Part IV.  hsml/core/model_api.py                                   *)
(* ===================================================================== *)

Module ModelApi.

Import Client.

(** The attributes of [hsml.model.Model] and [tag.Tag] that the module
    reads or writes. *)
Record Model : Type := mkModel {
  id : Z;
  name : string;
  version : Z;
  model_registry_id : Z;
  shared_registry_project_name : option string;
}.

Record Tag : Type := mkTag {
  _name : string;
  _value : string;
}.

(** [explicit_provenance.Links.Direction] and [Links.Type]. *)
Inductive Direction : Type := UPSTREAM | DOWNSTREAM.
Inductive LinkType : Type := FEATURE_VIEW | TRAINING_DATASET | MODEL.

Inductive Obj (Links : Type) : Type :=
| OModel (m : Model)
| OTag (t : Tag)
| OLinks (l : Links).
Arguments OModel {Links} m.
Arguments OTag {Links} t.
Arguments OLinks {Links} l.

(** What the module calls but does not define. *)
Class Collaborators : Type := {
  (** [explicit_provenance.Links] with its [is_empty] and decoder *)
  Links : Type;
  Links_is_empty : Links -> bool;
  Links_from_response_json :
    PyVal (Obj Links) -> Direction -> LinkType -> Links;
  (** [model.Model.from_response_json] and [tag.Tag.from_response_json] *)
  Model_from_response_json : PyVal (Obj Links) -> PyVal (Obj Links);
  Tag_from_response_json : PyVal (Obj Links) -> PyVal (Obj Links);
  (** [json.loads] *)
  json_loads : string -> option (PyVal (Obj Links));
  (** the backend behind [_client._send_request] *)
  backend :
    list (Request (Obj Links)) -> Request (Obj Links) ->
    result (PyVal (Obj Links));
}.

Section Api.

Context `{Collaborators}.

Abbreviation Val := (PyVal (Obj Links)).
Abbreviation Api := (M (Session (Obj Links))).

Definition send (r : Request (Obj Links)) : Api Val :=
  _send_request backend r.

(** Modelled from the spec: [decorators.catch_not_found] is not among
    the sources.  The spec has the backend's 404-class responses caught
    at the wrapper boundary of the read operations and turned into the
    fallback value, every other error status being raised unchanged.
    A response is of that class when its status is 404. *)
Definition reports_not_found (e : RestError) : bool :=
  Z.eqb (status_code e) 404.

(** Modelled from the spec: the decorator itself.  [inst] names the class
    whose absence is tolerated; the spec gives it no part in the test. *)
Definition catch_not_found {A} (inst : string) (fallback_return : A)
    (f : Api A) : Api A :=
  fun c =>
    match f c with
    | (Raise (RestAPIError e), c') =>
        if reports_not_found e
        then (Ok fallback_return, c')
        else (Raise (RestAPIError e), c')
    | r => r
    end.

(** [x.shared_registry_project_name = v] on whatever [x] is. *)
Definition set_shared_registry_project_name
    (v : option string) (x : Val) : result Val :=
  match x with
  | PyObj (OModel m) =>
      Ok (PyObj (OModel {| id := id m; name := name m; version := version m;
                           model_registry_id := model_registry_id m;
                           shared_registry_project_name := v |}))
  | PyObj o => Ok (PyObj o)
  | _ => Raise (AttributeError "shared_registry_project_name")
  end.

(** [for x in v]: the items a [for] loop visits. *)
Definition py_iter (v : Val) : result (list Val) :=
  match v with
  | PyList l => Ok l
  | PyDict items => Ok (map (fun kv => PyStr (fst kv)) items)
  | PyStr s => Ok (map (fun c => PyStr (String c EmptyString)) (list_ascii_of_string s))
  | _ => Raise (TypeError "object is not iterable")
  end.

(** The body of [ModelApi.get], under its decorator below. *)
Definition get_undecorated (name : string) (version : Z)
    (model_registry_id : Z) (shared_registry_project_name : option string)
  : Api Val :=
  project_id <- gets (@_project_id _) ;;
  let path_params :=
    [ PyStr "project"; PyInt project_id; PyStr "modelregistries";
      PyInt model_registry_id; PyStr "models";
      PyStr (name ++ "_" ++ str_of_int version) ] in
  let query_params := [ ("expand", PyStr "trainingdatasets") ] in
  model_json <- send (mkRequest "GET" path_params (Some query_params) None None) ;;
  let model_meta := Model_from_response_json model_json in
  model_meta <- lift (set_shared_registry_project_name
                        shared_registry_project_name model_meta) ;;
  ret model_meta.

Definition get (name : string) (version : Z) (model_registry_id : Z)
    (shared_registry_project_name : option string) : Api Val :=
  catch_not_found "hsml.model.Model" PyNone
    (get_undecorated name version model_registry_id
       shared_registry_project_name).

(** The query parameters [get_models] builds before it sends. *)
Definition get_models_query_params (name : string)
    (metric direction : option string) : list (string * Val) :=
  let query_params :=
    [ ("expand", PyStr "trainingdatasets");
      ("filter_by", PyList [PyStr ("name_eq:" ++ name)]) ] in
  match metric, direction with
  | Some metric, Some direction =>
      let direction :=
        if String.eqb (lower direction) "max" then "desc"
        else if String.eqb (lower direction) "min" then "asc"
        else direction in
      let query_params :=
        dict_set "sort_by" (PyStr (metric ++ ":" ++ direction)) query_params in
      dict_set "limit" (PyStr "1") query_params
  | _, _ => query_params
  end.

Definition get_models (name : string) (model_registry_id : Z)
    (shared_registry_project_name : option string)
    (metric direction : option string) : Api Val :=
  project_id <- gets (@_project_id _) ;;
  let path_params :=
    [ PyStr "project"; PyInt project_id; PyStr "modelregistries";
      PyInt model_registry_id; PyStr "models" ] in
  let query_params := get_models_query_params name metric direction in
  model_json <- send (mkRequest "GET" path_params (Some query_params) None None) ;;
  let models_meta := Model_from_response_json model_json in
  items <- lift (py_iter models_meta) ;;
  items <- lift (traverse (set_shared_registry_project_name
                             shared_registry_project_name) items) ;;
  ret (match models_meta with
       | PyList _ => PyList items
       | _ => models_meta
       end).

(** [{tag._name: json.loads(tag._value) for tag in tags}]. *)
Fixpoint tags_comprehension (acc : list (string * Val)) (tags : list Val)
  : result (list (string * Val)) :=
  match tags with
  | [] => Ok acc
  | PyObj (OTag t) :: tags' =>
      rbind (decoded (json_loads (_value t)))
            (fun v => tags_comprehension (dict_set (_name t) v acc) tags')
  | _ :: _ => Raise (AttributeError "_name")
  end.

Definition get_tags_undecorated (model_instance : Model) : Api Val :=
  project_id <- gets (@_project_id _) ;;
  let path_params :=
    [ PyStr "project"; PyInt project_id; PyStr "modelregistries";
      PyStr (str_of_int (model_registry_id model_instance));
      PyStr "models"; PyInt (id model_instance); PyStr "tags" ] in
  reply <- send (mkRequest "GET" path_params None None None) ;;
  tags <- lift (py_iter (Tag_from_response_json reply)) ;;
  d <- lift (tags_comprehension [] tags) ;;
  ret (PyDict d).

Definition get_tags (model_instance : Model) : Api Val :=
  catch_not_found "hopsworks_common.tag.Tag" (PyDict [])
    (get_tags_undecorated model_instance).

(** The requests the three methods above send, for the statements of
    Part VII. *)
Definition get_request (project_id : Z) (name : string) (version : Z)
    (model_registry_id : Z) : Request (Obj Links) :=
  mkRequest "GET"
    [ PyStr "project"; PyInt project_id; PyStr "modelregistries";
      PyInt model_registry_id; PyStr "models";
      PyStr (name ++ "_" ++ str_of_int version) ]
    (Some [ ("expand", PyStr "trainingdatasets") ]) None None.

Definition get_models_request (project_id : Z) (name : string)
    (model_registry_id : Z) (metric direction : option string)
  : Request (Obj Links) :=
  mkRequest "GET"
    [ PyStr "project"; PyInt project_id; PyStr "modelregistries";
      PyInt model_registry_id; PyStr "models" ]
    (Some (get_models_query_params name metric direction)) None None.

Definition get_tags_request (project_id : Z) (model_instance : Model)
  : Request (Obj Links) :=
  mkRequest "GET"
    [ PyStr "project"; PyInt project_id; PyStr "modelregistries";
      PyStr (str_of_int (model_registry_id model_instance));
      PyStr "models"; PyInt (id model_instance); PyStr "tags" ]
    None None None.

(** What [get_tags] does with the backend's answer, for the statements of
    Part VII. *)
Definition decode_tags (reply : Val) : result Val :=
  rbind (py_iter (Tag_from_response_json reply)) (fun tags =>
  rbind (tags_comprehension [] tags) (fun d => Ok (PyDict d))).

(** The two provenance lookups differ in the depth and the link type. *)
Definition provenance_request (project_id : Z) (model_instance : Model)
    (upstreamLvls : Z) : Request (Obj Links) :=
  let path_params :=
    [ PyStr "project"; PyInt project_id; PyStr "modelregistries";
      PyStr (str_of_int (model_registry_id model_instance));
      PyStr "models"; PyInt (id model_instance);
      PyStr "provenance"; PyStr "links" ] in
  let query_params :=
    [ ("expand", PyStr "provenance_artifacts");
      ("upstreamLvls", PyInt upstreamLvls);
      ("downstreamLvls", PyInt 0) ] in
  mkRequest "GET" path_params (Some query_params) None None.

Definition get_feature_view_provenance (model_instance : Model) : Api Val :=
  project_id <- gets (@_project_id _) ;;
  links_json <- send (provenance_request project_id model_instance 2) ;;
  let links := Links_from_response_json links_json UPSTREAM FEATURE_VIEW in
  if negb (Links_is_empty links) then ret (PyObj (OLinks links))
  else ret PyNone.

Definition get_training_dataset_provenance (model_instance : Model)
  : Api Val :=
  project_id <- gets (@_project_id _) ;;
  links_json <- send (provenance_request project_id model_instance 1) ;;
  let links := Links_from_response_json links_json UPSTREAM TRAINING_DATASET in
  if negb (Links_is_empty links) then ret (PyObj (OLinks links))
  else ret PyNone.

End Api.

End ModelApi.

(* ===================================================================== *)
(** * Part V.  hsfs/expectation_suite.py                                 *)
(* ===================================================================== *)

Module ExpectationSuite.

(** The two engines a suite holds once it is attached.  Their classes are
    not among the sources: an engine is what it was built from, and a call
    of one of its backend methods is an [EngineCall], answered by the
    backend. *)
Record ExpectationEngine : Type := mkExpectationEngine {
  ee_feature_store_id : Z;
  ee_feature_group_id : Z;
  ee_expectation_suite_id : Z;
}.

Record ExpectationSuiteEngine : Type := mkExpectationSuiteEngine {
  se_feature_store_id : Z;
  se_feature_group_id : Z;
}.

(** Class instances inside values: the local [GeExpectation] and
    [great_expectations.core.ExpectationConfiguration]. *)
Inductive Obj (E C : Type) : Type :=
| OExpectation (e : E)
| OGeConfig (c : C).
Arguments OExpectation {E C} e.
Arguments OGeConfig {E C} c.

Inductive EngineCall (E C : Type) : Type :=
| Call_get (eng : ExpectationEngine) (expectation_id : Z)
| Call_create (eng : ExpectationEngine) (expectation : E)
| Call_update (eng : ExpectationEngine) (expectation : E)
| Call_delete (eng : ExpectationEngine) (expectation_id : option Z)
| Call_get_expectations_by_suite_id (eng : ExpectationEngine)
| Call_update_metadata_from_fields (eng : ExpectationSuiteEngine)
    (fields : list (string * PyVal (Obj E C))).
Arguments Call_get {E C} eng expectation_id.
Arguments Call_create {E C} eng expectation.
Arguments Call_update {E C} eng expectation.
Arguments Call_delete {E C} eng expectation_id.
Arguments Call_get_expectations_by_suite_id {E C} eng.
Arguments Call_update_metadata_from_fields {E C} eng fields.

Definition is_update_metadata {E C} (c : EngineCall E C) : bool :=
  match c with
  | Call_update_metadata_from_fields _ _ => true
  | _ => false
  end.

(** What the module imports. *)
Class Collaborators : Type := {
  (** [hsfs.ge_expectation.GeExpectation]: the class, its constructor
      called with keyword arguments, [to_json_dict] and [to_ge_type] *)
  GeExpectation : Type;
  (** [great_expectations.core.ExpectationConfiguration] and its
      [to_json_dict] *)
  ExpectationConfiguration : Type;
  GeExpectation_new :
    list (string * PyVal (Obj GeExpectation ExpectationConfiguration)) ->
    result GeExpectation;
  GeExpectation_to_json_dict :
    GeExpectation ->
    list (string * PyVal (Obj GeExpectation ExpectationConfiguration));
  GeExpectation_to_ge_type :
    GeExpectation ->
    result (PyVal (Obj GeExpectation ExpectationConfiguration));
  ExpectationConfiguration_to_json_dict :
    ExpectationConfiguration ->
    list (string * PyVal (Obj GeExpectation ExpectationConfiguration));
  (** [hsfs.core.constants] *)
  HAS_GREAT_EXPECTATIONS : bool;
  initialise_expectation_suite_for_single_expectation_api_message : string;
  (** [json.loads], [json.dumps] and [humps.decamelize] on a key *)
  json_loads :
    string -> option (PyVal (Obj GeExpectation ExpectationConfiguration));
  json_dumps :
    PyVal (Obj GeExpectation ExpectationConfiguration) -> option string;
  decamelize_key : string -> string;
  (** [ExpectationEngine.check_for_id]: raises when the expectation
      carries no id, and may record the id it finds *)
  check_for_id : ExpectationEngine -> GeExpectation -> result GeExpectation;
  (** the backend behind the engines *)
  backend :
    list (EngineCall GeExpectation ExpectationConfiguration) ->
    EngineCall GeExpectation ExpectationConfiguration ->
    result (PyVal (Obj GeExpectation ExpectationConfiguration));
}.

Section Suite.

Context `{Collaborators}.

Abbreviation Val := (PyVal (Obj GeExpectation ExpectationConfiguration)).
Abbreviation Call := (EngineCall GeExpectation ExpectationConfiguration).

(** The attributes of an [ExpectationSuite].  [_expectation_suite_engine]
    is [None] while the attribute does not exist yet, which the [meta]
    setter asks with [hasattr]. *)
Record Suite : Type := mkSuite {
  _id : option Z;
  _expectation_suite_name : string;
  _ge_cloud_id : Val;
  _data_asset_type : Val;
  _run_validation : bool;
  _validation_ingestion_policy : string;
  _expectations : list GeExpectation;
  _href : option string;
  _feature_store_id : option Z;
  _feature_group_id : option Z;
  _meta : Val;
  _expectation_engine : option ExpectationEngine;
  _expectation_suite_engine : option (option ExpectationSuiteEngine);
}.

Definition with_id (v : option Z) (s : Suite) : Suite :=
  mkSuite v (_expectation_suite_name s) (_ge_cloud_id s) (_data_asset_type s)
    (_run_validation s) (_validation_ingestion_policy s) (_expectations s)
    (_href s) (_feature_store_id s) (_feature_group_id s) (_meta s)
    (_expectation_engine s) (_expectation_suite_engine s).

Definition with_expectation_suite_name (v : string) (s : Suite) : Suite :=
  mkSuite (_id s) v (_ge_cloud_id s) (_data_asset_type s)
    (_run_validation s) (_validation_ingestion_policy s) (_expectations s)
    (_href s) (_feature_store_id s) (_feature_group_id s) (_meta s)
    (_expectation_engine s) (_expectation_suite_engine s).

Definition with_ge_cloud_id (v : Val) (s : Suite) : Suite :=
  mkSuite (_id s) (_expectation_suite_name s) v (_data_asset_type s)
    (_run_validation s) (_validation_ingestion_policy s) (_expectations s)
    (_href s) (_feature_store_id s) (_feature_group_id s) (_meta s)
    (_expectation_engine s) (_expectation_suite_engine s).

Definition with_data_asset_type (v : Val) (s : Suite) : Suite :=
  mkSuite (_id s) (_expectation_suite_name s) (_ge_cloud_id s) v
    (_run_validation s) (_validation_ingestion_policy s) (_expectations s)
    (_href s) (_feature_store_id s) (_feature_group_id s) (_meta s)
    (_expectation_engine s) (_expectation_suite_engine s).

Definition with_run_validation (v : bool) (s : Suite) : Suite :=
  mkSuite (_id s) (_expectation_suite_name s) (_ge_cloud_id s)
    (_data_asset_type s) v (_validation_ingestion_policy s) (_expectations s)
    (_href s) (_feature_store_id s) (_feature_group_id s) (_meta s)
    (_expectation_engine s) (_expectation_suite_engine s).

Definition with_validation_ingestion_policy (v : string) (s : Suite)
  : Suite :=
  mkSuite (_id s) (_expectation_suite_name s) (_ge_cloud_id s)
    (_data_asset_type s) (_run_validation s) v (_expectations s)
    (_href s) (_feature_store_id s) (_feature_group_id s) (_meta s)
    (_expectation_engine s) (_expectation_suite_engine s).

Definition with_expectations (v : list GeExpectation) (s : Suite) : Suite :=
  mkSuite (_id s) (_expectation_suite_name s) (_ge_cloud_id s)
    (_data_asset_type s) (_run_validation s) (_validation_ingestion_policy s)
    v (_href s) (_feature_store_id s) (_feature_group_id s) (_meta s)
    (_expectation_engine s) (_expectation_suite_engine s).

Definition with_meta (v : Val) (s : Suite) : Suite :=
  mkSuite (_id s) (_expectation_suite_name s) (_ge_cloud_id s)
    (_data_asset_type s) (_run_validation s) (_validation_ingestion_policy s)
    (_expectations s) (_href s) (_feature_store_id s) (_feature_group_id s)
    v (_expectation_engine s) (_expectation_suite_engine s).

Definition with_expectation_engine (v : option ExpectationEngine)
    (s : Suite) : Suite :=
  mkSuite (_id s) (_expectation_suite_name s) (_ge_cloud_id s)
    (_data_asset_type s) (_run_validation s) (_validation_ingestion_policy s)
    (_expectations s) (_href s) (_feature_store_id s) (_feature_group_id s)
    (_meta s) v (_expectation_suite_engine s).

Definition with_expectation_suite_engine
    (v : option (option ExpectationSuiteEngine)) (s : Suite) : Suite :=
  mkSuite (_id s) (_expectation_suite_name s) (_ge_cloud_id s)
    (_data_asset_type s) (_run_validation s) (_validation_ingestion_policy s)
    (_expectations s) (_href s) (_feature_store_id s) (_feature_group_id s)
    (_meta s) (_expectation_engine s) v.

(** A method runs on the suite and on the engine calls made so far. *)
Record State : Type := mkState {
  self : Suite;
  calls : list Call;
}.

Abbreviation Method := (M State).

Definition assign (f : Suite -> Suite) : Method unit :=
  modify (fun st => mkState (f (self st)) (calls st)).

Definition call (c : Call) : Method Val :=
  fun st => (backend (calls st) c, mkState (self st) (calls st ++ [c])).

(** [type(x)] as [str.format] prints it. *)
Definition type_name (v : Val) : string :=
  match v with
  | PyNone => "NoneType"
  | PyBool _ => "bool"
  | PyInt _ => "int"
  | PyFloat _ => "float"
  | PyStr _ => "str"
  | PyList _ => "list"
  | PyDict _ => "dict"
  | PyObj (OExpectation _) => "hsfs.ge_expectation.GeExpectation"
  | PyObj (OGeConfig _) =>
      "great_expectations.core.expectation_configuration.ExpectationConfiguration"
  end.

Definition type_repr (v : Val) : string :=
  "<class '" ++ type_name v ++ "'>".

(** ** Serialisation *)

Definition to_dict (s : Suite) : result (list (string * Val)) :=
  rbind (encoded (json_dumps (_meta s))) (fun meta =>
  Ok [ ("id", of_option_int (_id s));
       ("featureStoreId", of_option_int (_feature_store_id s));
       ("featureGroupId", of_option_int (_feature_group_id s));
       ("expectationSuiteName", PyStr (_expectation_suite_name s));
       ("expectations",
         PyList (map (fun e => PyObj (OExpectation e)) (_expectations s)));
       ("meta", PyStr meta);
       ("geCloudId", _ge_cloud_id s);
       ("dataAssetType", _data_asset_type s);
       ("runValidation", PyBool (_run_validation s));
       ("validationIngestionPolicy",
         PyStr (upper (_validation_ingestion_policy s))) ]).

Definition to_json_dict (s : Suite) (decamelize : bool)
  : list (string * Val) :=
  let the_dict :=
    [ ("id", of_option_int (_id s));
      ("featureStoreId", of_option_int (_feature_store_id s));
      ("featureGroupId", of_option_int (_feature_group_id s));
      ("expectationSuiteName", PyStr (_expectation_suite_name s));
      ("expectations",
        PyList (map (fun e => PyDict (GeExpectation_to_json_dict e))
                    (_expectations s)));
      ("meta", _meta s);
      ("geCloudId", _ge_cloud_id s);
      ("dataAssetType", _data_asset_type s);
      ("runValidation", PyBool (_run_validation s));
      ("validationIngestionPolicy",
        PyStr (upper (_validation_ingestion_policy s))) ] in
  if decamelize then decamelize_dict decamelize_key the_dict else the_dict.

(** ** The href of a suite

    [re.search] with the pattern
    [\/featurestores\/(\d+)\/featuregroups\/(\d+)\/expectationsuite*]:
    the leftmost place where the pattern matches.  Each [\d+] is
    followed by a literal [/], so only its longest run of digits can
    match; the final [e*] matches anything. *)
Definition match_href_here (s : string) : option (string * string) :=
  match strip_prefix "/featurestores/" s with
  | None => None
  | Some r1 =>
      let (d1, r2) := span_digits r1 in
      if String.eqb d1 "" then None else
      match strip_prefix "/featuregroups/" r2 with
      | None => None
      | Some r3 =>
          let (d2, r4) := span_digits r3 in
          if String.eqb d2 "" then None else
          match strip_prefix "/expectationsuit" r4 with
          | None => None
          | Some _ => Some (d1, d2)
          end
      end
  end.

Fixpoint search_href (s : string) : option (string * string) :=
  match match_href_here s with
  | Some g => Some g
  | None =>
      match s with
      | EmptyString => None
      | String _ s' => search_href s'
      end
  end.

(** [int(s)] on a run of digits.  Beyond [int_max_str_digits] digits the
    answer depends on the version and the settings of the interpreter
    ([sys.set_int_max_str_digits]), and is not followed. *)
Definition int_max_str_digits : Z := 4300.

Definition within_int_limit (digits : string) : bool :=
  (Z.of_nat (String.length digits) <=? int_max_str_digits)%Z.

(** On a [str], [\d] and [int] accept every decimal digit of the Unicode
    tables.  The embedding follows the hrefs of ASCII characters, where
    the digits are [0-9], and marks the others. *)
Definition _init_feature_store_and_feature_group_ids_from_href
    (href : string) : result (Z * Z) :=
  if negb (is_ascii href) then Raise (IllTypedArgument "href") else
  match search_href href with
  | Some (feature_store_id, feature_group_id) =>
      if within_int_limit feature_store_id && within_int_limit feature_group_id
      then Ok (int_of_digits feature_store_id, int_of_digits feature_group_id)
      else Raise (IllTypedArgument "href")
  | None => Raise (AttributeError "'NoneType' object has no attribute 'groups'")
  end.

(** ** Conversion of an expectation *)

Definition _convert_expectation (expectation : Val) : result GeExpectation :=
  match expectation with
  | PyObj (OGeConfig c) =>
      if HAS_GREAT_EXPECTATIONS
      then GeExpectation_new (ExpectationConfiguration_to_json_dict c)
      else Raise (TypeError ("Expectation of type " ++ type_repr expectation
                              ++ " is not supported."))
  | PyObj (OExpectation e) => Ok e
  | PyDict d => GeExpectation_new d
  | _ => Raise (TypeError ("Expectation of type " ++ type_repr expectation
                            ++ " is not supported."))
  end.

(** [x.to_ge_type()] on what an engine returned. *)
Definition to_ge_type (x : Val) : result Val :=
  match x with
  | PyObj (OExpectation e) => GeExpectation_to_ge_type e
  | _ => Raise (AttributeError "to_ge_type")
  end.

(** ** Property setters *)

(** [update_metadata_from_fields] of [self._expectation_suite_engine],
    called with the entries of [humps.decamelize(self.to_dict())]: the
    attribute is looked up before the argument is evaluated. *)
Definition update_metadata : Method unit :=
  s <- gets self ;;
  match _expectation_suite_engine s with
  | Some (Some eng) =>
      fields <- lift (to_dict s) ;;
      _ <- call (Call_update_metadata_from_fields eng
                   (decamelize_dict decamelize_key fields)) ;;
      ret tt
  | _ => raise (AttributeError "update_metadata_from_fields")
  end.

Definition set_id (id : Z) : Method unit :=
  assign (with_id (Some id)).

Definition set_expectation_suite_name (expectation_suite_name : string)
  : Method unit :=
  assign (with_expectation_suite_name expectation_suite_name) ;;;
  s <- gets self ;;
  if truthy_id (_id s) then update_metadata else ret tt.

Definition set_data_asset_type (data_asset_type : Val) : Method unit :=
  assign (with_data_asset_type data_asset_type).

(** The setter of [ge_cloud_id] is declared under the name [ge_coud_id]. *)
Definition set_ge_coud_id (ge_cloud_id : Val) : Method unit :=
  assign (with_ge_cloud_id ge_cloud_id).

Definition set_run_validation (run_validation : bool) : Method unit :=
  assign (with_run_validation run_validation) ;;;
  s <- gets self ;;
  if truthy_id (_id s) then update_metadata else ret tt.

Definition set_validation_ingestion_policy
    (validation_ingestion_policy : string) : Method unit :=
  assign (with_validation_ingestion_policy (upper validation_ingestion_policy)) ;;;
  s <- gets self ;;
  if truthy_id (_id s) then update_metadata else ret tt.

Definition set_expectations (expectations : Val) : Method unit :=
  match expectations with
  | PyNone => assign (with_expectations [])
  | PyList l =>
      converted <- lift (traverse _convert_expectation l) ;;
      assign (with_expectations converted)
  | _ =>
      raise (TypeError ("Type " ++ type_repr expectations
                         ++ " not supported. Expectations must be None or a list."))
  end.

Definition set_meta (meta : Val) : Method unit :=
  match meta with
  | PyDict _ => assign (with_meta meta)
  | PyStr text =>
      parsed <- lift (decoded (json_loads text)) ;;
      assign (with_meta parsed)
  | _ => raise (ValueError "Meta field must be stringified json or dict.")
  end ;;;
  s <- gets self ;;
  match _expectation_suite_engine s with
  | Some _ => if truthy_id (_id s) then update_metadata else ret tt
  | None => ret tt
  end.

(** ** The constructor *)

Record InitArgs : Type := mkInitArgs {
  expectation_suite_name : string;
  expectations : Val;
  meta : Val;
  id : option Z;
  run_validation : bool;
  validation_ingestion_policy : string;
  feature_store_id : option Z;
  feature_group_id : option Z;
  href : option string;
  kwargs : list (string * Val);
}.

Definition kwargs_get (key : string) (kwargs : list (string * Val)) : Val :=
  match dict_get key kwargs with
  | Some v => v
  | None => PyNone
  end.

(** The attributes as they stand when [__init__] reaches its two setter
    calls.  [_meta] has not been assigned yet and is not read before
    the [meta] setter assigns it; the two engine attributes do not
    exist yet. *)
Definition init_attributes (a : InitArgs) (parents : option Z * option Z)
  : Suite :=
  {| _id := id a;
     _expectation_suite_name := expectation_suite_name a;
     _ge_cloud_id := kwargs_get "ge_cloud_id" (kwargs a);
     _data_asset_type := kwargs_get "data_asset_type" (kwargs a);
     _run_validation := run_validation a;
     _validation_ingestion_policy := upper (validation_ingestion_policy a);
     _expectations := [];
     _href := href a;
     _feature_store_id := fst parents;
     _feature_group_id := snd parents;
     _meta := PyNone;
     _expectation_engine := None;
     _expectation_suite_engine := None |}.

Definition init_parents (a : InitArgs) : result (option Z * option Z) :=
  match feature_store_id a, feature_group_id a with
  | Some fs, Some fg => Ok (Some fs, Some fg)
  | _, _ =>
      match href a with
      | Some href =>
          rbind (_init_feature_store_and_feature_group_ids_from_href href)
                (fun ids => Ok (Some (fst ids), Some (snd ids)))
      | None => Ok (None, None)
      end
  end.

(** The end of [__init__]: the engines, built only under [if self.id]. *)
Definition init_engines : Method unit :=
  assign (with_expectation_engine None) ;;;
  assign (with_expectation_suite_engine (Some None)) ;;;
  s <- gets self ;;
  match _id s with
  | Some suite_id =>
      if truthy_id (_id s) then
        match _feature_store_id s with
        | None =>
            raise (AssertionError
              "feature_store_id should not be None if expectation suite id is provided")
        | Some fs =>
            match _feature_group_id s with
            | None =>
                raise (AssertionError
                  "feature_group_id should not be None if expectation suite id is provided")
            | Some fg =>
                assign (with_expectation_engine
                          (Some (mkExpectationEngine fs fg suite_id))) ;;;
                assign (with_expectation_suite_engine
                          (Some (Some (mkExpectationSuiteEngine fs fg))))
            end
        end
      else ret tt
  | None => ret tt
  end.

(** [ExpectationSuite(...)], started while [calls0] have been made. *)
Definition __init__ (a : InitArgs) (calls0 : list Call)
  : result Suite * list Call :=
  match init_parents a with
  | Raise e => (Raise e, calls0)
  | Ok parents =>
      let body :=
        set_expectations (expectations a) ;;;
        set_meta (meta a) ;;;
        init_engines in
      match body (mkState (init_attributes a parents) calls0) with
      | (Ok _, st) => (Ok (self st), calls st)
      | (Raise e, st) => (Raise e, calls st)
      end
  end.

(** *** Calling the constructor with the entries of a dictionary as
    keyword arguments

    Keys that name a parameter are bound to it, the others are collected
    in [kwargs]; a required parameter without a key is a [TypeError].
    A value outside the annotated type of its parameter ends the
    embedding with [IllTypedArgument]. *)

Definition parameter_names : list string :=
  [ "expectation_suite_name"; "expectations"; "meta"; "id";
    "run_validation"; "validation_ingestion_policy"; "feature_store_id";
    "feature_group_id"; "href" ].

Definition required_parameters : list string :=
  [ "expectation_suite_name"; "expectations"; "meta" ].

Definition missing_parameters (d : list (string * Val)) : list string :=
  filter (fun p => match dict_get p d with Some _ => false | None => true end)
         required_parameters.

Definition extra_kwargs (d : list (string * Val)) : list (string * Val) :=
  filter (fun kv => negb (existsb (String.eqb (fst kv)) parameter_names)) d.

Definition arg_optional_int (p : string) (d : list (string * Val))
  : result (option Z) :=
  match dict_get p d with
  | None | Some PyNone => Ok None
  | Some (PyInt z) => Ok (Some z)
  | Some _ => Raise (IllTypedArgument p)
  end.

Definition arg_optional_str (p : string) (d : list (string * Val))
  : result (option string) :=
  match dict_get p d with
  | None | Some PyNone => Ok None
  | Some (PyStr s) => Ok (Some s)
  | Some _ => Raise (IllTypedArgument p)
  end.

Definition arg_str (p : string) (default : string) (d : list (string * Val))
  : result string :=
  match dict_get p d with
  | None => Ok default
  | Some (PyStr s) => Ok s
  | Some _ => Raise (IllTypedArgument p)
  end.

Definition arg_bool (p : string) (default : bool) (d : list (string * Val))
  : result bool :=
  match dict_get p d with
  | None => Ok default
  | Some (PyBool b) => Ok b
  | Some _ => Raise (IllTypedArgument p)
  end.

Definition arg_any (p : string) (d : list (string * Val)) : Val :=
  match dict_get p d with
  | Some v => v
  | None => PyNone
  end.

Definition bind_arguments (d : list (string * Val)) : result InitArgs :=
  match missing_parameters d with
  | (_ :: _) as missing =>
      Raise (TypeError ("__init__() missing required positional arguments: "
                         ++ String.concat ", " missing))
  | [] =>
      rbind (arg_str "expectation_suite_name" "" d) (fun a_name =>
      rbind (arg_optional_int "id" d) (fun a_id =>
      rbind (arg_bool "run_validation" true d) (fun a_run =>
      rbind (arg_str "validation_ingestion_policy" "always" d) (fun a_policy =>
      rbind (arg_optional_int "feature_store_id" d) (fun a_fs =>
      rbind (arg_optional_int "feature_group_id" d) (fun a_fg =>
      rbind (arg_optional_str "href" d) (fun a_href =>
      Ok {| expectation_suite_name := a_name;
            expectations := arg_any "expectations" d;
            meta := arg_any "meta" d;
            id := a_id;
            run_validation := a_run;
            validation_ingestion_policy := a_policy;
            feature_store_id := a_fs;
            feature_group_id := a_fg;
            href := a_href;
            kwargs := extra_kwargs d |})))))))
  end.

Definition new (d : list (string * Val)) (calls0 : list Call)
  : result Suite * list Call :=
  match bind_arguments d with
  | Raise e => (Raise e, calls0)
  | Ok a => __init__ a calls0
  end.

(** ** The engines, as the feature group wires them *)

Definition _init_expectation_engine (feature_store_id feature_group_id : Z)
  : Method unit :=
  s <- gets self ;;
  match _id s with
  | Some suite_id =>
      if truthy_id (_id s)
      then assign (with_expectation_engine
                     (Some (mkExpectationEngine feature_store_id
                              feature_group_id suite_id)))
      else raise (ValueError
                    initialise_expectation_suite_for_single_expectation_api_message)
  | None =>
      raise (ValueError
               initialise_expectation_suite_for_single_expectation_api_message)
  end.

Definition _init_expectation_suite_engine
    (feature_store_id feature_group_id : option Z) : Method unit :=
  s <- gets self ;;
  if truthy_id feature_group_id && truthy_id feature_store_id then
    match feature_store_id, feature_group_id with
    | Some fs, Some fg =>
        assign (with_expectation_suite_engine
                  (Some (Some (mkExpectationSuiteEngine fs fg))))
    | _, _ => ret tt
    end
  else if truthy_id (_feature_group_id s) && truthy_id (_feature_store_id s) then
    match _feature_store_id s, _feature_group_id s with
    | Some fs, Some fg =>
        assign (with_expectation_suite_engine
                  (Some (Some (mkExpectationSuiteEngine fs fg))))
    | _, _ => ret tt
    end
  else raise (ValueError
         "Provide feature_store_id or feature_group_id to use the expectation suite API").

(** ** The single-expectation API *)

Definition attach_first : PyExc :=
  FeatureStoreException
    initialise_expectation_suite_for_single_expectation_api_message.

(** [self._expectation_engine.<method>] on a suite whose engine may be
    [None]. *)
Definition the_expectation_engine (attr : string)
  : Method ExpectationEngine :=
  s <- gets self ;;
  match _expectation_engine s with
  | Some eng => ret eng
  | None => raise (AttributeError attr)
  end.

Definition get_expectation (expectation_id : Z) (ge_type : bool)
  : Method Val :=
  s <- gets self ;;
  match truthy_id (_id s), _expectation_engine s with
  | true, Some eng =>
      found <- call (Call_get eng expectation_id) ;;
      if ge_type then lift (to_ge_type found) else ret found
  | _, _ => raise attach_first
  end.

Definition add_expectation (expectation : Val) (ge_type : bool)
  : Method Val :=
  s <- gets self ;;
  if truthy_id (_id s) then
    converted_expectation <- lift (_convert_expectation expectation) ;;
    eng <- the_expectation_engine "create" ;;
    converted_expectation <- call (Call_create eng converted_expectation) ;;
    eng <- the_expectation_engine "get_expectations_by_suite_id" ;;
    fetched <- call (Call_get_expectations_by_suite_id eng) ;;
    set_expectations fetched ;;;
    if ge_type then lift (to_ge_type converted_expectation)
    else ret converted_expectation
  else raise attach_first.

Definition replace_expectation (expectation : Val) (ge_type : bool)
  : Method Val :=
  s <- gets self ;;
  if truthy_id (_id s) then
    converted_expectation <- lift (_convert_expectation expectation) ;;
    eng <- the_expectation_engine "check_for_id" ;;
    converted_expectation <- lift (check_for_id eng converted_expectation) ;;
    eng <- the_expectation_engine "update" ;;
    converted_expectation <- call (Call_update eng converted_expectation) ;;
    eng <- the_expectation_engine "get_expectations_by_suite_id" ;;
    fetched <- call (Call_get_expectations_by_suite_id eng) ;;
    set_expectations fetched ;;;
    if ge_type then lift (to_ge_type converted_expectation)
    else ret converted_expectation
  else raise attach_first.

Definition remove_expectation (expectation_id : option Z) : Method unit :=
  s <- gets self ;;
  if truthy_id (_id s) then
    eng <- the_expectation_engine "delete" ;;
    _ <- call (Call_delete eng expectation_id) ;;
    eng <- the_expectation_engine "get_expectations_by_suite_id" ;;
    fetched <- call (Call_get_expectations_by_suite_id eng) ;;
    set_expectations fetched
  else raise attach_first.

(** ** The public mutations of a suite, one constructor per entry point *)

Inductive Mutation : Type :=
| Assign_id (id : Z)
| Assign_expectation_suite_name (expectation_suite_name : string)
| Assign_data_asset_type (data_asset_type : Val)
| Assign_ge_coud_id (ge_cloud_id : Val)
| Assign_run_validation (run_validation : bool)
| Assign_validation_ingestion_policy (validation_ingestion_policy : string)
| Assign_expectations (expectations : Val)
| Assign_meta (meta : Val)
| Do_get_expectation (expectation_id : Z) (ge_type : bool)
| Do_add_expectation (expectation : Val) (ge_type : bool)
| Do_replace_expectation (expectation : Val) (ge_type : bool)
| Do_remove_expectation (expectation_id : option Z)
| Do_init_expectation_engine (feature_store_id feature_group_id : Z)
| Do_init_expectation_suite_engine (feature_store_id feature_group_id : option Z).

Definition discard {A} (m : Method A) : Method unit :=
  _ <- m ;; ret tt.

Definition run (op : Mutation) : Method unit :=
  match op with
  | Assign_id id => set_id id
  | Assign_expectation_suite_name n => set_expectation_suite_name n
  | Assign_data_asset_type v => set_data_asset_type v
  | Assign_ge_coud_id v => set_ge_coud_id v
  | Assign_run_validation b => set_run_validation b
  | Assign_validation_ingestion_policy p => set_validation_ingestion_policy p
  | Assign_expectations v => set_expectations v
  | Assign_meta v => set_meta v
  | Do_get_expectation i g => discard (get_expectation i g)
  | Do_add_expectation e g => discard (add_expectation e g)
  | Do_replace_expectation e g => discard (replace_expectation e g)
  | Do_remove_expectation i => remove_expectation i
  | Do_init_expectation_engine fs fg => _init_expectation_engine fs fg
  | Do_init_expectation_suite_engine fs fg => _init_expectation_suite_engine fs fg
  end.

Definition is_id_setter (op : Mutation) : bool :=
  match op with
  | Assign_id _ => true
  | _ => false
  end.

(** ** States of a suite *)

(** [if self.id]: the suite has a server-assigned id. *)
Definition has_id (s : Suite) : Prop := truthy_id (_id s) = true.

(** Attached: the suite has an id and holds the two engines, as every
    suite that the constructor built with an id does. *)
Definition attached (s : Suite) : Prop :=
  has_id s /\
  (exists eng, _expectation_engine s = Some eng) /\
  (exists eng, _expectation_suite_engine s = Some (Some eng)).

Definition unattached (s : Suite) : Prop := _id s = None.

(** If the suite has an id, both parent identifiers are set. *)
Definition parents_known (s : Suite) : Prop :=
  has_id s -> _feature_store_id s <> None /\ _feature_group_id s <> None.

(** The keys of [to_json_dict], and the parameters of the constructor they
    stand for.  [humps.decamelize] takes each of the former to the latter. *)
Definition json_dict_keys : list string :=
  [ "id"; "featureStoreId"; "featureGroupId"; "expectationSuiteName";
    "expectations"; "meta"; "geCloudId"; "dataAssetType"; "runValidation";
    "validationIngestionPolicy" ].

Definition constructor_keys : list string :=
  [ "id"; "feature_store_id"; "feature_group_id"; "expectation_suite_name";
    "expectations"; "meta"; "ge_cloud_id"; "data_asset_type"; "run_validation";
    "validation_ingestion_policy" ].

Definition decamelizes_json_dict_keys : Prop :=
  map decamelize_key json_dict_keys = constructor_keys.

(** The expectation that the constructor rebuilds from the decamelized
    dictionary of [e]. *)
Definition rebuilt_expectation (e : GeExpectation) : result GeExpectation :=
  GeExpectation_new (decamelize_dict decamelize_key (GeExpectation_to_json_dict e)).

(** [respects R m]: whatever the method [m] does, the suite it leaves is
    related by [R] to the suite it found. *)
Definition respects (R : Suite -> Suite -> Prop) {A} (m : Method A) : Prop :=
  forall st, R (self st) (self (snd (m st))).

(** The states a suite can be in when it was built by the constructor and
    then went through public mutations other than the setter of [id]. *)
Inductive reachable : State -> Prop :=
| reachable_init (a : InitArgs) (calls0 calls1 : list Call) (s : Suite) :
    __init__ a calls0 = (Ok s, calls1) ->
    reachable (mkState s calls1)
| reachable_run (op : Mutation) (st : State) :
    reachable st ->
    is_id_setter op = false ->
    reachable (snd (run op st)).

(** The policy is stored in upper case. *)
Definition policy_in_upper_case (s : Suite) : Prop :=
  upper (_validation_ingestion_policy s) = _validation_ingestion_policy s.

Definition same_policy (s s' : Suite) : Prop :=
  _validation_ingestion_policy s' = _validation_ingestion_policy s.

(** The id and the two parent identifiers are the same in both suites. *)
Definition same_identifiers (s s' : Suite) : Prop :=
  _id s' = _id s /\
  _feature_store_id s' = _feature_store_id s /\
  _feature_group_id s' = _feature_group_id s.

End Suite.

End ExpectationSuite.


(* ===================================================================== *)
(** * Part V, continued.  The rest of the three modules                *)
(* ===================================================================== *)

(** ** More of Python: [KeyError], subscripts and iteration *)

Module PyX.

(** The exceptions of Part I, and [KeyError]. *)
Inductive Exception : Type :=
| Builtin (e : PyExc)
| KeyError (key : string).

Inductive outcome (A : Type) : Type :=
| Returns (a : A)
| Throws (e : Exception).
Arguments Returns {A} a.
Arguments Throws {A} e.

Definition of_result {A} (r : result A) : outcome A :=
  match r with
  | Ok a => Returns a
  | Raise e => Throws (Builtin e)
  end.

(** Methods that can raise [KeyError] as well. *)
Definition X (S A : Type) : Type := S -> outcome A * S.

Definition xret {S A} (a : A) : X S A := fun s => (Returns a, s).

Definition xlift {S A} (o : outcome A) : X S A := fun s => (o, s).

Definition xbind {S A B} (m : X S A) (k : A -> X S B) : X S B :=
  fun s =>
    match m s with
    | (Returns a, s') => k a s'
    | (Throws e, s') => (Throws e, s')
    end.

Definition of_M {S A} (m : M S A) : X S A :=
  fun s => (of_result (fst (m s)), snd (m s)).

(** [v[key]] with a string key. *)
Definition subscript {O} (v : PyVal O) (key : string) : outcome (PyVal O) :=
  match v with
  | PyDict d =>
      match dict_get key d with
      | Some x => Returns x
      | None => Throws (KeyError key)
      end
  | PyList _ =>
      Throws (Builtin (TypeError "list indices must be integers or slices, not str"))
  | PyStr _ =>
      Throws (Builtin (TypeError "string indices must be integers"))
  | _ => Throws (Builtin (TypeError "object is not subscriptable"))
  end.

(** [for x in v]: the items a loop or a comprehension visits. *)
Definition iterate {O} (v : PyVal O) : result (list (PyVal O)) :=
  match v with
  | PyList l => Ok l
  | PyDict items => Ok (map (fun kv => PyStr (fst kv)) items)
  | PyStr s =>
      Ok (map (fun c => PyStr (String c EmptyString)) (list_ascii_of_string s))
  | _ => Raise (TypeError "object is not iterable")
  end.

(** [key in d] and [d.pop(key)]. *)
Definition contains {V} (key : string) (d : list (string * V)) : bool :=
  match dict_get key d with
  | Some _ => true
  | None => false
  end.

Fixpoint dict_del {V} (k : string) (d : list (string * V))
  : list (string * V) :=
  match d with
  | [] => []
  | (k', v') :: d' =>
      if String.eqb k k' then d' else (k', v') :: dict_del k d'
  end.

(** The value a key has after a run of assignments [d[k'] = v]: the last
    one made to it, or the one it had before. *)
Fixpoint last_assigned {V} (k : string) (items : list (string * V))
    (before : option V) : option V :=
  match items with
  | [] => before
  | (k', v) :: items' =>
      last_assigned k items' (if String.eqb k k' then Some v else before)
  end.

End PyX.

Declare Scope pyx_scope.
Delimit Scope pyx_scope with pyx.
Notation "x <- m ;; k" := (PyX.xbind m (fun x => k))
  (at level 61, m at next level, right associativity) : pyx_scope.

(** ** hopsworks_common/core/opensearch_api.py: the connection *)

Module OpenSearchConnection.

Import Client PyX.

(** What the module reads from the cluster: whether the client runs
    outside it, the two lookups of [VariableApi], the host and port that
    [furl] reads off a URL, the path of the CA chain, and the backend
    behind [_send_request].  [VariableApi] is not among the sources: its
    lookups go through the client, so they are methods on the session,
    which may send requests of their own and may raise. *)
Class Cluster (O : Type) : Type := {
  _is_external : bool;
  get_loadbalancer_external_domain : string -> M (Session O) string;
  get_service_discovery_domain : M (Session O) string;
  furl_host : string -> PyVal O;
  furl_port : string -> PyVal O;
  _get_ca_chain_path : result (PyVal O);
  backend : list (Request O) -> Request O -> result (PyVal O);
}.

Section Connection.

Context {O : Type} `{Cluster O}.

Definition _get_opensearch_url : M (Session O) string :=
  if _is_external then
    external_domain <- get_loadbalancer_external_domain "opensearch" ;;
    ret ("https://" ++ external_domain ++ ":9200")%string
  else
    service_discovery_domain <- get_service_discovery_domain ;;
    if String.eqb service_discovery_domain "" then
      raise (FeatureStoreException
        "Client could not locate service_discovery_domain in Hopsworks cluster configuration or variable is empty.")
    else
      ret ("https://rest.elastic.service." ++ service_discovery_domain
             ++ ":9200")%string.

(** The request [_get_authorization_token] sends. *)
Definition token_request (project_id : Z) : Request O :=
  mkRequest "GET" [ PyStr "elastic"; PyStr "jwt"; PyInt project_id ]
    None (Some [ ("content-type", "application/json") ]) None.

Definition _get_authorization_token : X (Session O) (PyVal O) :=
  (project_id <- of_M (gets (@_project_id O)) ;;
   reply <- of_M (_send_request backend (token_request project_id)) ;;
   xlift (subscript reply "token"))%pyx.

Definition get_default_py_config : X (Session O) (list (string * PyVal O)) :=
  (url <- of_M _get_opensearch_url ;;
   token <- _get_authorization_token ;;
   ca_chain_path <- xlift (of_result _get_ca_chain_path) ;;
   xret [ ("hosts",
            PyList [ PyDict [ ("host", furl_host url);
                              ("port", furl_port url) ] ]);
          ("http_compress", PyBool false);
          ("headers", PyDict [ ("Authorization", token) ]);
          ("use_ssl", PyBool true);
          ("verify_certs", PyBool true);
          ("ssl_assert_hostname", PyBool false);
          ("ca_certs", ca_chain_path) ])%pyx.

End Connection.

End OpenSearchConnection.

(** ** hsml/core/model_api.py: writes, deletion and single tags *)

Module ModelRegistry.

Import Client ModelApi PyX.

(** [Model.json], [Model.update_from_response_json] and [json.dumps]. *)
Class Serializers `{Collaborators} : Type := {
  Model_json : Model -> result string;
  Model_update_from_response_json :
    Model -> PyVal (Obj Links) -> PyVal (Obj Links);
  json_dumps : PyVal (Obj Links) -> option string;
}.

Section Writes.

Context `{Serializers}.

Abbreviation Val := (PyVal (Obj Links)).
Abbreviation Api := (M (Session (Obj Links))).

Definition model_path (project_id : Z) (model_instance : Model) : list Val :=
  [ PyStr "project"; PyInt project_id; PyStr "modelregistries";
    PyStr (str_of_int (model_registry_id model_instance));
    PyStr "models"; PyInt (id model_instance) ].

Definition put (model_instance : Model)
    (query_params : option (list (string * Val))) : Api Val :=
  project_id <- gets (@_project_id _) ;;
  let path_params :=
    [ PyStr "project"; PyInt project_id; PyStr "modelregistries";
      PyStr (str_of_int (model_registry_id model_instance));
      PyStr "models";
      PyStr (name model_instance ++ "_"
               ++ str_of_int (version model_instance))%string ] in
  let headers := [ ("content-type", "application/json") ] in
  data <- lift (Model_json model_instance) ;;
  reply <- send (mkRequest "PUT" path_params query_params (Some headers)
                   (Some data)) ;;
  ret (Model_update_from_response_json model_instance reply).

Definition delete (model_instance : Model) : Api unit :=
  project_id <- gets (@_project_id _) ;;
  let path_params :=
    [ PyStr "project"; PyInt project_id; PyStr "modelregistries";
      PyStr (str_of_int (model_registry_id model_instance));
      PyStr "models"; PyInt (id model_instance) ] in
  _ <- send (mkRequest "DELETE" path_params None None None) ;;
  ret tt.

Definition set_tag (model_instance : Model) (name : string) (value : Val)
  : Api unit :=
  project_id <- gets (@_project_id _) ;;
  let path_params :=
    [ PyStr "project"; PyInt project_id; PyStr "modelregistries";
      PyStr (str_of_int (model_registry_id model_instance));
      PyStr "models"; PyInt (id model_instance); PyStr "tags"; PyStr name ] in
  let headers := [ ("content-type", "application/json") ] in
  json_value <- lift (encoded (json_dumps value)) ;;
  _ <- send (mkRequest "PUT" path_params None (Some headers) (Some json_value)) ;;
  ret tt.

Definition delete_tag (model_instance : Model) (name : string) : Api unit :=
  project_id <- gets (@_project_id _) ;;
  let path_params :=
    [ PyStr "project"; PyInt project_id; PyStr "modelregistries";
      PyStr (str_of_int (model_registry_id model_instance));
      PyStr "models"; PyInt (id model_instance); PyStr "tags"; PyStr name ] in
  _ <- send (mkRequest "DELETE" path_params None None None) ;;
  ret tt.

(** The body of [get_tag]; its decorator is [catch_not_found]. *)
Definition get_tag_undecorated (model_instance : Model) (name : string)
  : X (Session (Obj Links)) Val :=
  (project_id <- of_M (gets (@_project_id _)) ;;
   let path_params :=
     [ PyStr "project"; PyInt project_id; PyStr "modelregistries";
       PyStr (str_of_int (model_registry_id model_instance));
       PyStr "models"; PyInt (id model_instance); PyStr "tags"; PyStr name ] in
   reply <- of_M (send (mkRequest "GET" path_params None None None)) ;;
   xlift (subscript (Tag_from_response_json reply) name))%pyx.

(** The model [m] after [m.shared_registry_project_name = v]. *)
Definition shared_by (v : option string) (m : Model) : Model :=
  mkModel (id m) (name m) (version m) (model_registry_id m) v.

(** The path of one tag of a model. *)
Definition tag_path (project_id : Z) (model_instance : Model) (name : string)
  : list Val :=
  [ PyStr "project"; PyInt project_id; PyStr "modelregistries";
    PyStr (str_of_int (model_registry_id model_instance));
    PyStr "models"; PyInt (id model_instance); PyStr "tags"; PyStr name ].

(** The methods of [ModelApi], and the session each one leaves. *)
Inductive ApiCall : Type :=
| Call_put (model_instance : Model) (query_params : option (list (string * Val)))
| Call_get (name : string) (version model_registry_id : Z)
    (shared_registry_project_name : option string)
| Call_get_models (name : string) (model_registry_id : Z)
    (shared_registry_project_name metric direction : option string)
| Call_delete (model_instance : Model)
| Call_set_tag (model_instance : Model) (name : string) (value : Val)
| Call_delete_tag (model_instance : Model) (name : string)
| Call_get_tags (model_instance : Model)
| Call_get_tag (model_instance : Model) (name : string)
| Call_get_feature_view_provenance (model_instance : Model)
| Call_get_training_dataset_provenance (model_instance : Model).

Definition session_after (call : ApiCall) (c : Session (Obj Links))
  : Session (Obj Links) :=
  match call with
  | Call_put m q => snd (put m q c)
  | Call_get n v r s => snd (get n v r s c)
  | Call_get_models n r s m d => snd (get_models n r s m d c)
  | Call_delete m => snd (delete m c)
  | Call_set_tag m n v => snd (set_tag m n v c)
  | Call_delete_tag m n => snd (delete_tag m n c)
  | Call_get_tags m => snd (get_tags m c)
  | Call_get_tag m n => snd (get_tag_undecorated m n c)
  | Call_get_feature_view_provenance m => snd (get_feature_view_provenance m c)
  | Call_get_training_dataset_provenance m =>
      snd (get_training_dataset_provenance m c)
  end.


(** A request under [project/<id>/modelregistries] of the session. *)
Definition in_registry (project_id : Z) (r : Request (Obj Links)) : Prop :=
  exists rest,
    path_params r
    = PyStr "project" :: PyInt project_id :: PyStr "modelregistries" :: rest.

End Writes.

End ModelRegistry.

(** ** hsfs/expectation_suite.py: the other constructors, and histories *)

Module SuiteLifecycle.

Import ExpectationSuite PyX.

Section Lifecycle.

Context `{Collaborators}.

Abbreviation Val := (PyVal (Obj GeExpectation ExpectationConfiguration)).
Abbreviation Call := (EngineCall GeExpectation ExpectationConfiguration).
Abbreviation Method := (M State).

(** What [from_response_json] returns: [None], a suite, or a list of
    suites. *)
Inductive Decoded : Type :=
| NoSuite
| OneSuite (s : Suite)
| ManySuites (l : list Suite).

(** [x == 0].  Equality of a float with zero is not followed. *)
Definition equals_zero (x : Val) : result bool :=
  match x with
  | PyInt z => Ok (Z.eqb z 0)
  | PyBool b => Ok (negb b)
  | PyFloat _ => Raise (IllTypedArgument "count")
  | _ => Ok false
  end.

(** The list comprehension of [from_response_json]: the constructor is
    called with the entries of each item, which has to be a mapping. *)
Fixpoint construct_all (items : list Val) (calls0 : list Call)
  : result (list Suite) * list Call :=
  match items with
  | [] => (Ok [], calls0)
  | PyDict expectation_suite :: items' =>
      match new expectation_suite calls0 with
      | (Ok s, calls1) =>
          match construct_all items' calls1 with
          | (Ok suites, calls2) => (Ok (s :: suites), calls2)
          | (Raise e, calls2) => (Raise e, calls2)
          end
      | (Raise e, calls1) => (Raise e, calls1)
      end
  | _ :: _ =>
      (Raise (TypeError "argument after ** must be a mapping"), calls0)
  end.

Definition from_response_json (json_dict : list (string * Val))
    (calls0 : list Call) : outcome Decoded * list Call :=
  let json_decamelized := decamelize_dict decamelize_key json_dict in
  match dict_get "count" json_decamelized with
  | Some count =>
      match equals_zero count with
      | Raise e => (Throws (Builtin e), calls0)
      | Ok true => (Returns NoSuite, calls0)
      | Ok false =>
          match dict_get "items" json_decamelized with
          | None => (Throws (KeyError "items"), calls0)
          | Some items =>
              match iterate items with
              | Raise e => (Throws (Builtin e), calls0)
              | Ok expectation_suites =>
                  match construct_all expectation_suites calls0 with
                  | (Ok suites, calls1) => (Returns (ManySuites suites), calls1)
                  | (Raise e, calls1) => (Throws (Builtin e), calls1)
                  end
              end
          end
      end
  | None =>
      match new json_decamelized calls0 with
      | (Ok s, calls1) => (Returns (OneSuite s), calls1)
      | (Raise e, calls1) => (Throws (Builtin e), calls1)
      end
  end.

(** The body of [from_ge_type], on the dictionary that
    [ge_expectation_suite.to_json_dict()] returns.  Its decorator
    [uses_great_expectations] is not among the sources.  The five keyword
    arguments are written out in the call, so a dictionary that has one of
    them as a key makes the call a [TypeError]. *)
Definition explicit_keywords : list string :=
  [ "id"; "run_validation"; "validation_ingestion_policy";
    "feature_group_id"; "feature_store_id" ].

Definition from_ge_type (suite_dict : list (string * Val))
    (run_validation : bool) (validation_ingestion_policy : string)
    (id feature_store_id feature_group_id : option Z) (calls0 : list Call)
  : result Suite * list Call :=
  let popped :=
    match id, dict_get "id" suite_dict with
    | None, Some v => (v, dict_del "id" suite_dict)
    | _, _ => (of_option_int id, suite_dict)
    end in
  let id := fst popped in
  let suite_dict := snd popped in
  if existsb (fun k => contains k suite_dict) explicit_keywords then
    (Raise (TypeError "__init__() got multiple values for keyword argument"),
     calls0)
  else
    new (suite_dict ++
         [ ("id", id);
           ("run_validation", PyBool run_validation);
           ("validation_ingestion_policy", PyStr validation_ingestion_policy);
           ("feature_group_id", of_option_int feature_group_id);
           ("feature_store_id", of_option_int feature_store_id) ])
        calls0.

(** The suite after a sequence of public mutations, each of which returns
    or raises. *)
Definition run_all (ops : list Mutation) (st : State) : State :=
  fold_left (fun st op => snd (run op st)) ops st.

(** Both parent identifiers are set, or neither is. *)
Definition parents_paired (s : Suite) : Prop :=
  (_feature_store_id s = None /\ _feature_group_id s = None) \/
  (exists fs fg, _feature_store_id s = Some fs /\ _feature_group_id s = Some fg).

(** What the engines of a suite are built from. *)
Definition engines_match (s : Suite) : Prop :=
  exists suite_id fs fg,
    _id s = Some suite_id /\
    _feature_store_id s = Some fs /\
    _feature_group_id s = Some fg /\
    _expectation_engine s = Some (mkExpectationEngine fs fg suite_id) /\
    _expectation_suite_engine s = Some (Some (mkExpectationSuiteEngine fs fg)).

(** [m] makes no engine call. *)
Definition silent {A} (m : Method A) : Prop :=
  forall st, calls (snd (m st)) = calls st.

(** The suite with the engines that the end of the constructor gives it:
    both when it has an id, none otherwise. *)
Definition wired (s : Suite) : Suite :=
  match _id s, _feature_store_id s, _feature_group_id s with
  | Some suite_id, Some fs, Some fg =>
      if truthy_id (_id s) then
        with_expectation_suite_engine
          (Some (Some (mkExpectationSuiteEngine fs fg)))
          (with_expectation_engine
             (Some (mkExpectationEngine fs fg suite_id)) s)
      else
        with_expectation_suite_engine (Some None)
          (with_expectation_engine None s)
  | _, _, _ =>
      with_expectation_suite_engine (Some None)
        (with_expectation_engine None s)
  end.

(** The four attributes whose setters push the metadata of an attached
    suite, with the value assigned. *)
Inductive MetadataField : Type :=
| Field_expectation_suite_name (expectation_suite_name : string)
| Field_run_validation (run_validation : bool)
| Field_validation_ingestion_policy (validation_ingestion_policy : string)
| Field_meta (meta : list (string * Val)).

Definition setter_of (field : MetadataField) : Method unit :=
  match field with
  | Field_expectation_suite_name n => set_expectation_suite_name n
  | Field_run_validation b => set_run_validation b
  | Field_validation_ingestion_policy p => set_validation_ingestion_policy p
  | Field_meta d => set_meta (PyDict d)
  end.

(** The suite as the setter leaves it. *)
Definition stored_by (field : MetadataField) (s : Suite) : Suite :=
  match field with
  | Field_expectation_suite_name n => with_expectation_suite_name n s
  | Field_run_validation b => with_run_validation b s
  | Field_validation_ingestion_policy p =>
      with_validation_ingestion_policy (upper p) s
  | Field_meta d => with_meta (PyDict d) s
  end.

(** The parents and the href of a suite are those of another. *)
Definition same_origin (s s' : Suite) : Prop :=
  _feature_store_id s' = _feature_store_id s /\
  _feature_group_id s' = _feature_group_id s /\
  _href s' = _href s.

(** The attribute [_expectation_suite_engine] is as it was. *)
Definition same_suite_engine (s s' : Suite) : Prop :=
  _expectation_suite_engine s' = _expectation_suite_engine s.

(** An href in which the pattern of the constructor can only match at the
    end of [prefix]: no [/f] inside it. *)
Fixpoint no_slash_f (prefix : string) : bool :=
  match prefix with
  | EmptyString => true
  | String a rest =>
      match rest with
      | String b _ =>
          negb (Ascii.eqb a "/" && Ascii.eqb b "f") && no_slash_f rest
      | EmptyString => true
      end
  end.

Fixpoint all_digits (s : string) : bool :=
  match s with
  | EmptyString => true
  | String c s' => is_digit c && all_digits s'
  end.

(** [part in s] for two strings. *)
Fixpoint occurs (part s : string) : bool :=
  match strip_prefix part s with
  | Some _ => true
  | None =>
      match s with
      | EmptyString => false
      | String _ s' => occurs part s'
      end
  end.

End Lifecycle.

End SuiteLifecycle.

(* ===================================================================== *)
(** * Part VI.  Test doubles                                             *)
(* ===================================================================== *)

(** Concrete collaborators, small enough to run: the statements of Part VII
    are evaluated on them. *)

Module Doubles.

(** An interpreter that is only ever given ASCII strings. *)
Definition ascii_only : Unicode :=
  {| str_lower := lower;
     str_lower_ascii := fun s _ => eq_refl |}.

(** A key is snake-cased by putting an underscore before each capital
    letter and lowering it. *)
Fixpoint snake_case (s : string) : string :=
  match s with
  | EmptyString => EmptyString
  | String c s' =>
      if is_upper c
      then String "_" (String (lower_char c) (snake_case s'))
      else String c (snake_case s')
  end.

Module Registry.

Import Client ModelApi.

(** Links are the list of artifact names that survived the filter. *)
Definition links_of (v : PyVal (Obj (list string))) : list string :=
  match v with
  | PyList l =>
      flat_map (fun x => match x with PyStr s => [s] | _ => [] end) l
  | _ => []
  end.

Definition tag_of (v : PyVal (Obj (list string))) : list (PyVal (Obj (list string))) :=
  match v with
  | PyDict d =>
      match dict_get "name" d, dict_get "value" d with
      | Some (PyStr n), Some (PyStr x) => [PyObj (OTag (mkTag n x))]
      | _, _ => []
      end
  | _ => []
  end.

(** A tag decoder that returns the tags listed under [items]. *)
Definition tags_of (v : PyVal (Obj (list string))) : PyVal (Obj (list string)) :=
  match v with
  | PyDict d =>
      match dict_get "items" d with
      | Some (PyList l) => PyList (flat_map tag_of l)
      | _ => PyList []
      end
  | _ => PyList []
  end.

Definition model_of (v : PyVal (Obj (list string))) : PyVal (Obj (list string)) :=
  match v with
  | PyDict d =>
      match dict_get "name" d, dict_get "version" d with
      | Some (PyStr n), Some (PyInt ver) =>
          PyObj (OModel (mkModel 1 n ver 1 None))
      | _, _ => PyNone
      end
  | _ => PyNone
  end.

(** A [json.loads] that knows the literals the examples use. *)
Definition loads (s : string) : option (PyVal (Obj (list string))) :=
  if String.eqb s "1" then Some (PyInt 1)
  else if String.eqb s "true" then Some (PyBool true)
  else if String.eqb s "{}" then Some (PyDict [])
  else None.

(** A backend that answers every request with the same reply. *)
Definition collaborators (reply : result (PyVal (Obj (list string))))
  : Collaborators :=
  {| Links := list string;
     Links_is_empty := fun l => match l with [] => true | _ => false end;
     Links_from_response_json := fun v _ _ => links_of v;
     Model_from_response_json := model_of;
     Tag_from_response_json := tags_of;
     json_loads := loads;
     backend := fun _ _ => reply |}.

Definition session : Session (Obj (list string)) := mkSession 119 "MyProj" [].

Definition a_model : Model := mkModel 7 "mnist" 2 3 None.

End Registry.

Module Suites.

Import ExpectationSuite.

(** An expectation is its type name; a configuration of the validation
    framework likewise. *)
Definition new_expectation (d : list (string * PyVal (Obj string string)))
  : result string :=
  match dict_get "expectation_type" d with
  | Some (PyStr t) => Ok t
  | _ => Raise (TypeError "__init__() missing required positional arguments")
  end.

Definition dumps (v : PyVal (Obj string string)) : option string :=
  match v with
  | PyDict [] => Some "{}"
  | PyDict _ => Some "{...}"
  | _ => None
  end.

Definition loads (s : string) : option (PyVal (Obj string string)) :=
  if String.eqb s "{}" then Some (PyDict [])
  else if String.eqb s "[]" then Some (PyList [])
  else None.

Definition answer (c : EngineCall string string)
  : result (PyVal (Obj string string)) :=
  match c with
  | Call_get _ _ => Ok (PyObj (OExpectation "expect_column_to_exist"))
  | Call_create _ e | Call_update _ e => Ok (PyObj (OExpectation e))
  | Call_delete _ _ => Ok PyNone
  | Call_get_expectations_by_suite_id _ => Ok (PyList [])
  | Call_update_metadata_from_fields _ _ => Ok PyNone
  end.

Definition collaborators : Collaborators :=
  {| GeExpectation := string;
     ExpectationConfiguration := string;
     GeExpectation_new := new_expectation;
     GeExpectation_to_json_dict := fun e => [("expectationType", PyStr e)];
     GeExpectation_to_ge_type := fun e => Ok (PyObj (OGeConfig e));
     ExpectationConfiguration_to_json_dict :=
       fun c => [("expectation_type", PyStr c)];
     HAS_GREAT_EXPECTATIONS := true;
     initialise_expectation_suite_for_single_expectation_api_message :=
       "Attach the expectation suite to a feature group first.";
     json_loads := loads;
     json_dumps := dumps;
     decamelize_key := snake_case;
     check_for_id := fun _ e => Ok e;
     backend := fun _ c => answer c |}.

(** Arguments of a suite built locally, and of one built from a backend
    response. *)
Definition local_args : @InitArgs collaborators :=
  {| expectation_suite_name := "sales";
     expectations := PyList [PyDict [("expectation_type", PyStr "expect_column_to_exist")]];
     meta := PyDict [];
     id := None;
     run_validation := true;
     validation_ingestion_policy := "always";
     feature_store_id := None;
     feature_group_id := None;
     href := None;
     kwargs := [] |}.

Definition remote_args : @InitArgs collaborators :=
  {| expectation_suite_name := "sales";
     expectations := PyNone;
     meta := PyStr "{}";
     id := Some 21%Z;
     run_validation := true;
     validation_ingestion_policy := "always";
     feature_store_id := None;
     feature_group_id := None;
     href := Some "/project/119/featurestores/67/featuregroups/13/expectationsuite/21";
     kwargs := [] |}.

Definition suite_of (a : @InitArgs collaborators) : @Suite collaborators :=
  match __init__ a [] with
  | (Ok s, _) => s
  | (Raise _, _) => init_attributes a (None, None)
  end.

Definition local_suite : @Suite collaborators := suite_of local_args.
Definition remote_suite : @Suite collaborators := suite_of remote_args.



Definition local_state : @State collaborators := mkState local_suite [].
Definition remote_state : @State collaborators := mkState remote_suite [].

(** A local suite whose meta has a camel-case key. *)
Definition camel_meta_suite : @Suite collaborators :=
  with_meta (PyDict [("fooBar", PyInt 1)]) local_suite.

End Suites.

End Doubles.


(** More test doubles, for the statements of Part VIII. *)

Module MoreDoubles.

Module Search.

Import Client OpenSearchConnection.

(** The request a lookup of a cluster variable sends. *)
Definition variable_request (name : string) : Request unit :=
  mkRequest "GET" [ PyStr "variables"; PyStr name ] None None None.

Definition lookup (name value : string) : M (Session unit) string :=
  fun c =>
    (Ok value,
     mkSession (_project_id c) (_project_name c)
       (sent c ++ [variable_request name])).

(** A cluster seen from inside, with its service discovery domain, whose
    backend answers every other request with [reply]. *)
Definition cluster (domain : string) (reply : result (PyVal unit))
  : Cluster unit :=
  {| _is_external := false;
     get_loadbalancer_external_domain :=
       fun service => lookup ("loadbalancer_external_domain_" ++ service)
                        "lb.example.com";
     get_service_discovery_domain := lookup "service_discovery_domain" domain;
     furl_host := fun url => PyStr (substring 8 (String.length url - 13) url);
     furl_port := fun _ => PyInt 9200;
     _get_ca_chain_path := Ok (PyStr "/srv/hops/ca_chain.pem");
     backend := fun _ _ => reply |}.

Definition session : Session unit := mkSession 119 "MyProj" [].

End Search.

Module Registry.

Import Client ModelApi ModelRegistry.

Definition dumps (v : PyVal (Obj (list string))) : option string :=
  match v with
  | PyInt 1 => Some "1"
  | PyBool true => Some "true"
  | PyDict [] => Some "{}"
  | _ => None
  end.

Definition serializers (reply : result (PyVal (Obj (list string))))
  : @Serializers (Doubles.Registry.collaborators reply) :=
  @Build_Serializers (Doubles.Registry.collaborators reply)
    (fun _ => Ok "{}")
    (fun m _ => PyObj (OModel m))
    dumps.

Definition not_found : result (PyVal (Obj (list string))) :=
  Raise (RestAPIError (mkRestError 404 360000)).

Definition two_tags : PyVal (Obj (list string)) :=
  PyDict [ ("count", PyInt 2);
           ("items", PyList [ PyDict [("name", PyStr "stage"); ("value", PyStr "1")];
                              PyDict [("name", PyStr "stage"); ("value", PyStr "true")] ]) ].

End Registry.

End MoreDoubles.


(* ===================================================================== *)
(** * Part VII.  Properties                                              *)
(* ===================================================================== *)

(** ** Strings and dictionaries *)

Lemma upper_char_idempotent (c : ascii) : upper_char (upper_char c) = upper_char c.
Proof.
  destruct c as [b0 b1 b2 b3 b4 b5 b6 b7].
  destruct b0, b1, b2, b3, b4, b5, b6, b7; reflexivity.
Qed.

Lemma upper_idempotent (s : string) : upper (upper s) = upper s.
Proof.
  induction s as [|c s IH]; simpl; [reflexivity|].
  unfold upper in *. simpl. now rewrite upper_char_idempotent, IH.
Qed.

Lemma dict_set_fresh {V} (k : string) (v : V) (d : list (string * V)) :
  ~ In k (map fst d) -> dict_set k v d = d ++ [(k, v)].
Proof.
  induction d as [|[k' v'] d IH]; simpl; intros Hk; [reflexivity|].
  destruct (String.eqb_spec k k') as [->|Hne].
  - exfalso. apply Hk. now left.
  - rewrite IH; [reflexivity|]. intros Hin. apply Hk. now right.
Qed.

Lemma fold_dict_set_fresh {V} (items acc : list (string * V)) :
  NoDup (map fst (acc ++ items)) ->
  fold_left (fun d kv => dict_set (fst kv) (snd kv) d) items acc = acc ++ items.
Proof.
  revert acc. induction items as [|[k v] items IH]; intros acc Hnd; simpl.
  - now rewrite app_nil_r.
  - rewrite dict_set_fresh.
    + rewrite IH; rewrite <- app_assoc; [reflexivity|exact Hnd].
    + rewrite map_app in Hnd. simpl in Hnd.
      apply NoDup_remove_2 in Hnd. intros Hin. apply Hnd.
      apply in_or_app. now left.
Qed.

(** A comprehension over items with distinct keys keeps them as they are. *)
Lemma dict_of_items_distinct {V} (items : list (string * V)) :
  NoDup (map fst items) -> dict_of_items items = items.
Proof.
  intros Hnd. unfold dict_of_items. now rewrite fold_dict_set_fresh.
Qed.


(** ** The search-index helper *)

Lemma is_ascii_app (s t : string) :
  is_ascii (s ++ t) = is_ascii s && is_ascii t.
Proof.
  induction s as [|c s IH]; simpl; [reflexivity|].
  now rewrite IH, Bool.andb_assoc.
Qed.

Lemma lower_app (s t : string) : lower (s ++ t) = (lower s ++ lower t)%string.
Proof.
  unfold lower. induction s as [|c s IH]; simpl; [reflexivity|].
  now rewrite IH.
Qed.

Section OpenSearchProperties.

Import Client OpenSearchApi.

Context {O : Type} `{Unicode}.

(** C8.  With current project name [p], the index-name resolution
    [get_project_index s] returns what [str.lower] makes of [p + "_" + s]
    and leaves the session as it found it: nothing is sent.  When [p] and
    [s] are ASCII strings this is [p] with its letters lowered, an
    underscore, and [s] with its letters lowered.  With project name
    ["MyProj"] and input ["clicks"] the result is ["myproj_clicks"]. *)
Theorem get_project_index_is_lowered_prefixed_name :
  (forall (c : Session O) (index : string),
      get_project_index index c
      = (Ok (str_lower (_project_name c ++ "_" ++ index)), c)) /\
  (forall (c : Session O) (index : string),
      is_ascii (_project_name c) = true ->
      is_ascii index = true ->
      get_project_index index c
      = (Ok (lower (_project_name c) ++ "_" ++ lower index)%string, c)) /\
  (forall (project_id : Z) (sent : list (Request O)),
      get_project_index "clicks" (mkSession project_id "MyProj" sent)
      = (Ok "myproj_clicks", mkSession project_id "MyProj" sent)).
Proof.
  split; [intros; reflexivity|]. split.
  - intros c index Hname Hindex.
    unfold get_project_index, bind, gets, ret.
    rewrite str_lower_ascii.
    + now rewrite !lower_app.
    + rewrite !is_ascii_app, Hname, Hindex. reflexivity.
  - intros project_id sent.
    unfold get_project_index, bind, gets, ret. simpl.
    rewrite str_lower_ascii by reflexivity. reflexivity.
Qed.

End OpenSearchProperties.

(** An instance of C8: capitals in both the project name and the index. *)
Lemma get_project_index_is_lowered_prefixed_name_witness :
  @OpenSearchApi.get_project_index unit Doubles.ascii_only "Clicks_2024"
    (Client.mkSession 119 "MyProj" [])
  = (Ok "myproj_clicks_2024", Client.mkSession 119 "MyProj" []).
Proof.
  exact (proj1 (proj2
           (@get_project_index_is_lowered_prefixed_name unit Doubles.ascii_only))
           (Client.mkSession 119 "MyProj" []) "Clicks_2024" eq_refl eq_refl).
Defined.

(** ** The model registry *)

Section ModelApiProperties.

Import Client ModelApi.

Context `{Collaborators}.

Abbreviation Val := (PyVal (Obj Links)).

Lemma send_appends (r : Request (Obj Links)) (c : Session (Obj Links)) :
  send r c = (backend (sent c) r,
              mkSession (_project_id c) (_project_name c) (sent c ++ [r])).
Proof. reflexivity. Qed.



(** *** Provenance *)

Lemma provenance_run (model_instance : Model) (n : Z) (d : Direction)
    (t : LinkType) (c : Session (Obj Links)) :
  (project_id <- gets (@_project_id _) ;;
   links_json <- send (provenance_request project_id model_instance n) ;;
   let links := Links_from_response_json links_json d t in
   if negb (Links_is_empty links) then ret (PyObj (OLinks links))
   else ret PyNone) c
  = (match backend (sent c) (provenance_request (_project_id c) model_instance n) with
     | Ok links_json =>
         let links := Links_from_response_json links_json d t in
         if Links_is_empty links then Ok PyNone else Ok (PyObj (OLinks links))
     | Raise e => Raise e
     end,
     mkSession (_project_id c) (_project_name c)
       (sent c ++ [provenance_request (_project_id c) model_instance n])).
Proof.
  unfold bind, gets. rewrite send_appends.
  destruct (backend _ _) as [links_json|e]; [|reflexivity].
  simpl. destruct (Links_is_empty _); reflexivity.
Qed.

(** C7.  Each provenance lookup sends one GET whose query asks for the
    provenance artifacts with [downstreamLvls] 0 and [upstreamLvls] 2 for
    the feature view, 1 for the training dataset.  When the backend
    answers, the lookup returns [None] if the filtered upstream links are
    empty and the links themselves otherwise, so a returned collection is
    never empty. *)
Theorem provenance_is_none_or_populated_links
    (model_instance : Model) (c : Session (Obj Links)) :
  let request := provenance_request (_project_id c) model_instance in
  let after n :=
    mkSession (_project_id c) (_project_name c) (sent c ++ [request n]) in
  (forall n, method (request n) = "GET" /\
             query_params (request n)
             = Some [ ("expand", PyStr "provenance_artifacts");
                      ("upstreamLvls", PyInt n);
                      ("downstreamLvls", PyInt 0) ]) /\
  (forall links_json,
     backend (sent c) (request 2%Z) = Ok links_json ->
     let links := Links_from_response_json links_json UPSTREAM FEATURE_VIEW in
     get_feature_view_provenance model_instance c
     = (Ok (if Links_is_empty links then PyNone else PyObj (OLinks links)),
        after 2%Z)) /\
  (forall links_json,
     backend (sent c) (request 1%Z) = Ok links_json ->
     let links := Links_from_response_json links_json UPSTREAM TRAINING_DATASET in
     get_training_dataset_provenance model_instance c
     = (Ok (if Links_is_empty links then PyNone else PyObj (OLinks links)),
        after 1%Z)) /\
  (forall links,
     fst (get_feature_view_provenance model_instance c) = Ok (PyObj (OLinks links)) \/
     fst (get_training_dataset_provenance model_instance c) = Ok (PyObj (OLinks links)) ->
     Links_is_empty links = false).
Proof.
  intros request after. repeat split.
  - intros links_json Hreply links.
    unfold get_feature_view_provenance. rewrite provenance_run.
    fold request. rewrite Hreply. subst links. simpl.
    destruct (Links_is_empty _); reflexivity.
  - intros links_json Hreply links.
    unfold get_training_dataset_provenance. rewrite provenance_run.
    fold request. rewrite Hreply. subst links. simpl.
    destruct (Links_is_empty _); reflexivity.
  - intros links [Hres|Hres];
      [unfold get_feature_view_provenance in Hres
      |unfold get_training_dataset_provenance in Hres];
      rewrite provenance_run in Hres; simpl in Hres;
      destruct (backend _ _) as [links_json|e]; try discriminate;
      simpl in Hres;
      destruct (Links_is_empty _) eqn:Hempty; try discriminate;
      injection Hres as <-; exact Hempty.
Qed.

(** *** Lookups under [catch_not_found] *)

Lemma set_shared_registry_project_name_outcome (v : option string) (x : Val) :
  (exists o, set_shared_registry_project_name v x = Ok (PyObj o)) \/
  (exists msg, set_shared_registry_project_name v x = Raise (AttributeError msg)).
Proof.
  destruct x as [| | | | | | |o]; simpl; try (right; eexists; reflexivity).
  destruct o; left; eexists; reflexivity.
Qed.

Lemma get_outcome name version registry shared (c : Session (Obj Links)) :
  fst (get name version registry shared c)
  = match backend (sent c) (get_request (_project_id c) name version registry) with
    | Ok model_json =>
        set_shared_registry_project_name shared
          (Model_from_response_json model_json)
    | Raise (RestAPIError e) =>
        if reports_not_found e then Ok PyNone else Raise (RestAPIError e)
    | Raise e => Raise e
    end.
Proof.
  unfold get, catch_not_found, get_undecorated, bind, gets.
  rewrite send_appends. fold (get_request (_project_id c) name version registry).
  destruct (backend _ _) as [model_json|e].
  - unfold lift, ret.
    destruct (set_shared_registry_project_name_outcome shared
                (Model_from_response_json model_json)) as [[o Ho]|[msg Ho]];
      rewrite Ho; reflexivity.
  - destruct e; try reflexivity.
    destruct (reports_not_found e); reflexivity.
Qed.

Lemma tags_comprehension_raises acc tags e :
  tags_comprehension acc tags = Raise e ->
  match e with RestAPIError _ => False | _ => True end.
Proof.
  revert acc. induction tags as [|tag tags IH]; intros acc; simpl.
  - discriminate.
  - destruct tag as [| | | | | | |o]; try (intros [= <-]; exact I).
    destruct o as [| t |]; try (intros [= <-]; exact I).
    destruct (json_loads (_value t)) as [v|]; simpl.
    + apply IH.
    + intros [= <-]. exact I.
Qed.

Lemma dict_set_not_empty {V} (k : string) (v : V) (d : list (string * V)) :
  dict_set k v d <> [].
Proof.
  destruct d as [|[k' v'] d]; simpl; [discriminate|].
  destruct (String.eqb k k'); discriminate.
Qed.

Lemma tags_comprehension_grows acc tags d :
  tags_comprehension acc tags = Ok d -> acc <> [] -> d <> [].
Proof.
  revert acc. induction tags as [|tag tags IH]; intros acc; simpl.
  - intros [= <-]. auto.
  - destruct tag as [| | | | | | |o]; try discriminate.
    destruct o as [| t |]; try discriminate.
    destruct (json_loads (_value t)) as [v|]; simpl; [|discriminate].
    intros Hd _. apply (IH _ Hd). apply dict_set_not_empty.
Qed.

Lemma tags_comprehension_empty tags :
  tags_comprehension [] tags = Ok [] -> tags = [].
Proof.
  destruct tags as [|tag tags]; [reflexivity|]. simpl.
  destruct tag as [| | | | | | |o]; try discriminate.
  destruct o as [| t |]; try discriminate.
  destruct (json_loads (_value t)) as [v|]; simpl; [|discriminate].
  intros Hd. exfalso.
  apply (tags_comprehension_grows _ _ _ Hd); [discriminate|reflexivity].
Qed.

(** The comprehension over decodable tags is the dictionary of their
    names and decoded values. *)
Lemma tags_comprehension_decodes (ts : list Tag) (vs : list Val) acc :
  traverse (fun t => decoded (json_loads (_value t))) ts = Ok vs ->
  tags_comprehension acc (map (fun t => PyObj (OTag t)) ts)
  = Ok (fold_left (fun d kv => dict_set (fst kv) (snd kv) d)
          (combine (map _name ts) vs) acc).
Proof.
  revert vs acc. induction ts as [|t ts IH]; intros vs acc; simpl.
  - intros [= <-]. reflexivity.
  - destruct (decoded (json_loads (_value t))) as [v|e]; simpl; [|discriminate].
    destruct (traverse _ ts) as [vs'|e] eqn:Hts; simpl; [|discriminate].
    intros [= <-]. simpl. now apply IH.
Qed.

Lemma py_iter_raises (v : Val) e :
  py_iter v = Raise e -> match e with RestAPIError _ => False | _ => True end.
Proof.
  destruct v; simpl; try discriminate; intros [= <-]; exact I.
Qed.

Lemma decode_tags_raises reply e :
  decode_tags reply = Raise e ->
  match e with RestAPIError _ => False | _ => True end.
Proof.
  unfold decode_tags.
  destruct (py_iter _) as [tags|e1] eqn:Hiter; simpl.
  - destruct (tags_comprehension [] tags) as [d|e2] eqn:Htags; simpl.
    + discriminate.
    + intros [= <-]. exact (tags_comprehension_raises _ _ _ Htags).
  - intros [= <-]. exact (py_iter_raises _ _ Hiter).
Qed.

Lemma get_tags_outcome model_instance (c : Session (Obj Links)) :
  fst (get_tags model_instance c)
  = match backend (sent c) (get_tags_request (_project_id c) model_instance) with
    | Ok reply => decode_tags reply
    | Raise (RestAPIError e) =>
        if reports_not_found e then Ok (PyDict []) else Raise (RestAPIError e)
    | Raise e => Raise e
    end.
Proof.
  unfold get_tags, catch_not_found, get_tags_undecorated, bind, gets.
  rewrite send_appends. fold (get_tags_request (_project_id c) model_instance).
  destruct (backend _ _) as [reply|e].
  - pose proof (decode_tags_raises reply) as Hraise.
    unfold decode_tags in *. unfold lift, ret.
    destruct (py_iter _) as [tags|e1]; simpl in *.
    + destruct (tags_comprehension [] tags) as [d|e2]; simpl in *; [reflexivity|].
      specialize (Hraise e2 eq_refl). destruct e2; try reflexivity. contradiction.
    + specialize (Hraise e1 eq_refl). destruct e1; try reflexivity. contradiction.
  - destruct e; try reflexivity.
    destruct (reports_not_found e); reflexivity.
Qed.

(** C5 (as amended).  [get] returns [None] exactly when the backend reports
    not-found, and raises the backend's error for every other error status.
    [get_tags] returns the empty map when the backend reports not-found,
    raises the backend's error for every other error status, and on an
    answer whose tags all hold JSON text returns the map from each tag name
    to its decoded value; it returns the empty map only on not-found or on
    an answer without tags.  Neither lookup raises a not-found error. *)
Theorem lookups_turn_not_found_into_sentinels
    (name : string) (version model_registry_id : Z)
    (shared_registry_project_name : option string)
    (model_instance : Model) (c : Session (Obj Links)) :
  let got :=
    backend (sent c)
      (get_request (_project_id c) name version model_registry_id) in
  let tagged :=
    backend (sent c) (get_tags_request (_project_id c) model_instance) in
  let not_found (r : result Val) :=
    exists e, r = Raise (RestAPIError e) /\ reports_not_found e = true in
  let get_result :=
    fst (get name version model_registry_id shared_registry_project_name c) in
  let get_tags_result := fst (get_tags model_instance c) in
  (get_result = Ok PyNone <-> not_found got) /\
  (forall e, got = Raise (RestAPIError e) -> reports_not_found e = false ->
     get_result = Raise (RestAPIError e)) /\
  (not_found tagged -> get_tags_result = Ok (PyDict [])) /\
  (forall e, tagged = Raise (RestAPIError e) -> reports_not_found e = false ->
     get_tags_result = Raise (RestAPIError e)) /\
  (forall reply ts vs,
     tagged = Ok reply ->
     Tag_from_response_json reply = PyList (map (fun t => PyObj (OTag t)) ts) ->
     traverse (fun t => decoded (json_loads (_value t))) ts = Ok vs ->
     get_tags_result = Ok (PyDict (dict_of_items (combine (map _name ts) vs)))) /\
  (get_tags_result = Ok (PyDict []) ->
     not_found tagged \/
     exists reply, tagged = Ok reply /\
                   py_iter (Tag_from_response_json reply) = Ok []) /\
  (forall e, get_result = Raise (RestAPIError e) \/
             get_tags_result = Raise (RestAPIError e) ->
     reports_not_found e = false).
Proof.
  cbv zeta. rewrite get_outcome, get_tags_outcome.
  generalize (backend (sent c)
                (get_request (_project_id c) name version model_registry_id)).
  generalize (backend (sent c) (get_tags_request (_project_id c) model_instance)).
  intros tagged got.
  split; [split|]; [| |repeat match goal with |- _ /\ _ => split end].
  - (* get returns None only on not-found *)
    destruct got as [model_json|e] eqn:Hgot.
    + intros Hnone.
      destruct (set_shared_registry_project_name_outcome
                  shared_registry_project_name
                  (Model_from_response_json model_json)) as [[o Ho]|[msg Ho]];
        rewrite Ho in Hnone; discriminate.
    + destruct e; try discriminate.
      destruct (reports_not_found e) eqn:Hnf; [|discriminate].
      intros _. exists e. split; [reflexivity|exact Hnf].
  - intros (e & -> & Hnf). now rewrite Hnf.
  - intros e -> Hnf. now rewrite Hnf.
  - intros (e & -> & Hnf). now rewrite Hnf.
  - intros e -> Hnf. now rewrite Hnf.
  - intros reply ts vs -> Hdecoder Hvalues.
    unfold decode_tags. rewrite Hdecoder. simpl.
    rewrite (tags_comprehension_decodes ts vs [] Hvalues). reflexivity.
  - destruct tagged as [reply|e] eqn:Htagged.
    + intros Hempty. right. exists reply. split; [reflexivity|].
      unfold decode_tags in Hempty.
      destruct (py_iter _) as [tags|e]; simpl in Hempty; [|discriminate].
      destruct (tags_comprehension [] tags) as [d|e] eqn:Htags;
        simpl in Hempty; [|discriminate].
      injection Hempty as ->.
      now rewrite (tags_comprehension_empty _ Htags).
    + destruct e; try discriminate.
      destruct (reports_not_found e) eqn:Hnf; [|discriminate].
      intros _. left. exists e. split; [reflexivity|exact Hnf].
  - intros e [Hraise|Hraise].
    + destruct got as [model_json|e0].
      * destruct (set_shared_registry_project_name_outcome
                    shared_registry_project_name
                    (Model_from_response_json model_json)) as [[o Ho]|[msg Ho]];
          rewrite Ho in Hraise; discriminate.
      * destruct e0; try discriminate.
        destruct (reports_not_found e0) eqn:Hnf; [discriminate|].
        now injection Hraise as <-.
    + destruct tagged as [reply|e0].
      * exfalso. exact (decode_tags_raises _ _ Hraise).
      * destruct e0; try discriminate.
        destruct (reports_not_found e0) eqn:Hnf; [discriminate|].
        now injection Hraise as <-.
Qed.

End ModelApiProperties.

(** ** Expectation suites *)

Section SuiteProperties.

Import ExpectationSuite.

Context `{Collaborators}.

Abbreviation SVal := (PyVal (Obj GeExpectation ExpectationConfiguration)).
Abbreviation Method := (M State).

(** *** What a method leaves alone *)

Section Frames.

Variable R : Suite -> Suite -> Prop.
Hypothesis R_refl : forall s, R s s.
Hypothesis R_trans : forall s1 s2 s3, R s1 s2 -> R s2 s3 -> R s1 s3.

Lemma respects_ret {A} (a : A) : respects R (ret a).
Proof. intros st. apply R_refl. Qed.

Lemma respects_raise {A} (e : PyExc) : respects R (@raise State A e).
Proof. intros st. apply R_refl. Qed.

Lemma respects_lift {A} (r : result A) : respects R (lift r).
Proof. intros st. apply R_refl. Qed.

Lemma respects_gets {A} (f : State -> A) : respects R (gets f).
Proof. intros st. apply R_refl. Qed.

Lemma respects_call (c : EngineCall GeExpectation ExpectationConfiguration) :
  respects R (call c).
Proof. intros st. apply R_refl. Qed.

Lemma respects_assign (f : Suite -> Suite) :
  (forall s, R s (f s)) -> respects R (assign f).
Proof. intros Hf st. apply Hf. Qed.

Lemma respects_bind {A B} (m : Method A) (k : A -> Method B) :
  respects R m -> (forall a, respects R (k a)) -> respects R (bind m k).
Proof.
  intros Hm Hk st. unfold bind. specialize (Hm st).
  destruct (m st) as [[a|e] st1]; simpl in *.
  - eapply R_trans; [exact Hm|]. apply Hk.
  - exact Hm.
Qed.

Lemma respects_the_expectation_engine (attr : string) :
  respects R (the_expectation_engine attr).
Proof.
  apply respects_bind; [apply respects_gets|]. intros s.
  destruct (_expectation_engine s); [apply respects_ret|apply respects_raise].
Qed.

Lemma respects_update_metadata : respects R update_metadata.
Proof.
  apply respects_bind; [apply respects_gets|]. intros s.
  destruct (_expectation_suite_engine s) as [[eng|]|]; try apply respects_raise.
  apply respects_bind; [apply respects_lift|]. intros fields.
  apply respects_bind; [apply respects_call|]. intros _. apply respects_ret.
Qed.

Lemma respects_set_expectations (v : SVal) :
  (forall es s, R s (with_expectations es s)) -> respects R (set_expectations v).
Proof.
  intros Hf. destruct v; simpl; try apply respects_raise.
  - apply respects_assign. auto.
  - apply respects_bind; [apply respects_lift|]. intros es.
    apply respects_assign. auto.
Qed.

Lemma respects_set_meta (v : SVal) :
  (forall m s, R s (with_meta m s)) -> respects R (set_meta v).
Proof.
  intros Hf. unfold set_meta. apply respects_bind.
  - destruct v; try apply respects_raise.
    + apply respects_bind; [apply respects_lift|]. intros parsed.
      apply respects_assign. auto.
    + apply respects_assign. auto.
  - intros _. apply respects_bind; [apply respects_gets|]. intros s.
    destruct (_expectation_suite_engine s); [|apply respects_ret].
    destruct (truthy_id (_id s)); [apply respects_update_metadata|apply respects_ret].
Qed.

End Frames.

(** The engine calls never touch the suite itself. *)
Lemma update_metadata_keeps_self (st : State) :
  self (snd (update_metadata st)) = self st.
Proof.
  symmetry. apply (respects_update_metadata eq); [reflexivity|].
  intros ? ? ? -> ->. reflexivity.
Qed.

(** *** The single-expectation API on an unattached suite *)

(** C1.  On a suite whose id is unset, each of [get_expectation],
    [add_expectation], [replace_expectation] and [remove_expectation]
    raises the [FeatureStoreException] that asks to attach the suite
    first, makes no engine call and leaves the suite as it was. *)
Theorem single_expectation_api_asks_to_attach_first
    (st : State) (expectation_id : Z) (optional_id : option Z)
    (expectation : SVal) (ge_type : bool) :
  unattached (self st) ->
  let refusal :=
    FeatureStoreException
      initialise_expectation_suite_for_single_expectation_api_message in
  get_expectation expectation_id ge_type st = (Raise refusal, st) /\
  add_expectation expectation ge_type st = (Raise refusal, st) /\
  replace_expectation expectation ge_type st = (Raise refusal, st) /\
  remove_expectation optional_id st = (Raise refusal, st).
Proof.
  intros Hid. unfold unattached in Hid. cbv zeta.
  unfold get_expectation, add_expectation, replace_expectation,
    remove_expectation, bind, gets.
  rewrite Hid. simpl. repeat split; reflexivity.
Qed.

(** *** The setter of [expectations] *)



(** *** The setter of [meta] *)



(** *** The setter of [validation_ingestion_policy] *)

(** The policy setter stores the upper-case policy, whatever the backend
    answers. *)
Lemma policy_setter_stores (p : string) (st : State) :
  self (snd (set_validation_ingestion_policy p st))
  = with_validation_ingestion_policy (upper p) (self st).
Proof.
  unfold set_validation_ingestion_policy, bind, assign, modify, gets. simpl.
  destruct (truthy_id (_id (self st))); [|reflexivity].
  rewrite update_metadata_keeps_self. reflexivity.
Qed.


(** *** The invariant on identifiers *)

Lemma same_identifiers_refl (s : Suite) : same_identifiers s s.
Proof. repeat split. Qed.

Lemma same_identifiers_trans (s1 s2 s3 : Suite) :
  same_identifiers s1 s2 -> same_identifiers s2 s3 -> same_identifiers s1 s3.
Proof.
  intros (Ha & Hb & Hc) (Ha' & Hb' & Hc'). repeat split; congruence.
Qed.

Lemma same_identifiers_parents_known (s s' : Suite) :
  same_identifiers s s' -> parents_known s -> parents_known s'.
Proof.
  unfold parents_known, has_id. intros (Ha & Hb & Hc) Hs.
  rewrite Ha, Hb, Hc. exact Hs.
Qed.

Lemma same_policy_refl (s : Suite) : same_policy s s.
Proof. reflexivity. Qed.

Lemma same_policy_trans (s1 s2 s3 : Suite) :
  same_policy s1 s2 -> same_policy s2 s3 -> same_policy s1 s3.
Proof. unfold same_policy. congruence. Qed.

Ltac frame :=
  repeat first
    [ exact same_identifiers_refl
    | exact same_identifiers_trans
    | exact same_policy_refl
    | exact same_policy_trans
    | apply respects_ret
    | apply respects_raise
    | apply respects_lift
    | apply respects_gets
    | apply respects_call
    | apply respects_the_expectation_engine
    | apply respects_update_metadata
    | apply respects_set_expectations
    | apply respects_set_meta
    | apply respects_assign
    | apply respects_bind
    | match goal with
      | |- respects _ (if ?b then _ else _) => destruct b
      | |- respects _ (match ?x with _ => _ end) => destruct x
      | |- same_identifiers _ _ => repeat split
      | |- same_policy _ _ => reflexivity
      | |- forall _, _ => intro
      end ].

Lemma run_respects_identifiers (op : Mutation) :
  is_id_setter op = false -> respects same_identifiers (run op).
Proof.
  destruct op; simpl; intros Hop; try discriminate;
    unfold set_expectation_suite_name, set_data_asset_type, set_ge_coud_id,
      set_run_validation, set_validation_ingestion_policy, discard,
      get_expectation, add_expectation, replace_expectation,
      remove_expectation, _init_expectation_engine,
      _init_expectation_suite_engine;
    frame.
Qed.

Lemma init_engines_establishes (st st' : State) (r : unit) :
  init_engines st = (Ok r, st') -> parents_known (self st').
Proof.
  unfold init_engines, bind, assign, modify, gets, parents_known, has_id.
  simpl.
  destruct (_id (self st)) as [suite_id|] eqn:Hid; simpl.
  - destruct (negb (suite_id =? 0)%Z) eqn:Htruthy.
    + destruct (_feature_store_id (self st)) as [fs|] eqn:Hfs;
        [|discriminate].
      destruct (_feature_group_id (self st)) as [fg|] eqn:Hfg;
        [|discriminate].
      intros [= _ <-]. simpl. rewrite Hfs, Hfg. split; discriminate.
    + intros [= _ <-]. simpl. rewrite Hid. simpl. rewrite Htruthy. discriminate.
  - intros [= _ <-]. simpl. rewrite Hid. discriminate.
Qed.

Lemma init_establishes (a : InitArgs) (calls0 calls1 : list (EngineCall _ _))
    (s : Suite) :
  __init__ a calls0 = (Ok s, calls1) -> parents_known s.
Proof.
  unfold __init__.
  destruct (init_parents a) as [parents|e]; [|discriminate].
  unfold bind at 1.
  destruct (set_expectations _ _) as [[u|e] st1]; [|discriminate].
  unfold bind at 1.
  destruct (set_meta _ _) as [[u2|e] st2]; [|discriminate].
  destruct (init_engines st2) as [[u3|e] st3] eqn:Hengines; [|discriminate].
  intros [= <- _]. exact (init_engines_establishes _ _ _ Hengines).
Qed.

(** Suites are built, and kept, with their policy in upper case. *)
Lemma init_policy_in_upper_case (a : InitArgs)
    (calls0 calls1 : list (EngineCall _ _)) (s : Suite) :
  __init__ a calls0 = (Ok s, calls1) -> policy_in_upper_case s.
Proof.
  unfold __init__.
  destruct (init_parents a) as [parents|e]; [|discriminate].
  assert (Hbody : respects same_policy
            (set_expectations (expectations a) ;;;
             set_meta (meta a) ;;; init_engines))
    by (unfold init_engines; frame).
  specialize (Hbody (mkState (init_attributes a parents) calls0)).
  destruct ((set_expectations (expectations a) ;;;
             set_meta (meta a) ;;; init_engines)
              (mkState (init_attributes a parents) calls0)) as [[u|e] st];
    [|discriminate].
  intros [= <- _]. unfold policy_in_upper_case.
  simpl in Hbody. unfold same_policy in Hbody. rewrite Hbody. simpl.
  apply upper_idempotent.
Qed.

Lemma run_keeps_policy_in_upper_case (op : Mutation) (st : State) :
  policy_in_upper_case (self st) ->
  policy_in_upper_case (self (snd (run op st))).
Proof.
  unfold policy_in_upper_case. intros Hupper.
  assert (Hkept : respects same_policy (run op) ->
                  upper (_validation_ingestion_policy (self (snd (run op st))))
                  = _validation_ingestion_policy (self (snd (run op st)))).
  { intros Hsame. rewrite (Hsame st). exact Hupper. }
  destruct op;
    try solve
      [ apply Hkept; simpl;
        unfold set_id, set_expectation_suite_name, set_data_asset_type,
          set_ge_coud_id, set_run_validation, discard, get_expectation,
          add_expectation, replace_expectation, remove_expectation,
          _init_expectation_engine, _init_expectation_suite_engine;
        frame ].
  simpl. rewrite policy_setter_stores. simpl. apply upper_idempotent.
Qed.

Lemma run_keeps_parents_known (op : Mutation) (st : State) :
  is_id_setter op = false ->
  parents_known (self st) ->
  parents_known (self (snd (run op st))).
Proof.
  intros Hop Hknown.
  apply (same_identifiers_parents_known (self st)); [|exact Hknown].
  destruct (run_respects_identifiers op Hop st) as (Ha & Hb & Hc).
  repeat split; congruence.
Qed.

(** A suite that was built and mutated without the setter of [id] has its
    policy in upper case. *)
Lemma reachable_policy_in_upper_case (st : State) :
  reachable st -> policy_in_upper_case (self st).
Proof.
  induction 1 as [a calls0 calls1 s Hinit|op st _ IH _].
  - exact (init_policy_in_upper_case _ _ _ _ Hinit).
  - now apply run_keeps_policy_in_upper_case.
Qed.

(** C4 (as amended).  If a suite has an id -- one that [if self.id]
    accepts -- then its feature store id and its feature group id are set:
    this holds for every suite the constructor returns, and every public
    mutation other than the setter of [id] keeps it; so it holds in every
    state reached from the constructor by such mutations. *)
Theorem parents_known_when_suite_has_id :
  (forall (a : InitArgs) (calls0 calls1 : list (EngineCall _ _)) (s : Suite),
      __init__ a calls0 = (Ok s, calls1) -> parents_known s) /\
  (forall (op : Mutation) (st : State),
      is_id_setter op = false ->
      parents_known (self st) ->
      parents_known (self (snd (run op st)))) /\
  (forall st : State, reachable st -> parents_known (self st)).
Proof.
  split; [exact init_establishes|]. split; [exact run_keeps_parents_known|].
  induction 1 as [a calls0 calls1 s Hinit|op st _ IH Hop].
  - exact (init_establishes _ _ _ _ Hinit).
  - now apply run_keeps_parents_known.
Qed.

(** *** Rebuilding a suite from its JSON dictionary *)

Lemma process_keys_of_option_int (fn : string -> string) (o : option Z) :
  process_keys fn (@of_option_int (Obj GeExpectation ExpectationConfiguration) o)
  = of_option_int o.
Proof. destruct o; reflexivity. Qed.

(** The snake-case dictionary of a suite, key by key. *)
Lemma to_json_dict_decamelized (s : Suite) :
  decamelizes_json_dict_keys ->
  to_json_dict s true
  = [ ("id", of_option_int (_id s));
      ("feature_store_id", of_option_int (_feature_store_id s));
      ("feature_group_id", of_option_int (_feature_group_id s));
      ("expectation_suite_name", PyStr (_expectation_suite_name s));
      ("expectations",
        PyList (map (fun e => PyDict (decamelize_dict decamelize_key
                                        (GeExpectation_to_json_dict e)))
                    (_expectations s)));
      ("meta", process_keys decamelize_key (_meta s));
      ("ge_cloud_id", process_keys decamelize_key (_ge_cloud_id s));
      ("data_asset_type", process_keys decamelize_key (_data_asset_type s));
      ("run_validation", PyBool (_run_validation s));
      ("validation_ingestion_policy",
        PyStr (upper (_validation_ingestion_policy s))) ].
Proof.
  unfold decamelizes_json_dict_keys, json_dict_keys, constructor_keys.
  intros Hkeys. injection Hkeys as K1 K2 K3 K4 K5 K6 K7 K8 K9 K10.
  unfold to_json_dict, decamelize_dict.
  cbn [map fst snd].
  rewrite K1, K2, K3, K4, K5, K6, K7, K8, K9, K10.
  rewrite !process_keys_of_option_int.
  rewrite dict_of_items_distinct.
  - cbn [process_keys]. rewrite map_map. reflexivity.
  - cbn [map fst].
    repeat (constructor; [cbn [In]; intuition discriminate|]). constructor.
Qed.

Lemma arg_optional_int_of_option_int (p : string) (o : option Z)
    (d : list (string * SVal)) :
  dict_get p d = Some (of_option_int o) -> arg_optional_int p d = Ok o.
Proof.
  unfold arg_optional_int. intros ->. destruct o; reflexivity.
Qed.

(** What the constructor does on arguments without an href, whose
    expectations are a list that converts and whose meta is a
    dictionary. *)
Lemma init_of_list_and_dict (a : InitArgs) (calls0 : list (EngineCall _ _))
    (l : list SVal) (es : list GeExpectation) (m : list (string * SVal)) :
  href a = None ->
  (truthy_id (id a) = true ->
   feature_store_id a <> None /\ feature_group_id a <> None) ->
  expectations a = PyList l ->
  traverse _convert_expectation l = Ok es ->
  meta a = PyDict m ->
  exists s',
    __init__ a calls0 = (Ok s', calls0) /\
    _expectation_suite_name s' = expectation_suite_name a /\
    _expectations s' = es /\
    _meta s' = PyDict m /\
    _validation_ingestion_policy s' = upper (validation_ingestion_policy a).
Proof.
  intros Hhref Hparents Hexp Hconv Hmeta.
  unfold __init__, init_parents. rewrite Hhref, Hexp, Hmeta.
  assert (Hrun : forall parents,
    (truthy_id (id a) = true -> fst parents <> None /\ snd parents <> None) ->
    exists s',
      match
        (set_expectations (PyList l) ;;; set_meta (PyDict m) ;;; init_engines)
          (mkState (init_attributes a parents) calls0)
      with
      | (Ok _, st) => (Ok (self st), calls st)
      | (Raise e, st) => (Raise e, calls st)
      end = (Ok s', calls0) /\
      _expectation_suite_name s' = expectation_suite_name a /\
      _expectations s' = es /\
      _meta s' = PyDict m /\
      _validation_ingestion_policy s' = upper (validation_ingestion_policy a)).
  { intros [fs fg] Hknown. simpl in Hknown.
    unfold set_expectations, set_meta, init_engines, bind, lift, assign,
      modify, gets. rewrite Hconv. simpl.
    destruct (id a) as [suite_id|] eqn:Hid; simpl.
    - simpl in Hknown. destruct (negb (suite_id =? 0)%Z) eqn:Htruthy.
      + destruct (Hknown eq_refl) as [Hfs Hfg].
        destruct fs as [fs|]; [|contradiction].
        destruct fg as [fg|]; [|contradiction].
        simpl. eexists. repeat split.
      + eexists. repeat split.
    - eexists. repeat split. }
  destruct (feature_store_id a) as [fs|] eqn:Hfs;
    [destruct (feature_group_id a) as [fg|] eqn:Hfg|].
  - apply Hrun. intros _. split; discriminate.
  - apply Hrun. intros Htruthy. destruct (Hparents Htruthy) as [_ Hfg']. contradiction.
  - apply Hrun. intros Htruthy. destruct (Hparents Htruthy) as [Hfs' _]. contradiction.
Qed.

Lemma traverse_rebuilt (es es' : list GeExpectation) :
  traverse rebuilt_expectation es = Ok es' ->
  traverse _convert_expectation
    (map (fun e => PyDict (decamelize_dict decamelize_key
                             (GeExpectation_to_json_dict e))) es)
  = Ok es'.
Proof.
  revert es'. induction es as [|e es IH]; intros es'; simpl; [trivial|].
  fold (rebuilt_expectation e).
  destruct (rebuilt_expectation e) as [e'|err]; simpl; [|discriminate].
  destruct (traverse rebuilt_expectation es) as [es0|err] eqn:Hes; simpl;
    [|discriminate].
  intros [= <-]. now rewrite (IH es0 eq_refl).
Qed.

Lemma traverse_fixed {A} (f : A -> result A) (l : list A) :
  Forall (fun a => f a = Ok a) l -> traverse f l = Ok l.
Proof.
  induction 1 as [|a l Ha _ IH]; simpl; [reflexivity|].
  now rewrite Ha, IH.
Qed.

(** C2 (as amended).  Take a suite whose parents are known if it has an
    id, whose policy is in upper case as the constructor and the setter
    store it, and whose meta is a dictionary, and pass the entries of its
    snake-case dictionary [to_json_dict(decamelize=True)] to the
    constructor.  If the expectations can be rebuilt from their
    decamelized dictionaries, the constructor returns, without any engine
    call, a suite with the same name and policy, with the decamelized meta
    and with the rebuilt expectations.  Hence the rebuilt suite has the
    same name, expectation list, meta and policy whenever decamelization
    leaves the keys of the meta as they are and every expectation is
    rebuilt as itself. *)
Theorem suite_rebuilt_from_snake_case_dict
    (s : Suite) (calls0 : list (EngineCall _ _)) :
  decamelizes_json_dict_keys ->
  parents_known s ->
  policy_in_upper_case s ->
  (exists m, _meta s = PyDict m) ->
  (forall es',
     traverse rebuilt_expectation (_expectations s) = Ok es' ->
     exists s',
       new (to_json_dict s true) calls0 = (Ok s', calls0) /\
       _expectation_suite_name s' = _expectation_suite_name s /\
       _expectations s' = es' /\
       _meta s' = process_keys decamelize_key (_meta s) /\
       _validation_ingestion_policy s' = _validation_ingestion_policy s) /\
  (process_keys decamelize_key (_meta s) = _meta s ->
   Forall (fun e => rebuilt_expectation e = Ok e) (_expectations s) ->
   exists s',
     new (to_json_dict s true) calls0 = (Ok s', calls0) /\
     _expectation_suite_name s' = _expectation_suite_name s /\
     _expectations s' = _expectations s /\
     _meta s' = _meta s /\
     _validation_ingestion_policy s' = _validation_ingestion_policy s).
Proof.
  intros Hkeys Hknown Hupper [m Hmeta].
  assert (Hgeneral : forall es',
    traverse rebuilt_expectation (_expectations s) = Ok es' ->
    exists s',
      new (to_json_dict s true) calls0 = (Ok s', calls0) /\
      _expectation_suite_name s' = _expectation_suite_name s /\
      _expectations s' = es' /\
      _meta s' = process_keys decamelize_key (_meta s) /\
      _validation_ingestion_policy s' = _validation_ingestion_policy s).
  { intros es' Hes'.
    rewrite (to_json_dict_decamelized s Hkeys).
    unfold new, bind_arguments.
    cbn [missing_parameters required_parameters filter dict_get String.eqb
         Ascii.eqb Bool.eqb].
    unfold arg_str, arg_bool, arg_optional_str, arg_any.
    rewrite (arg_optional_int_of_option_int "id" (_id s)) by reflexivity.
    rewrite (arg_optional_int_of_option_int "feature_store_id"
               (_feature_store_id s)) by reflexivity.
    rewrite (arg_optional_int_of_option_int "feature_group_id"
               (_feature_group_id s)) by reflexivity.
    cbn [dict_get String.eqb Ascii.eqb Bool.eqb rbind].
    rewrite Hmeta. cbn [process_keys].
    match goal with
    | |- exists s', __init__ ?a _ = _ /\ _ =>
        destruct (init_of_list_and_dict a calls0 _ es' _ eq_refl Hknown
                    eq_refl (traverse_rebuilt _ _ Hes') eq_refl)
          as (s' & Hinit & Hname & Hexp & Hm & Hpol)
    end.
    exists s'. split; [exact Hinit|].
    cbn in Hname, Hpol.
    repeat split; try assumption.
    rewrite Hpol. rewrite Hupper. exact Hupper. }
  split; [exact Hgeneral|].
  intros Hstable Hfixed.
  destruct (Hgeneral (_expectations s) (traverse_fixed _ _ Hfixed))
    as (s' & Hnew & Hname & Hexp & Hm & Hpol).
  exists s'. repeat split; try assumption. now rewrite Hm.
Qed.

End SuiteProperties.

(** ** The statements above on the test doubles *)

(** An instance of C1: the suite built locally refuses the four calls. *)
Lemma single_expectation_api_asks_to_attach_first_witness :
  ExpectationSuite.unattached (ExpectationSuite.self Doubles.Suites.local_state) /\
  ExpectationSuite.remove_expectation (Some 4%Z) Doubles.Suites.local_state
  = (Raise (FeatureStoreException
              "Attach the expectation suite to a feature group first."),
     Doubles.Suites.local_state).
Proof.
  split; [reflexivity|].
  exact (proj2 (proj2 (proj2
           (@single_expectation_api_asks_to_attach_first
              Doubles.Suites.collaborators Doubles.Suites.local_state
              4%Z (Some 4%Z) PyNone true eq_refl)))).
Defined.





(** An instance of C4: the suite built from a backend response knows its
    parents. *)
Lemma parents_known_when_suite_has_id_witness :
  ExpectationSuite.__init__ Doubles.Suites.remote_args []
  = (Ok Doubles.Suites.remote_suite, []) /\
  ExpectationSuite.parents_known Doubles.Suites.remote_suite.
Proof.
  split; [reflexivity|].
  exact (proj1 (@parents_known_when_suite_has_id Doubles.Suites.collaborators)
           Doubles.Suites.remote_args [] [] Doubles.Suites.remote_suite eq_refl).
Defined.

(** C4 as first stated fails at the setter of [id]: on the suite built
    locally it stores the id, and neither parent is known. *)
Lemma id_setter_leaves_parents_unknown :
  let s := ExpectationSuite.self
             (snd (ExpectationSuite.run (ExpectationSuite.Assign_id 5%Z)
                     Doubles.Suites.local_state)) in
  ExpectationSuite.parents_known Doubles.Suites.local_suite /\
  ExpectationSuite._id s = Some 5%Z /\
  ExpectationSuite._feature_store_id s = None /\
  ExpectationSuite._feature_group_id s = None /\
  ~ ExpectationSuite.parents_known s.
Proof.
  intros s. split; [intros Hid; discriminate Hid|].
  repeat split.
  intros Hknown. destruct (Hknown eq_refl) as [Hfs _]. now apply Hfs.
Qed.

(** An instance of C2: the suite built locally is rebuilt as it was. *)
Lemma suite_rebuilt_from_snake_case_dict_witness :
  @ExpectationSuite.decamelizes_json_dict_keys Doubles.Suites.collaborators /\
  ExpectationSuite.parents_known Doubles.Suites.local_suite /\
  exists s',
    ExpectationSuite.new
      (ExpectationSuite.to_json_dict Doubles.Suites.local_suite true) []
    = (Ok s', []) /\
    ExpectationSuite._expectation_suite_name s' = "sales" /\
    ExpectationSuite._expectations s' = ["expect_column_to_exist"] /\
    ExpectationSuite._meta s' = PyDict [] /\
    ExpectationSuite._validation_ingestion_policy s' = "ALWAYS".
Proof.
  assert (Hknown : ExpectationSuite.parents_known Doubles.Suites.local_suite).
  { intros Hid. discriminate Hid. }
  split; [reflexivity|]. split; [exact Hknown|].
  refine (proj2 (@suite_rebuilt_from_snake_case_dict
                   Doubles.Suites.collaborators Doubles.Suites.local_suite []
                   eq_refl Hknown eq_refl (ex_intro _ [] eq_refl))
            eq_refl _).
  repeat constructor.
Defined.

(** C2 as first stated fails for the camel-case dictionary: the constructor
    has no parameter [expectationSuiteName], misses
    [expectation_suite_name] and raises [TypeError], so no suite is
    rebuilt. *)
Lemma camel_case_dict_is_not_accepted :
  ExpectationSuite.new
    (ExpectationSuite.to_json_dict Doubles.Suites.local_suite false) []
  = (Raise (TypeError
       "__init__() missing required positional arguments: expectation_suite_name"),
     []) /\
  ~ (exists s' calls1,
       ExpectationSuite.new
         (ExpectationSuite.to_json_dict Doubles.Suites.local_suite false) []
       = (Ok s', calls1)).
Proof.
  split; [reflexivity|].
  intros (s' & calls1 & Hnew). discriminate Hnew.
Qed.

(** The snake-case dictionary does not give back a meta with a
    camel-case key: the key comes back decamelized. *)
Example decamelized_meta_key_comes_back_changed :
  ExpectationSuite._meta Doubles.Suites.camel_meta_suite
  = PyDict [("fooBar", PyInt 1)] /\
  match fst (ExpectationSuite.new
               (ExpectationSuite.to_json_dict Doubles.Suites.camel_meta_suite true)
               [])
  with
  | Ok s' => Some (ExpectationSuite._meta s')
  | Raise _ => None
  end = Some (PyDict [("foo_bar", PyInt 1)]).
Proof.
  split; vm_compute; reflexivity.
Qed.


(** An instance of C7: one upstream feature view, no training dataset. *)
Lemma provenance_is_none_or_populated_links_witness :
  let H := Doubles.Registry.collaborators (Ok (PyList [PyStr "fv"])) in
  @ModelApi.backend H (Client.sent Doubles.Registry.session)
    (ModelApi.provenance_request 119%Z Doubles.Registry.a_model 2%Z)
  = Ok (PyList [PyStr "fv"]) /\
  fst (@ModelApi.get_feature_view_provenance H Doubles.Registry.a_model
         Doubles.Registry.session)
  = Ok (PyObj (ModelApi.OLinks ["fv"])).
Proof.
  intros H. split; [reflexivity|].
  exact (f_equal fst
           (proj1 (proj2
              (@provenance_is_none_or_populated_links H
                 Doubles.Registry.a_model Doubles.Registry.session))
              (PyList [PyStr "fv"]) eq_refl)).
Defined.

(** An instance of C5: a 404 answer gives [None] and the empty map. *)
Lemma lookups_turn_not_found_into_sentinels_witness :
  let H := Doubles.Registry.collaborators
             (Raise (RestAPIError (mkRestError 404 360000))) in
  fst (@ModelApi.get H "mnist" 2%Z 3%Z None Doubles.Registry.session) = Ok PyNone /\
  fst (@ModelApi.get_tags H Doubles.Registry.a_model Doubles.Registry.session)
  = Ok (PyDict []).
Proof.
  intros H.
  pose proof (@lookups_turn_not_found_into_sentinels H "mnist" 2%Z 3%Z None
                Doubles.Registry.a_model Doubles.Registry.session)
    as (Hget & _ & Htags & _).
  split.
  - apply Hget. exists (mkRestError 404 360000). split; reflexivity.
  - apply Htags. exists (mkRestError 404 360000). split; reflexivity.
Defined.

(** C5 as first stated fails: the backend answers with an empty collection
    of tags, no not-found is reported, and [get_tags] returns the empty
    map. *)
Lemma get_tags_empty_map_without_not_found :
  let reply : PyVal (ModelApi.Obj (list string)) :=
    PyDict [("count", PyInt 0); ("items", PyList [])] in
  let H := Doubles.Registry.collaborators (Ok reply) in
  fst (@ModelApi.get_tags H Doubles.Registry.a_model Doubles.Registry.session)
  = Ok (PyDict []) /\
  ~ (exists e,
       @ModelApi.backend H (Client.sent Doubles.Registry.session)
         (ModelApi.get_tags_request 119%Z Doubles.Registry.a_model)
       = Raise (RestAPIError e) /\
       ModelApi.reports_not_found e = true).
Proof.
  intros reply H. split; [reflexivity|].
  intros (e & Hreply & _). discriminate Hreply.
Qed.


(* ===================================================================== *)
(** * Part VIII.  Further properties                                     *)
(* ===================================================================== *)

(** ** Dictionaries *)

Lemma dict_get_set_same {V} (k : string) (v : V) (d : list (string * V)) :
  dict_get k (dict_set k v d) = Some v.
Proof.
  induction d as [|[k' v'] d IH]; simpl.
  - now rewrite String.eqb_refl.
  - destruct (String.eqb_spec k k') as [->|Hne]; simpl.
    + now rewrite String.eqb_refl.
    + destruct (String.eqb_spec k k'); [contradiction|exact IH].
Qed.

Lemma dict_get_set_other {V} (k k0 : string) (v : V) (d : list (string * V)) :
  k0 <> k -> dict_get k0 (dict_set k v d) = dict_get k0 d.
Proof.
  intros Hne. induction d as [|[k' v'] d IH]; simpl.
  - destruct (String.eqb_spec k0 k); [contradiction|reflexivity].
  - destruct (String.eqb_spec k k') as [->|Hkk'].
    + simpl. now destruct (String.eqb_spec k0 k').
    + simpl. now rewrite IH.
Qed.

Lemma dict_get_fold_dict_set {V} (k : string) (items acc : list (string * V)) :
  dict_get k (fold_left (fun d kv => dict_set (fst kv) (snd kv) d) items acc)
  = PyX.last_assigned k items (dict_get k acc).
Proof.
  revert acc. induction items as [|[k' v] items IH]; intros acc; simpl.
  - reflexivity.
  - rewrite IH. f_equal.
    destruct (String.eqb_spec k k') as [->|Hne].
    + apply dict_get_set_same.
    + now apply dict_get_set_other.
Qed.

(** ** The search-index connection *)

Section OpenSearchConnectionProperties.

Import Client PyX OpenSearchConnection.

Context {O : Type} `{Cluster O}.

Lemma token_run (c : Session O) :
  _get_authorization_token c
  = (match backend (sent c) (token_request (_project_id c)) with
     | Ok reply => subscript reply "token"
     | Raise e => Throws (Builtin e)
     end,
     mkSession (_project_id c) (_project_name c)
       (sent c ++ [token_request (_project_id c)])).
Proof.
  unfold _get_authorization_token, xbind, of_M, gets, _send_request, xlift.
  simpl. destruct (backend _ _); reflexivity.
Qed.

(** X1.  [_get_authorization_token] sends one GET to [elastic/jwt/<project
    id>] with a JSON content type and returns the entry of the answer under
    ["token"]; an answer that is a mapping without that key raises
    [KeyError], and an error of the backend is raised as it is. *)
Theorem authorization_token_is_read_from_one_request (c : Session O) :
  let request :=
    mkRequest "GET" [ PyStr "elastic"; PyStr "jwt"; PyInt (_project_id c) ]
      None (Some [ ("content-type", "application/json") ]) None in
  let answer := backend (sent c) request in
  snd (_get_authorization_token c)
  = mkSession (_project_id c) (_project_name c) (sent c ++ [request]) /\
  (forall d token,
     answer = Ok (PyDict d) -> dict_get "token" d = Some token ->
     fst (_get_authorization_token c) = Returns token) /\
  (forall d,
     answer = Ok (PyDict d) -> dict_get "token" d = None ->
     fst (_get_authorization_token c) = Throws (KeyError "token")) /\
  (forall e,
     answer = Raise e ->
     fst (_get_authorization_token c) = Throws (Builtin e)).
Proof.
  cbv zeta. rewrite token_run. fold (@token_request O (_project_id c)).
  split; [reflexivity|]. simpl. split; [|split].
  - intros d token -> Htoken. simpl. now rewrite Htoken.
  - intros d -> Htoken. simpl. now rewrite Htoken.
  - intros e ->. reflexivity.
Qed.

(** X2.  The URL of the search service is [https://<host>:9200]; inside
    the cluster the host is [rest.elastic.service.] followed by the service
    discovery domain, and an empty domain is a [FeatureStoreException]
    instead of a URL.  Building the URL leaves the session as the lookup
    of the domain left it. *)
Theorem opensearch_url_is_https_on_9200 (c : Session O) :
  (forall url,
     fst (_get_opensearch_url c) = Ok url ->
     exists host,
       url = ("https://" ++ host ++ ":9200")%string /\
       (_is_external = false ->
        exists domain,
          fst (get_service_discovery_domain c) = Ok domain /\
          domain <> ""%string /\
          host = ("rest.elastic.service." ++ domain)%string)) /\
  (_is_external = false ->
   fst (get_service_discovery_domain c) = Ok ""%string ->
   exists msg,
     fst (_get_opensearch_url c) = Raise (FeatureStoreException msg)) /\
  snd (_get_opensearch_url c)
  = snd ((if _is_external
          then get_loadbalancer_external_domain "opensearch"
          else get_service_discovery_domain) c).
Proof.
  unfold _get_opensearch_url, bind, ret, raise. split; [|split].
  - intros url. destruct _is_external.
    + destruct (get_loadbalancer_external_domain "opensearch" c)
        as [[d|e] c1]; simpl; [|discriminate].
      intros [= <-]. exists d. split; [reflexivity|discriminate].
    + destruct (get_service_discovery_domain c) as [[d|e] c1]; simpl;
        [|discriminate].
      destruct (String.eqb_spec d "") as [->|Hne]; [discriminate|].
      intros [= <-]. exists ("rest.elastic.service." ++ d)%string. split.
      * simpl. reflexivity.
      * intros _. exists d. repeat split; assumption.
  - intros ->. destruct (get_service_discovery_domain c) as [[d|e] c1]; simpl;
      [|discriminate].
    intros [= ->]. simpl. eexists. reflexivity.
  - destruct _is_external.
    + destruct (get_loadbalancer_external_domain "opensearch" c)
        as [[d|e] c1]; reflexivity.
    + destruct (get_service_discovery_domain c) as [[d|e] c1];
        [|reflexivity].
      simpl. destruct (String.eqb d ""); reflexivity.
Qed.

(** X3.  [get_default_py_config] builds the URL before it asks for the
    token.  When the URL cannot be built it raises the error of
    [_get_opensearch_url] and the session is as the lookup of the domain
    left it: no token is asked for.  When it can, exactly one request
    follows those of the lookup, the one for the token, and the
    configuration carries the host and port of the URL, the token as
    [Authorization] header, TLS with verified certificates, no host name
    assertion, no compression, and the CA chain of the client. *)
Theorem default_py_config_needs_url_then_token (c : Session O) :
  (forall e c1,
     _get_opensearch_url c = (Raise e, c1) ->
     get_default_py_config c = (Throws (Builtin e), c1)) /\
  (forall url c1 d token ca_chain_path,
     _get_opensearch_url c = (Ok url, c1) ->
     backend (sent c1) (token_request (_project_id c1)) = Ok (PyDict d) ->
     dict_get "token" d = Some token ->
     _get_ca_chain_path = Ok ca_chain_path ->
     get_default_py_config c
     = (Returns
          [ ("hosts",
              PyList [ PyDict [ ("host", furl_host url);
                                ("port", furl_port url) ] ]);
            ("http_compress", PyBool false);
            ("headers", PyDict [ ("Authorization", token) ]);
            ("use_ssl", PyBool true);
            ("verify_certs", PyBool true);
            ("ssl_assert_hostname", PyBool false);
            ("ca_certs", ca_chain_path) ],
        mkSession (_project_id c1) (_project_name c1)
          (sent c1 ++ [token_request (_project_id c1)]))).
Proof.
  split.
  - intros e c1 Hurl. unfold get_default_py_config, xbind, of_M.
    rewrite Hurl. reflexivity.
  - intros url c1 d token ca Hurl Hreply Htoken Hca.
    unfold get_default_py_config, xbind, of_M. rewrite Hurl. simpl.
    rewrite token_run, Hreply. simpl. rewrite Htoken, Hca. reflexivity.
Qed.

End OpenSearchConnectionProperties.

(** An instance of X1: the answer holds a token. *)
Lemma authorization_token_is_read_from_one_request_witness :
  let H := MoreDoubles.Search.cluster "consul"
             (Ok (PyDict [("token", PyStr "Bearer abc")])) in
  fst (@OpenSearchConnection._get_authorization_token unit H
         MoreDoubles.Search.session)
  = PyX.Returns (PyStr "Bearer abc").
Proof.
  intros H.
  exact (proj1 (proj2
           (@authorization_token_is_read_from_one_request unit H
              MoreDoubles.Search.session))
           [("token", PyStr "Bearer abc")] (PyStr "Bearer abc")
           eq_refl eq_refl).
Defined.

(** An instance of X2: inside the cluster, domain [consul]. *)
Lemma opensearch_url_is_https_on_9200_witness :
  let H := MoreDoubles.Search.cluster "consul" (Ok PyNone) in
  fst (@OpenSearchConnection._get_opensearch_url unit H
         MoreDoubles.Search.session)
  = Ok "https://rest.elastic.service.consul:9200" /\
  exists host,
    "https://rest.elastic.service.consul:9200"
    = ("https://" ++ host ++ ":9200")%string.
Proof.
  intros H. split; [reflexivity|].
  destruct (proj1 (@opensearch_url_is_https_on_9200 unit H
                     MoreDoubles.Search.session)
              "https://rest.elastic.service.consul:9200" eq_refl)
    as (host & Hurl & _).
  exists host. exact Hurl.
Defined.

(** An instance of X3: no domain; the lookup is the only request sent. *)
Lemma default_py_config_needs_url_then_token_witness :
  let H := MoreDoubles.Search.cluster "" (Ok PyNone) in
  exists msg,
    fst (@OpenSearchConnection._get_opensearch_url unit H
           MoreDoubles.Search.session)
    = Raise (FeatureStoreException msg) /\
    @OpenSearchConnection.get_default_py_config unit H
      MoreDoubles.Search.session
    = (PyX.Throws (PyX.Builtin (FeatureStoreException msg)),
       Client.mkSession 119 "MyProj"
         [MoreDoubles.Search.variable_request "service_discovery_domain"]).
Proof.
  intros H. eexists. split; [reflexivity|].
  exact (proj1 (@default_py_config_needs_url_then_token unit H
                  MoreDoubles.Search.session) _ _ eq_refl).
Defined.

(** ** The model registry: writes, deletion, tags *)

Section ModelRegistryProperties.

Import Client ModelApi ModelRegistry PyX.

Context `{Serializers}.

Abbreviation RVal := (PyVal (Obj Links)).

Ltac run_api :=
  unfold put, delete, set_tag, delete_tag, get_tag_undecorated, get,
    get_undecorated, get_models, get_tags, get_tags_undecorated,
    get_feature_view_provenance, get_training_dataset_provenance,
    catch_not_found, bind, gets, lift, ret, xbind, of_M, xlift;
  simpl;
  repeat (rewrite send_appends; simpl).

Ltac split_cases :=
  repeat match goal with
         | |- context [match ?x with _ => _ end] =>
             lazymatch x with
             | context [match _ with _ => _ end] => fail
             | _ => destruct x; simpl
             end
         end.

(** X4.  Whatever method of [ModelApi] is called, the project of the
    session stays the same and at most one request is sent, under
    [project/<project id>/modelregistries]: a method never retries and
    never addresses another project. *)
Theorem every_call_sends_at_most_one_request
    (call : ApiCall) (c : Session (Obj Links)) :
  let c' := session_after call c in
  _project_id c' = _project_id c /\
  _project_name c' = _project_name c /\
  (sent c' = sent c \/
   exists r, sent c' = sent c ++ [r] /\ in_registry (_project_id c) r).
Proof.
  unfold in_registry.
  destruct call; unfold session_after; run_api; split_cases;
    repeat split;
    try (left; reflexivity);
    try (right; eexists; split; [reflexivity|]; simpl; eexists; reflexivity).
Qed.


(** X6.  The three methods on one tag address the same resource: the path
    of [get_tags] for the model, followed by the tag name.  [set_tag]
    sends there, as JSON text, what [json.dumps] makes of the value; a
    value that [json.dumps] rejects raises [TypeError] and nothing is
    sent. *)
Theorem tag_methods_share_one_path
    (model_instance : Model) (name : string) (value : RVal)
    (c : Session (Obj Links)) :
  let path :=
    path_params (get_tags_request (_project_id c) model_instance)
    ++ [PyStr name] in
  (forall text,
     json_dumps value = Some text ->
     sent (snd (set_tag model_instance name value c))
     = sent c ++ [mkRequest "PUT" path None
                    (Some [("content-type", "application/json")])
                    (Some text)]) /\
  (json_dumps value = None ->
   exists msg,
     set_tag model_instance name value c = (Raise (TypeError msg), c)) /\
  sent (snd (delete_tag model_instance name c))
  = sent c ++ [mkRequest "DELETE" path None None None] /\
  sent (snd (get_tag_undecorated model_instance name c))
  = sent c ++ [mkRequest "GET" path None None None].
Proof.
  cbv zeta. repeat match goal with |- _ /\ _ => split end.
  - intros text Htext. run_api. rewrite Htext. simpl.
    destruct (backend _ _); reflexivity.
  - intros Hnone. run_api. rewrite Hnone. simpl. eexists. reflexivity.
  - run_api. destruct (backend _ _); reflexivity.
  - run_api. destruct (backend _ _); reflexivity.
Qed.

(** X7.  The body of [get_tag] returns the entry of the decoded answer
    under the tag name.  A decoded mapping without the name raises
    [KeyError]; a decoded list, which is what [get_tags] iterates over,
    raises [TypeError]; an error of the backend is raised as it is. *)
Theorem get_tag_is_a_subscript_of_the_decoded_answer
    (model_instance : Model) (name : string) (c : Session (Obj Links)) :
  let answer :=
    backend (sent c)
      (mkRequest "GET" (tag_path (_project_id c) model_instance name)
         None None None) in
  let result := fst (get_tag_undecorated model_instance name c) in
  (forall reply d v,
     answer = Ok reply -> Tag_from_response_json reply = PyDict d ->
     dict_get name d = Some v -> result = Returns v) /\
  (forall reply d,
     answer = Ok reply -> Tag_from_response_json reply = PyDict d ->
     dict_get name d = None -> result = Throws (KeyError name)) /\
  (forall reply l,
     answer = Ok reply -> Tag_from_response_json reply = PyList l ->
     exists msg, result = Throws (Builtin (TypeError msg))) /\
  (forall e, answer = Raise e -> result = Throws (Builtin e)).
Proof.
  cbv zeta. run_api. fold (tag_path (_project_id c) model_instance name).
  repeat match goal with |- _ /\ _ => split end.
  - intros reply d v -> Hdecoded Hget. simpl. rewrite Hdecoded. simpl.
    now rewrite Hget.
  - intros reply d -> Hdecoded Hget. simpl. rewrite Hdecoded. simpl.
    now rewrite Hget.
  - intros reply l -> Hdecoded. simpl. rewrite Hdecoded. simpl.
    eexists. reflexivity.
  - intros e ->. reflexivity.
Qed.

Lemma tags_comprehension_fails (ts : list Tag) (e : PyExc) acc :
  traverse (fun t => decoded (json_loads (_value t))) ts = Raise e ->
  tags_comprehension acc (map (fun t => PyObj (OTag t)) ts) = Raise e.
Proof.
  revert acc. induction ts as [|t ts IH]; intros acc; simpl; [discriminate|].
  destruct (decoded (json_loads (_value t))) as [v|e0]; simpl.
  - destruct (traverse _ ts) as [vs|e1] eqn:Hts; simpl; [discriminate|].
    intros [= <-]. now apply IH.
  - intros [= <-]. reflexivity.
Qed.

(** X8.  When the backend answers with tags whose values are all JSON
    text, [get_tags] returns a map in which a name has the decoded value
    of the last tag that carries it, and a name that no tag carries is
    absent.  When one value is not JSON text, the call raises the decoding
    error and returns no map at all. *)
Theorem get_tags_maps_each_name_to_its_last_value
    (model_instance : Model) (c : Session (Obj Links))
    (reply : RVal) (ts : list Tag) :
  backend (sent c) (get_tags_request (_project_id c) model_instance)
  = Ok reply ->
  Tag_from_response_json reply = PyList (map (fun t => PyObj (OTag t)) ts) ->
  (forall vs,
     traverse (fun t => decoded (json_loads (_value t))) ts = Ok vs ->
     exists d,
       fst (get_tags model_instance c) = Ok (PyDict d) /\
       forall name,
         dict_get name d
         = last_assigned name (combine (map _name ts) vs) None) /\
  (forall e,
     traverse (fun t => decoded (json_loads (_value t))) ts = Raise e ->
     fst (get_tags model_instance c) = Raise e).
Proof.
  intros Hreply Hdecoded. rewrite get_tags_outcome, Hreply.
  unfold decode_tags. rewrite Hdecoded. simpl. split.
  - intros vs Hvs. rewrite (tags_comprehension_decodes ts vs [] Hvs). simpl.
    eexists. split; [reflexivity|].
    intros name. exact (dict_get_fold_dict_set name _ []).
  - intros e He. rewrite (tags_comprehension_fails ts e [] He). reflexivity.
Qed.

Lemma traverse_set_shared (v : option string) (ms : list Model) :
  traverse (set_shared_registry_project_name v)
    (map (fun m => PyObj (OModel m)) ms)
  = Ok (map (fun m => PyObj (@OModel Links (shared_by v m))) ms).
Proof.
  induction ms as [|m ms IH]; simpl; [reflexivity|].
  rewrite IH. reflexivity.
Qed.

(** X9.  Every model that [get_models] returns carries the
    [shared_registry_project_name] it was called with and is otherwise as
    decoded, in the decoded order; so does the model that [get] returns. *)
Theorem returned_models_carry_the_shared_project_name
    (name : string) (version model_registry_id : Z)
    (shared_registry_project_name metric direction : option string)
    (c : Session (Obj Links)) (reply : RVal) :
  (forall ms,
     backend (sent c)
       (get_models_request (_project_id c) name model_registry_id
          metric direction) = Ok reply ->
     Model_from_response_json reply
     = PyList (map (fun m => PyObj (OModel m)) ms) ->
     fst (get_models name model_registry_id shared_registry_project_name
            metric direction c)
     = Ok (PyList (map (fun m => PyObj (OModel
                          (shared_by shared_registry_project_name m))) ms))) /\
  (forall m,
     backend (sent c)
       (get_request (_project_id c) name version model_registry_id)
     = Ok reply ->
     Model_from_response_json reply = PyObj (OModel m) ->
     fst (get name version model_registry_id shared_registry_project_name c)
     = Ok (PyObj (OModel (shared_by shared_registry_project_name m)))).
Proof.
  split.
  - intros ms Hreply Hdecoded. unfold get_models_request in Hreply.
    run_api. rewrite Hreply. simpl. rewrite Hdecoded. simpl.
    rewrite traverse_set_shared. reflexivity.
  - intros m Hreply Hdecoded. rewrite get_outcome, Hreply, Hdecoded.
    reflexivity.
Qed.

End ModelRegistryProperties.


(** An instance of X6: the tag [stage] of the model is set to [1]. *)
Lemma tag_methods_share_one_path_witness :
  let H := MoreDoubles.Registry.serializers (Ok PyNone) in
  @ModelRegistry.json_dumps _ H (PyInt 1) = Some "1" /\
  Client.sent
    (snd (@ModelRegistry.set_tag _ H Doubles.Registry.a_model "stage"
            (PyInt 1) Doubles.Registry.session))
  = [ Client.mkRequest "PUT"
        [ PyStr "project"; PyInt 119; PyStr "modelregistries"; PyStr "3";
          PyStr "models"; PyInt 7; PyStr "tags"; PyStr "stage" ]
        None (Some [("content-type", "application/json")]) (Some "1") ].
Proof.
  intros H. split; [reflexivity|].
  exact (proj1 (@tag_methods_share_one_path _ H Doubles.Registry.a_model
                  "stage" (PyInt 1) Doubles.Registry.session)
           "1" eq_refl).
Defined.

(** An instance of X7: the decoder of the doubles returns a list. *)
Lemma get_tag_is_a_subscript_of_the_decoded_answer_witness :
  let H := Doubles.Registry.collaborators (Ok MoreDoubles.Registry.two_tags) in
  exists msg,
    fst (@ModelRegistry.get_tag_undecorated H Doubles.Registry.a_model
           "stage" Doubles.Registry.session)
    = PyX.Throws (PyX.Builtin (TypeError msg)).
Proof.
  intros H.
  exact (proj1 (proj2 (proj2
           (@get_tag_is_a_subscript_of_the_decoded_answer H
              Doubles.Registry.a_model "stage" Doubles.Registry.session)))
           MoreDoubles.Registry.two_tags _ eq_refl eq_refl).
Defined.

(** An instance of X8: two tags of the same name, the second one wins. *)
Lemma get_tags_maps_each_name_to_its_last_value_witness :
  let H := Doubles.Registry.collaborators (Ok MoreDoubles.Registry.two_tags) in
  exists d,
    fst (@ModelApi.get_tags H Doubles.Registry.a_model Doubles.Registry.session)
    = Ok (PyDict d) /\
    dict_get "stage" d = Some (PyBool true) /\
    dict_get "owner" d = None.
Proof.
  intros H.
  destruct (proj1 (@get_tags_maps_each_name_to_its_last_value H
                     Doubles.Registry.a_model Doubles.Registry.session
                     MoreDoubles.Registry.two_tags
                     [ModelApi.mkTag "stage" "1"; ModelApi.mkTag "stage" "true"]
                     eq_refl eq_refl)
              [PyInt 1; PyBool true] eq_refl)
    as (d & Hd & Hget).
  exists d. split; [exact Hd|]. split; [apply (Hget "stage")|apply (Hget "owner")].
Defined.

(** An instance of X9: one decoded model. *)
Lemma returned_models_carry_the_shared_project_name_witness :
  let reply : PyVal (ModelApi.Obj (list string)) :=
    PyDict [("name", PyStr "mnist"); ("version", PyInt 2)] in
  let H := Doubles.Registry.collaborators (Ok reply) in
  fst (@ModelApi.get H "mnist" 2%Z 3%Z (Some "other") Doubles.Registry.session)
  = Ok (PyObj (ModelApi.OModel
                 (ModelApi.mkModel 1 "mnist" 2 1 (Some "other")))).
Proof.
  intros reply H.
  exact (proj2 (@returned_models_carry_the_shared_project_name H
                  "mnist" 2%Z 3%Z (Some "other") None None
                  Doubles.Registry.session reply)
           (ModelApi.mkModel 1 "mnist" 2 1 None) eq_refl eq_refl).
Defined.

(** ** Expectation suites: construction, setters, the single-expectation
    API on an attached suite *)

Section SuiteLifecycleProperties.

Import ExpectationSuite SuiteLifecycle PyX.

Context `{Collaborators}.

Abbreviation LVal := (PyVal (Obj GeExpectation ExpectationConfiguration)).
Abbreviation LCall := (EngineCall GeExpectation ExpectationConfiguration).
Abbreviation LMethod := (M State).

(** *** Methods that make no engine call *)

Lemma silent_ret {A} (a : A) : silent (ret a).
Proof. intros st. reflexivity. Qed.

Lemma silent_raise {A} (e : PyExc) : silent (@raise State A e).
Proof. intros st. reflexivity. Qed.

Lemma silent_lift {A} (r : result A) : silent (lift r).
Proof. intros st. reflexivity. Qed.

Lemma silent_gets {A} (f : State -> A) : silent (gets f).
Proof. intros st. reflexivity. Qed.

Lemma silent_assign (f : Suite -> Suite) : silent (assign f).
Proof. intros st. reflexivity. Qed.

Lemma silent_bind {A B} (m : LMethod A) (k : A -> LMethod B) :
  silent m -> (forall a, silent (k a)) -> silent (bind m k).
Proof.
  intros Hm Hk st. unfold bind. specialize (Hm st).
  destruct (m st) as [[a|e] st1]; simpl in *.
  - rewrite Hk. exact Hm.
  - exact Hm.
Qed.

Ltac hush :=
  repeat first
    [ apply silent_ret
    | apply silent_raise
    | apply silent_lift
    | apply silent_gets
    | apply silent_assign
    | apply silent_bind
    | match goal with
      | |- silent (if ?b then _ else _) => destruct b
      | |- silent (match ?x with _ => _ end) => destruct x
      | |- forall _, _ => intro
      end ].

Lemma silent_set_expectations (v : LVal) : silent (set_expectations v).
Proof. unfold set_expectations. hush. Qed.

Lemma silent_init_engines : silent init_engines.
Proof. unfold init_engines. hush. Qed.

(** While the attribute [_expectation_suite_engine] does not exist, the
    setter of [meta] makes no call. *)
Lemma set_meta_before_engines (v : LVal) (st : State) :
  _expectation_suite_engine (self st) = None ->
  calls (snd (set_meta v st)) = calls st.
Proof.
  intros Hnone. unfold set_meta, bind, assign, modify, gets, lift.
  destruct v; simpl; try reflexivity.
  - destruct (decoded (json_loads s)); simpl; [|reflexivity].
    now rewrite Hnone.
  - now rewrite Hnone.
Qed.

Lemma same_suite_engine_refl (s : Suite) : same_suite_engine s s.
Proof. reflexivity. Qed.

Lemma same_suite_engine_trans (s1 s2 s3 : Suite) :
  same_suite_engine s1 s2 -> same_suite_engine s2 s3 ->
  same_suite_engine s1 s3.
Proof. unfold same_suite_engine. congruence. Qed.

Lemma init_makes_no_call (a : InitArgs) (calls0 : list LCall) :
  snd (__init__ a calls0) = calls0.
Proof.
  unfold __init__.
  destruct (init_parents a) as [parents|e]; [|reflexivity].
  set (st0 := mkState (init_attributes a parents) calls0).
  assert (H1 : calls (snd (set_expectations (expectations a) st0)) = calls0)
    by apply silent_set_expectations.
  assert (H1' : _expectation_suite_engine
                  (self (snd (set_expectations (expectations a) st0))) = None).
  { exact (respects_set_expectations same_suite_engine
             same_suite_engine_refl same_suite_engine_trans
             (expectations a) (fun es s => eq_refl) st0). }
  unfold bind at 1.
  destruct (set_expectations (expectations a) st0) as [[u|e] st1];
    simpl in *; [|exact H1].
  pose proof (set_meta_before_engines (meta a) st1 H1') as H2.
  unfold bind at 1.
  destruct (set_meta (meta a) st1) as [[u2|e] st2]; simpl in *;
    [|congruence].
  pose proof (silent_init_engines st2) as H3.
  destruct (init_engines st2) as [[u3|e] st3]; simpl in *; congruence.
Qed.

Lemma new_makes_no_call (d : list (string * LVal)) (calls0 : list LCall) :
  snd (new d calls0) = calls0.
Proof.
  unfold new. destruct (bind_arguments d); [apply init_makes_no_call|reflexivity].
Qed.

Lemma construct_all_makes_no_call (items : list LVal) (calls0 : list LCall) :
  snd (construct_all items calls0) = calls0.
Proof.
  revert calls0. induction items as [|item items IH]; intros calls0; simpl.
  - reflexivity.
  - destruct item; try reflexivity.
    pose proof (new_makes_no_call items0 calls0) as Hnew.
    destruct (new items0 calls0) as [[s|e] calls1]; simpl in *; [|exact Hnew].
    specialize (IH calls1).
    destruct (construct_all items calls1) as [[l|e] calls2]; simpl in *;
      congruence.
Qed.

(** X10.  Building a suite never talks to the backend: the constructor,
    called directly, through [from_response_json] or through
    [from_ge_type], makes no engine call, whether it returns or raises and
    whether or not the suite has an id. *)
Theorem constructors_make_no_engine_call (calls0 : list LCall) :
  (forall a, snd (__init__ a calls0) = calls0) /\
  (forall d, snd (new d calls0) = calls0) /\
  (forall json_dict, snd (from_response_json json_dict calls0) = calls0) /\
  (forall suite_dict run_validation policy id fs fg,
      snd (from_ge_type suite_dict run_validation policy id fs fg calls0)
      = calls0).
Proof.
  split; [intros a; apply init_makes_no_call|].
  split; [intros d; apply new_makes_no_call|]. split.
  - intros json_dict. unfold from_response_json.
    destruct (dict_get "count" _) as [count|].
    + destruct (equals_zero count) as [[|]|e]; try reflexivity.
      destruct (dict_get "items" _) as [items|]; [|reflexivity].
      destruct (iterate items) as [l|e]; [|reflexivity].
      pose proof (construct_all_makes_no_call l calls0) as Hall.
      destruct (construct_all l calls0) as [[ss|e] calls1]; exact Hall.
    + pose proof (new_makes_no_call
                    (decamelize_dict decamelize_key json_dict) calls0) as Hnew.
      destruct (new _ calls0) as [[s|e] calls1]; exact Hnew.
  - intros suite_dict run_validation policy id fs fg. unfold from_ge_type.
    destruct (existsb _ _); [reflexivity|apply new_makes_no_call].
Qed.

(** *** What the constructor builds *)

Lemma set_expectations_ok (v : LVal) (st st' : State) (u : unit) :
  set_expectations v st = (Ok u, st') ->
  exists es, st' = mkState (with_expectations es (self st)) (calls st).
Proof.
  unfold set_expectations, bind, lift, assign, modify, raise.
  destruct v; try discriminate.
  - intros [= _ <-]. now exists [].
  - destruct (traverse _convert_expectation l) as [es|e]; [|discriminate].
    intros [= _ <-]. now exists es.
Qed.

Lemma set_meta_ok_before_engines (v : LVal) (st st' : State) (u : unit) :
  _expectation_suite_engine (self st) = None ->
  set_meta v st = (Ok u, st') ->
  exists m, st' = mkState (with_meta m (self st)) (calls st).
Proof.
  intros Hnone. unfold set_meta, bind, lift, assign, modify, raise, gets.
  destruct v; try discriminate; simpl.
  - destruct (decoded (json_loads s)) as [m|e]; simpl; [|discriminate].
    rewrite Hnone. intros [= _ <-]. now exists m.
  - rewrite Hnone. intros [= _ <-]. now exists (PyDict items).
Qed.

Lemma init_engines_ok (st st' : State) (u : unit) :
  init_engines st = (Ok u, st') ->
  st' = mkState (wired (self st)) (calls st).
Proof.
  unfold init_engines, wired, bind, assign, modify, gets, raise. simpl.
  destruct (_id (self st)) as [suite_id|]; simpl.
  - destruct (negb (suite_id =? 0)%Z).
    + destruct (_feature_store_id (self st)); [|discriminate].
      destruct (_feature_group_id (self st)); [|discriminate].
      intros [= _ <-]. reflexivity.
    + intros [= _ <-].
      destruct (_feature_store_id (self st)); [|reflexivity].
      destruct (_feature_group_id (self st)); reflexivity.
  - intros [= _ <-]. reflexivity.
Qed.

(** The suite the constructor returns, attribute by attribute. *)
Lemma init_builds (a : InitArgs) (calls0 calls1 : list LCall) (s : Suite) :
  __init__ a calls0 = (Ok s, calls1) ->
  exists parents es m,
    init_parents a = Ok parents /\
    s = wired (with_meta m (with_expectations es (init_attributes a parents))).
Proof.
  unfold __init__.
  destruct (init_parents a) as [parents|e]; [|discriminate].
  unfold bind at 1.
  destruct (set_expectations _ _) as [[u|e] st1] eqn:H1; [|discriminate].
  apply set_expectations_ok in H1. destruct H1 as [es ->].
  unfold bind at 1.
  destruct (set_meta _ _) as [[u2|e] st2] eqn:H2; [|discriminate].
  apply set_meta_ok_before_engines in H2; [|reflexivity].
  destruct H2 as [m ->].
  destruct (init_engines _) as [[u3|e] st3] eqn:H3; [|discriminate].
  apply init_engines_ok in H3. subst st3.
  intros [= <- _]. exists parents, es, m. split; reflexivity.
Qed.

Lemma wired_origin (s : Suite) :
  _feature_store_id (wired s) = _feature_store_id s /\
  _feature_group_id (wired s) = _feature_group_id s /\
  _href (wired s) = _href s.
Proof.
  unfold wired.
  destruct (_id s); [|repeat split].
  destruct (_feature_store_id s) eqn:Hfs; [|repeat split; now rewrite ?Hfs].
  destruct (_feature_group_id s) eqn:Hfg;
    [|repeat split; simpl; now rewrite ?Hfs, ?Hfg].
  destruct (truthy_id _); repeat split; simpl; now rewrite ?Hfs, ?Hfg.
Qed.

Lemma wired_id (s : Suite) : _id (wired s) = _id s.
Proof.
  destruct s as [[i|] n g d r p e h [fs|] [fg|] m ee se]; unfold wired; simpl;
    try reflexivity.
  destruct (negb (i =? 0)%Z); reflexivity.
Qed.

Lemma wired_engines (s : Suite) :
  (has_id s ->
   _feature_store_id s <> None -> _feature_group_id s <> None ->
   attached (wired s) /\ engines_match (wired s)) /\
  (truthy_id (_id s) = false ->
   _expectation_engine (wired s) = None /\
   _expectation_suite_engine (wired s) = Some None).
Proof.
  destruct s as [[i|] n g d r p e h [fs|] [fg|] m ee se];
    unfold wired, has_id, attached, engines_match; simpl;
    (split; [intros Hid Hfs Hfg; try discriminate; try contradiction
            |intros Hid; try (split; reflexivity)]).
  - rewrite Hid. simpl. split.
    + split; [exact Hid|]. split; eexists; reflexivity.
    + exists i, fs, fg. repeat split.
  - rewrite Hid. split; reflexivity.
Qed.

(** The engines at the end of the constructor. *)
Lemma init_id (a : InitArgs) (calls0 calls1 : list LCall) (s : Suite) :
  __init__ a calls0 = (Ok s, calls1) -> _id s = id a.
Proof.
  intros Hinit.
  destruct (init_builds _ _ _ _ Hinit) as (parents & es & m & _ & ->).
  now rewrite wired_id.
Qed.

Lemma init_attached (a : InitArgs) (calls0 calls1 : list LCall) (s : Suite) :
  __init__ a calls0 = (Ok s, calls1) ->
  has_id s -> attached s /\ engines_match s.
Proof.
  intros Hinit.
  pose proof (init_establishes _ _ _ _ Hinit) as Hknown.
  destruct (init_builds _ _ _ _ Hinit) as (parents & es & m & _ & Hs).
  set (s0 := with_meta m (with_expectations es (init_attributes a parents)))
    in *.
  destruct (wired_origin s0) as (Hfs & Hfg & _).
  pose proof (wired_id s0) as Hid.
  destruct (wired_engines s0) as [Hon _].
  subst s. intros Hhas. destruct (Hknown Hhas) as [Hfs' Hfg'].
  unfold has_id in Hhas. rewrite Hid in Hhas. rewrite Hfs in Hfs'.
  rewrite Hfg in Hfg'. now apply Hon.
Qed.

Lemma init_detached (a : InitArgs) (calls0 calls1 : list LCall) (s : Suite) :
  __init__ a calls0 = (Ok s, calls1) ->
  truthy_id (_id s) = false ->
  _expectation_engine s = None /\ _expectation_suite_engine s = Some None.
Proof.
  intros Hinit.
  destruct (init_builds _ _ _ _ Hinit) as (parents & es & m & _ & ->).
  rewrite wired_id. apply wired_engines.
Qed.

(** Every attribute but the engines is what the constructor was given. *)
Lemma wired_attributes (s : Suite) :
  _expectation_suite_name (wired s) = _expectation_suite_name s /\
  _run_validation (wired s) = _run_validation s /\
  _validation_ingestion_policy (wired s) = _validation_ingestion_policy s /\
  _expectations (wired s) = _expectations s /\
  _meta (wired s) = _meta s /\
  _ge_cloud_id (wired s) = _ge_cloud_id s /\
  _data_asset_type (wired s) = _data_asset_type s.
Proof.
  destruct s as [[i|] n g d r p e h [fs|] [fg|] m ee se];
    unfold wired; simpl; try (repeat split; reflexivity).
  destruct (negb (i =? 0)%Z); repeat split; reflexivity.
Qed.

Lemma init_fields (a : InitArgs) (calls0 calls1 : list LCall) (s : Suite) :
  __init__ a calls0 = (Ok s, calls1) ->
  _expectation_suite_name s = expectation_suite_name a /\
  _run_validation s = run_validation a /\
  _validation_ingestion_policy s = upper (validation_ingestion_policy a) /\
  _ge_cloud_id s = kwargs_get "ge_cloud_id" (kwargs a) /\
  _data_asset_type s = kwargs_get "data_asset_type" (kwargs a).
Proof.
  intros Hinit.
  destruct (init_builds _ _ _ _ Hinit) as (parents & es & m & _ & ->).
  destruct (wired_attributes
              (with_meta m (with_expectations es (init_attributes a parents))))
    as (-> & -> & -> & _ & _ & -> & ->).
  repeat split.
Qed.

(** X11.  A suite that the constructor returns holds both engines exactly
    when it has an id, and then they are built from its own feature store
    id, feature group id and id; without an id it holds no engine. *)
Theorem constructed_suite_is_attached_iff_it_has_an_id
    (a : InitArgs) (calls0 calls1 : list LCall) (s : Suite) :
  __init__ a calls0 = (Ok s, calls1) ->
  _id s = id a /\
  (has_id s -> attached s /\ engines_match s) /\
  (truthy_id (_id s) = false ->
   _expectation_engine s = None /\ _expectation_suite_engine s = Some None).
Proof.
  intros Hinit. split; [exact (init_id _ _ _ _ Hinit)|]. split.
  - exact (init_attached _ _ _ _ Hinit).
  - exact (init_detached _ _ _ _ Hinit).
Qed.

Lemma init_keeps_parents (a : InitArgs) (calls0 calls1 : list LCall)
    (s : Suite) :
  __init__ a calls0 = (Ok s, calls1) ->
  init_parents a = Ok (_feature_store_id s, _feature_group_id s) /\
  _href s = href a.
Proof.
  intros Hinit.
  destruct (init_builds _ _ _ _ Hinit) as (parents & es & m & Hparents & ->).
  destruct (wired_origin
              (with_meta m (with_expectations es (init_attributes a parents))))
    as (-> & -> & ->).
  simpl. split; [|reflexivity]. rewrite Hparents. now destruct parents.
Qed.

(** X12.  The parents of a constructed suite are both set or both unset.
    When both are passed they are kept and the href is not read; when one
    of them is missing the pair is read from the href; and when there is
    no href either, both are unset, even if one of them was passed. *)
Theorem constructed_suite_has_both_parents_or_none
    (a : InitArgs) (calls0 calls1 : list LCall) (s : Suite) :
  __init__ a calls0 = (Ok s, calls1) ->
  parents_paired s /\
  (forall fs fg,
     feature_store_id a = Some fs -> feature_group_id a = Some fg ->
     _feature_store_id s = Some fs /\ _feature_group_id s = Some fg) /\
  (feature_store_id a = None \/ feature_group_id a = None ->
   forall h, href a = Some h ->
   exists fs fg,
     _init_feature_store_and_feature_group_ids_from_href h = Ok (fs, fg) /\
     _feature_store_id s = Some fs /\ _feature_group_id s = Some fg) /\
  (feature_store_id a = None \/ feature_group_id a = None ->
   href a = None ->
   _feature_store_id s = None /\ _feature_group_id s = None).
Proof.
  intros Hinit. destruct (init_keeps_parents _ _ _ _ Hinit) as [Hparents _].
  unfold init_parents in Hparents. unfold parents_paired.
  destruct (feature_store_id a) as [fs|] eqn:Hfs;
    [destruct (feature_group_id a) as [fg|] eqn:Hfg|].
  - injection Hparents as <- <-. split; [|split; [|split]].
    + right. now exists fs, fg.
    + intros fs' fg' [= <-] [= <-]. now split.
    + intros [Hx|Hx]; discriminate.
    + intros [Hx|Hx]; discriminate.
  - destruct (href a) as [h|].
    + destruct (_init_feature_store_and_feature_group_ids_from_href h)
        as [[fs' fg']|e] eqn:Hh; simpl in Hparents; [|discriminate].
      injection Hparents as <- <-. split; [|split; [|split]].
      * right. now exists fs', fg'.
      * intros ? ? ? Hx. discriminate.
      * intros _ h' [= <-]. exists fs', fg'. now rewrite Hh.
      * intros _ Hx. discriminate.
    + injection Hparents as <- <-. split; [|split; [|split]].
      * now left.
      * intros ? ? ? Hx. discriminate.
      * intros _ h Hx. discriminate.
      * intros _ _. now split.
  - destruct (href a) as [h|].
    + destruct (_init_feature_store_and_feature_group_ids_from_href h)
        as [[fs' fg']|e] eqn:Hh; simpl in Hparents; [|discriminate].
      injection Hparents as <- <-. split; [|split; [|split]].
      * right. now exists fs', fg'.
      * intros ? ? Hx. discriminate.
      * intros _ h' [= <-]. exists fs', fg'. now rewrite Hh.
      * intros _ Hx. discriminate.
    + injection Hparents as <- <-. split; [|split; [|split]].
      * now left.
      * intros ? ? Hx. discriminate.
      * intros _ h Hx. discriminate.
      * intros _ _. now split.
Qed.

(** *** The href *)

Lemma strip_prefix_app (p s : string) :
  strip_prefix p (p ++ s) = Some s.
Proof.
  induction p as [|a p IH]; simpl; [reflexivity|].
  now rewrite Ascii.eqb_refl.
Qed.

Lemma span_digits_app (d r : string) :
  all_digits d = true ->
  match r with
  | EmptyString => True
  | String c _ => is_digit c = false
  end ->
  span_digits (d ++ r) = (d, r).
Proof.
  intros Hd Hr. induction d as [|c d IH]; simpl in *.
  - destruct r as [|c r]; [reflexivity|]. simpl. now rewrite Hr.
  - apply andb_true_iff in Hd. destruct Hd as [Hc Hd].
    rewrite Hc, (IH Hd). reflexivity.
Qed.

Lemma search_href_skips (prefix rest : string) :
  no_slash_f prefix = true ->
  search_href (prefix ++ String "/" rest) = search_href (String "/" rest).
Proof.
  induction prefix as [|a prefix IH]; intros Hprefix; [reflexivity|].
  assert (Hhere : match_href_here (String a prefix ++ String "/" rest) = None).
  { unfold match_href_here. cbn -[Ascii.eqb].
    destruct (Ascii.eqb_spec "/" a) as [<-|Hne]; [|reflexivity].
    destruct prefix as [|b prefix]; cbn -[Ascii.eqb]; [reflexivity|].
    cbn -[Ascii.eqb] in Hprefix. apply andb_true_iff in Hprefix.
    destruct Hprefix as [Hpair _]. rewrite Ascii.eqb_refl in Hpair.
    cbn -[Ascii.eqb] in Hpair.
    destruct (Ascii.eqb_spec "f" b) as [<-|Hb]; [discriminate|reflexivity]. }
  change (search_href (String a prefix ++ String "/" rest))
    with (match match_href_here (String a prefix ++ String "/" rest) with
          | Some g => Some g
          | None => search_href (prefix ++ String "/" rest)
          end).
  rewrite Hhere. apply IH.
  destruct prefix as [|b prefix]; [reflexivity|].
  cbn -[Ascii.eqb] in Hprefix. apply andb_true_iff in Hprefix.
  exact (proj2 Hprefix).
Qed.

Lemma search_href_here (s : string) (g : string * string) :
  match_href_here s = Some g -> search_href s = Some g.
Proof.
  intros Hhere. destruct s; cbn [search_href]; now rewrite Hhere.
Qed.

Lemma strip_prefix_inv (p s r : string) :
  strip_prefix p s = Some r -> s = (p ++ r)%string.
Proof.
  revert s. induction p as [|a p IH]; intros s; simpl.
  - now intros [= ->].
  - destruct s as [|b s]; [discriminate|].
    destruct (Ascii.eqb_spec a b) as [->|Hne]; [|discriminate].
    intros Hs. now rewrite (IH _ Hs).
Qed.

Lemma span_digits_inv (s : string) :
  s = (fst (span_digits s) ++ snd (span_digits s))%string.
Proof.
  induction s as [|c s IH]; simpl; [reflexivity|].
  destruct (is_digit c); [|reflexivity].
  destruct (span_digits s) as [d r]. simpl in *. now rewrite <- IH.
Qed.

Lemma occurs_here (part s : string) : occurs part (part ++ s) = true.
Proof.
  destruct part as [|a part]; [destruct s; reflexivity|].
  cbn [occurs append]. change (String a (part ++ s)) with (String a part ++ s)%string.
  now rewrite strip_prefix_app.
Qed.

Lemma occurs_later (part before s : string) :
  occurs part s = true -> occurs part (before ++ s) = true.
Proof.
  intros Hs. induction before as [|c before IH]; [exact Hs|].
  cbn [occurs append].
  destruct (strip_prefix part (String c (before ++ s))); [reflexivity|exact IH].
Qed.

(** Where the pattern matches, its three literal parts occur. *)
Lemma match_href_here_occurs (s : string) (g : string * string) :
  match_href_here s = Some g ->
  occurs "/featurestores/" s = true /\
  occurs "/featuregroups/" s = true /\
  occurs "/expectationsuit" s = true.
Proof.
  unfold match_href_here.
  destruct (strip_prefix "/featurestores/" s) as [r1|] eqn:H1; [|discriminate].
  apply strip_prefix_inv in H1.
  pose proof (span_digits_inv r1) as H2.
  destruct (span_digits r1) as [d1 r2]. simpl in H2.
  destruct (String.eqb d1 ""); [discriminate|].
  destruct (strip_prefix "/featuregroups/" r2) as [r3|] eqn:H3; [|discriminate].
  apply strip_prefix_inv in H3.
  pose proof (span_digits_inv r3) as H4.
  destruct (span_digits r3) as [d2 r4]. simpl in H4.
  destruct (String.eqb d2 ""); [discriminate|].
  destruct (strip_prefix "/expectationsuit" r4) as [r5|] eqn:H5; [|discriminate].
  apply strip_prefix_inv in H5. intros _.
  subst s r1 r2 r3 r4. split; [apply occurs_here|]. split.
  - apply (occurs_later _ "/featurestores/"), occurs_later, occurs_here.
  - apply (occurs_later _ "/featurestores/"), occurs_later,
      (occurs_later _ "/featuregroups/"), occurs_later, occurs_here.
Qed.

Lemma search_href_occurs (s : string) (g : string * string) :
  search_href s = Some g ->
  occurs "/featurestores/" s = true /\
  occurs "/featuregroups/" s = true /\
  occurs "/expectationsuit" s = true.
Proof.
  induction s as [|c s IH].
  - cbn [search_href].
    destruct (match_href_here "") eqn:Hhere; [|discriminate].
    intros _. exact (match_href_here_occurs _ _ Hhere).
  - cbn [search_href].
    destruct (match_href_here (String c s)) eqn:Hhere.
    + intros _. exact (match_href_here_occurs _ _ Hhere).
    + intros Hs. destruct (IH Hs) as (A & B & C).
      repeat split; apply (occurs_later _ (String c "")); assumption.
Qed.

Lemma all_digits_is_ascii (d : string) : all_digits d = true -> is_ascii d = true.
Proof.
  induction d as [|c d IH]; simpl; [reflexivity|].
  intros Hd. apply andb_true_iff in Hd. destruct Hd as [Hc Hd].
  rewrite (IH Hd), Bool.andb_true_r.
  unfold is_digit in Hc. unfold is_ascii_char.
  apply andb_true_iff in Hc. destruct Hc as [_ Hc].
  apply Nat.leb_le in Hc. apply Nat.ltb_lt. lia.
Qed.

(** X13.  On an href of ASCII characters that ends a prefix without [/f]
    with [/featurestores/<digits>/featuregroups/<digits>/expectationsuit],
    whatever follows, the two identifiers are read as the numbers the
    digits write, each run being within the digit limit of [int].  An
    href of ASCII characters that lacks one of the three literal parts of
    the pattern raises [AttributeError]. *)
Theorem href_gives_the_parent_identifiers :
  (forall prefix fs_digits fg_digits rest : string,
     is_ascii prefix = true -> is_ascii rest = true ->
     no_slash_f prefix = true ->
     all_digits fs_digits = true -> fs_digits <> ""%string ->
     within_int_limit fs_digits = true ->
     all_digits fg_digits = true -> fg_digits <> ""%string ->
     within_int_limit fg_digits = true ->
     _init_feature_store_and_feature_group_ids_from_href
       (prefix ++ "/featurestores/" ++ fs_digits ++ "/featuregroups/"
          ++ fg_digits ++ "/expectationsuit" ++ rest)%string
     = Ok (int_of_digits fs_digits, int_of_digits fg_digits)) /\
  (forall href : string,
     is_ascii href = true ->
     occurs "/featurestores/" href = false \/
     occurs "/featuregroups/" href = false \/
     occurs "/expectationsuit" href = false ->
     exists msg,
       _init_feature_store_and_feature_group_ids_from_href href
       = Raise (AttributeError msg)).
Proof.
  split.
  - intros prefix fs_digits fg_digits rest Hascii_prefix Hascii_rest
      Hprefix Hfs Hfs_ne Hfs_limit Hfg Hfg_ne Hfg_limit.
    unfold _init_feature_store_and_feature_group_ids_from_href.
    rewrite !is_ascii_app, Hascii_prefix, Hascii_rest,
      (all_digits_is_ascii _ Hfs), (all_digits_is_ascii _ Hfg).
    cbn [is_ascii andb negb].
    change (is_ascii_char "/" && (is_ascii_char "f" && _)) with true.
    change ("/featurestores/" ++ fs_digits ++ "/featuregroups/" ++ fg_digits
              ++ "/expectationsuit" ++ rest)%string
      with (String "/" ("featurestores/" ++ fs_digits ++ "/featuregroups/"
                          ++ fg_digits ++ "/expectationsuit" ++ rest))%string.
    rewrite (search_href_skips _ _ Hprefix).
    assert (Hhere :
      match_href_here
        ("/featurestores/" ++ fs_digits ++ "/featuregroups/" ++ fg_digits
           ++ "/expectationsuit" ++ rest)%string
      = Some (fs_digits, fg_digits)).
    { unfold match_href_here.
      rewrite strip_prefix_app.
      rewrite (span_digits_app fs_digits _ Hfs) by reflexivity.
      destruct fs_digits as [|c1 d1]; [contradiction|].
      cbn [String.eqb].
      rewrite strip_prefix_app.
      rewrite (span_digits_app fg_digits _ Hfg) by reflexivity.
      destruct fg_digits as [|c2 d2]; [contradiction|].
      cbn [String.eqb].
      rewrite strip_prefix_app. reflexivity. }
    assert (Hfound :
      search_href
        (String "/" ("featurestores/" ++ fs_digits ++ "/featuregroups/"
                       ++ fg_digits ++ "/expectationsuit" ++ rest))
      = Some (fs_digits, fg_digits))
      by (apply search_href_here; exact Hhere).
    rewrite Hfound, Hfs_limit, Hfg_limit. reflexivity.
  - intros href Hascii Hlacks.
    unfold _init_feature_store_and_feature_group_ids_from_href.
    rewrite Hascii. cbn [negb].
    destruct (search_href href) as [g|] eqn:Hsearch;
      [|eexists; reflexivity].
    destruct (search_href_occurs _ _ Hsearch) as (A & B & C).
    destruct Hlacks as [Hx|[Hx|Hx]]; congruence.
Qed.


(** *** Setters that push, setters that do not *)

Lemma update_metadata_run (st : State) :
  update_metadata st
  = match _expectation_suite_engine (self st) with
    | Some (Some eng) =>
        match to_dict (self st) with
        | Ok fields =>
            let update :=
              Call_update_metadata_from_fields eng
                (decamelize_dict decamelize_key fields) in
            (match backend (calls st) update with
             | Ok _ => Ok tt
             | Raise e => Raise e
             end,
             mkState (self st) (calls st ++ [update]))
        | Raise e => (Raise e, st)
        end
    | _ => (Raise (AttributeError "update_metadata_from_fields"), st)
    end.
Proof.
  unfold update_metadata, bind, gets, lift, raise, call, ret.
  destruct st as [s cs]. simpl.
  destruct (_expectation_suite_engine s) as [[eng|]|]; try reflexivity.
  destruct (to_dict s) as [fields|e]; [|reflexivity].
  simpl. destruct (backend cs _); reflexivity.
Qed.

(** A setter of a metadata field assigns, then pushes if the suite has an
    id. *)
Lemma setter_run (field : MetadataField) (st : State) :
  _expectation_suite_engine (self st) <> None ->
  setter_of field st
  = let st1 := mkState (stored_by field (self st)) (calls st) in
    if truthy_id (_id (self st)) then
      match update_metadata st1 with
      | (Ok _, st2) => (Ok tt, st2)
      | (Raise e, st2) => (Raise e, st2)
      end
    else (Ok tt, st1).
Proof.
  intros Hattr.
  destruct field; unfold setter_of, stored_by, set_expectation_suite_name,
    set_run_validation, set_validation_ingestion_policy, set_meta,
    bind, assign, modify, gets, ret; simpl.
  1-3: destruct (truthy_id (_id (self st))); [|reflexivity];
       destruct (update_metadata _) as [[[]|e] st2]; reflexivity.
  destruct (_expectation_suite_engine (self st)); [|contradiction].
  destruct (truthy_id (_id (self st))); [|reflexivity].
  destruct (update_metadata _) as [[[]|e] st2]; reflexivity.
Qed.

(** X14.  The setters of [expectation_suite_name], [run_validation],
    [validation_ingestion_policy] and [meta] store the value.  On a suite
    with an id and a suite engine they then make exactly one engine call
    if [json.dumps] accepts the meta of the suite as it now stands: the
    metadata update, whose fields are the decamelized [to_dict] of that
    suite, and what the call answers decides whether the setter returns or
    raises.  If [json.dumps] rejects the meta they make no call and raise
    [TypeError].  On a suite without an id they make no call. *)
Theorem metadata_setters_push_the_updated_suite_once
    (field : MetadataField) (st : State) :
  let stored := stored_by field (self st) in
  (forall eng fields,
     has_id (self st) ->
     _expectation_suite_engine (self st) = Some (Some eng) ->
     to_dict stored = Ok fields ->
     let update :=
       Call_update_metadata_from_fields eng
         (decamelize_dict decamelize_key fields) in
     setter_of field st
     = (match backend (calls st) update with
        | Ok _ => Ok tt
        | Raise e => Raise e
        end,
        mkState stored (calls st ++ [update]))) /\
  (unattached (self st) ->
   setter_of field st = (Ok tt, mkState stored (calls st))) /\
  (forall eng text,
     has_id (self st) ->
     _expectation_suite_engine (self st) = Some (Some eng) ->
     json_dumps (_meta stored) = Some text ->
     exists fields,
       to_dict stored = Ok fields /\
       dict_get "meta" fields = Some (PyStr text) /\
       calls (snd (setter_of field st))
       = calls st ++ [Call_update_metadata_from_fields eng
                        (decamelize_dict decamelize_key fields)]) /\
  (forall eng,
     has_id (self st) ->
     _expectation_suite_engine (self st) = Some (Some eng) ->
     json_dumps (_meta stored) = None ->
     exists msg,
       setter_of field st = (Raise (TypeError msg), mkState stored (calls st))).
Proof.
  cbv zeta.
  assert (Hattr : forall x, _expectation_suite_engine (self st) = Some x ->
            _expectation_suite_engine (stored_by field (self st)) = Some x)
    by (intros x Hx; destruct field; exact Hx).
  split; [|split; [|split]].
  3:{ intros eng text Hid Heng Hdumps.
      rewrite setter_run by (rewrite Heng; discriminate).
      cbv zeta. unfold has_id in Hid. rewrite Hid.
      rewrite update_metadata_run. simpl. rewrite (Hattr _ Heng).
      unfold to_dict. rewrite Hdumps. simpl.
      eexists. split; [reflexivity|]. split; [reflexivity|].
      destruct (backend _ _); reflexivity. }
  3:{ intros eng Hid Heng Hdumps.
      rewrite setter_run by (rewrite Heng; discriminate).
      cbv zeta. unfold has_id in Hid. rewrite Hid.
      rewrite update_metadata_run. simpl. rewrite (Hattr _ Heng).
      unfold to_dict. rewrite Hdumps. simpl. eexists. reflexivity. }
  - intros eng fields Hid Heng Hfields.
    rewrite setter_run by (rewrite Heng; discriminate).
    cbv zeta. unfold has_id in Hid. rewrite Hid.
    rewrite update_metadata_run. simpl.
    assert (Heng' : _expectation_suite_engine (stored_by field (self st))
                    = Some (Some eng)) by (destruct field; exact Heng).
    rewrite Heng', Hfields.
    destruct (backend _ _); reflexivity.
  - unfold unattached. intros Hid.
    destruct field; unfold setter_of, stored_by, set_expectation_suite_name,
      set_run_validation, set_validation_ingestion_policy, set_meta,
      bind, assign, modify, gets, ret; simpl; rewrite Hid; simpl;
      try reflexivity.
    destruct (_expectation_suite_engine (self st)); reflexivity.
Qed.

(** X15.  A setter of a metadata field that raises has still changed the
    suite: when [json.dumps] rejects the meta, or when the suite has an id
    but no suite engine, the value is stored, nothing is sent and the
    setter raises; when the backend refuses the update, the value is
    stored as well.  The suite and the backend then disagree. *)
Theorem failed_push_keeps_the_local_value
    (field : MetadataField) (st : State) :
  has_id (self st) ->
  let stored := stored_by field (self st) in
  (forall eng,
     _expectation_suite_engine (self st) = Some (Some eng) ->
     json_dumps (_meta stored) = None ->
     exists msg,
       setter_of field st
       = (Raise (TypeError msg), mkState stored (calls st))) /\
  (_expectation_suite_engine (self st) = Some None ->
   exists msg,
     setter_of field st
     = (Raise (AttributeError msg), mkState stored (calls st))) /\
  (forall e,
     fst (setter_of field st) = Raise e ->
     _expectation_suite_engine (self st) <> None ->
     self (snd (setter_of field st)) = stored).
Proof.
  intros Hid. unfold has_id in Hid. cbv zeta.
  assert (Hattr : forall x, _expectation_suite_engine (self st) = Some x ->
            _expectation_suite_engine (stored_by field (self st)) = Some x)
    by (intros x Hx; destruct field; exact Hx).
  split; [|split].
  - intros eng Heng Hdumps.
    rewrite setter_run by (rewrite Heng; discriminate).
    cbv zeta. rewrite Hid, update_metadata_run. simpl.
    rewrite (Hattr _ Heng). unfold to_dict. rewrite Hdumps. simpl.
    eexists. reflexivity.
  - intros Heng.
    rewrite setter_run by (rewrite Heng; discriminate).
    cbv zeta. rewrite Hid, update_metadata_run. simpl.
    rewrite (Hattr _ Heng). eexists. reflexivity.
  - intros e _ Hsome. rewrite setter_run by exact Hsome.
    cbv zeta. rewrite Hid, update_metadata_run. simpl.
    destruct (_expectation_suite_engine (stored_by field (self st)))
      as [[eng|]|]; try reflexivity.
    destruct (to_dict _) as [fields|e0]; [|reflexivity].
    destruct (backend _ _); reflexivity.
Qed.

(** X16.  A suite without an id never talks to the backend: whatever
    public mutation is run on it, no engine call is made. *)
Theorem unattached_suite_makes_no_engine_call (op : Mutation) (st : State) :
  unattached (self st) ->
  calls (snd (run op st)) = calls st.
Proof.
  unfold unattached. intros Hid.
  destruct op; simpl;
    unfold set_id, set_expectation_suite_name, set_data_asset_type,
      set_ge_coud_id, set_run_validation, set_validation_ingestion_policy,
      discard, get_expectation, add_expectation, replace_expectation,
      remove_expectation, _init_expectation_engine,
      _init_expectation_suite_engine, bind, assign, modify, gets, ret, raise;
    simpl; rewrite ?Hid; simpl; try reflexivity.
  - apply silent_set_expectations.
  - unfold set_meta, bind, assign, modify, gets, lift, raise.
    destruct meta0; simpl; try reflexivity.
    + destruct (decoded (json_loads s)); simpl; [|reflexivity].
      rewrite Hid. simpl.
      destruct (_expectation_suite_engine (self st)); reflexivity.
    + rewrite Hid. simpl.
      destruct (_expectation_suite_engine (self st)); reflexivity.
  - destruct (truthy_id feature_group_id0 && truthy_id feature_store_id0).
    + destruct feature_store_id0, feature_group_id0; reflexivity.
    + destruct (truthy_id (_feature_group_id (self st))
                && truthy_id (_feature_store_id (self st)));
        [|reflexivity].
      destruct (_feature_store_id (self st)), (_feature_group_id (self st));
        reflexivity.
Qed.

(** X17.  Assigning [expectations], [id], [data_asset_type] or the cloud
    id makes no engine call in any state, attached or not, and neither
    does wiring the engines: after such an assignment the backend has not
    been told. *)
Theorem local_only_mutations_make_no_engine_call (op : Mutation) :
  match op with
  | Assign_id _ | Assign_data_asset_type _ | Assign_ge_coud_id _
  | Assign_expectations _ | Do_init_expectation_engine _ _
  | Do_init_expectation_suite_engine _ _ => True
  | _ => False
  end ->
  silent (run op).
Proof.
  destruct op; simpl; intros Hop; try contradiction;
    unfold set_id, set_data_asset_type, set_ge_coud_id,
      _init_expectation_engine, _init_expectation_suite_engine;
    try apply silent_set_expectations; hush.
Qed.


(** *** The single-expectation API on a suite that has an id *)

Ltac run_suite :=
  unfold get_expectation, add_expectation, replace_expectation,
    remove_expectation, the_expectation_engine, set_expectations,
    bind, gets, lift, call, ret, raise, assign, modify;
  simpl.

(** X18.  On a suite with an id and an expectation engine,
    [add_expectation] converts its argument, asks the engine to create it
    and then fetches the whole list again.  If the creation fails nothing
    else is sent; if the fetch fails the expectation has been created but
    the local list is the old one; otherwise the local list is replaced by
    the fetched one, rebuilt, and the created expectation is returned. *)
Theorem add_expectation_creates_then_refetches
    (expectation : LVal) (ge_type : bool) (st : State)
    (eng : ExpectationEngine) (e : GeExpectation) :
  has_id (self st) ->
  _expectation_engine (self st) = Some eng ->
  _convert_expectation expectation = Ok e ->
  let create := Call_create eng e in
  let fetch := Call_get_expectations_by_suite_id eng in
  (forall err,
     backend (calls st) create = Raise err ->
     add_expectation expectation ge_type st
     = (Raise err, mkState (self st) (calls st ++ [create]))) /\
  (forall created err,
     backend (calls st) create = Ok created ->
     backend (calls st ++ [create]) fetch = Raise err ->
     add_expectation expectation ge_type st
     = (Raise err, mkState (self st) (calls st ++ [create; fetch]))) /\
  (forall created items l,
     backend (calls st) create = Ok created ->
     backend (calls st ++ [create]) fetch = Ok (PyList items) ->
     traverse _convert_expectation items = Ok l ->
     add_expectation expectation ge_type st
     = (if ge_type then to_ge_type created else Ok created,
        mkState (with_expectations l (self st))
                (calls st ++ [create; fetch]))).
Proof.
  unfold has_id. intros Hid Heng Hconv. cbv zeta.
  split; [|split].
  - intros err Hcreate. run_suite.
    rewrite Hid, Hconv. simpl. rewrite Heng. simpl. rewrite Hcreate.
    reflexivity.
  - intros created err Hcreate Hfetch. run_suite.
    rewrite Hid, Hconv. simpl. rewrite Heng. simpl. rewrite Hcreate.
    simpl. rewrite Heng. simpl. rewrite Hfetch.
    rewrite <- app_assoc. reflexivity.
  - intros created items l Hcreate Hfetch Hitems. run_suite.
    rewrite Hid, Hconv. simpl. rewrite Heng. simpl. rewrite Hcreate.
    simpl. rewrite Heng. simpl. rewrite Hfetch. simpl.
    rewrite Hitems. simpl. rewrite <- app_assoc.
    destruct ge_type; [destruct (to_ge_type created)|]; reflexivity.
Qed.

(** X19.  On a suite with an id and an expectation engine,
    [remove_expectation] asks the engine to delete, then fetches the list
    again and stores it: the local list afterwards is what the backend
    answered, whatever it was before.  A delete that fails sends nothing
    more and leaves the local list alone. *)
Theorem remove_expectation_deletes_then_refetches
    (expectation_id : option Z) (st : State) (eng : ExpectationEngine) :
  has_id (self st) ->
  _expectation_engine (self st) = Some eng ->
  let delete := Call_delete eng expectation_id in
  let fetch := Call_get_expectations_by_suite_id eng in
  (forall err,
     backend (calls st) delete = Raise err ->
     remove_expectation expectation_id st
     = (Raise err, mkState (self st) (calls st ++ [delete]))) /\
  (forall answer items l,
     backend (calls st) delete = Ok answer ->
     backend (calls st ++ [delete]) fetch = Ok (PyList items) ->
     traverse _convert_expectation items = Ok l ->
     remove_expectation expectation_id st
     = (Ok tt,
        mkState (with_expectations l (self st))
                (calls st ++ [delete; fetch]))).
Proof.
  unfold has_id. intros Hid Heng. cbv zeta. split.
  - intros err Hdelete. run_suite.
    rewrite Hid. simpl. rewrite Heng. simpl. rewrite Hdelete. reflexivity.
  - intros answer items l Hdelete Hfetch Hitems. run_suite.
    rewrite Hid. simpl. rewrite Heng. simpl. rewrite Hdelete.
    simpl. rewrite Heng. simpl. rewrite Hfetch. simpl.
    rewrite Hitems. simpl. rewrite <- app_assoc. reflexivity.
Qed.

(** X20.  [replace_expectation] checks the converted expectation for an
    id before anything is sent: if [check_for_id] raises, no engine call
    is made and the suite is as it was.  Otherwise the engine updates the
    expectation and the list is fetched again and stored. *)
Theorem replace_expectation_checks_the_id_before_any_call
    (expectation : LVal) (ge_type : bool) (st : State)
    (eng : ExpectationEngine) (e : GeExpectation) :
  has_id (self st) ->
  _expectation_engine (self st) = Some eng ->
  _convert_expectation expectation = Ok e ->
  (forall err,
     check_for_id eng e = Raise err ->
     replace_expectation expectation ge_type st = (Raise err, st)) /\
  (forall e' updated items l,
     check_for_id eng e = Ok e' ->
     let update := Call_update eng e' in
     let fetch := Call_get_expectations_by_suite_id eng in
     backend (calls st) update = Ok updated ->
     backend (calls st ++ [update]) fetch = Ok (PyList items) ->
     traverse _convert_expectation items = Ok l ->
     replace_expectation expectation ge_type st
     = (if ge_type then to_ge_type updated else Ok updated,
        mkState (with_expectations l (self st))
                (calls st ++ [update; fetch]))).
Proof.
  unfold has_id. intros Hid Heng Hconv. split.
  - intros err Hcheck. run_suite.
    rewrite Hid, Hconv. simpl. rewrite Heng. simpl. rewrite Hcheck.
    reflexivity.
  - cbv zeta. intros e' updated items l Hcheck Hupdate Hfetch Hitems.
    run_suite.
    rewrite Hid, Hconv. simpl. rewrite Heng. simpl. rewrite Hcheck.
    simpl. rewrite Heng. simpl. rewrite Hupdate.
    simpl. rewrite Heng. simpl. rewrite Hfetch. simpl.
    rewrite Hitems. simpl. rewrite <- app_assoc.
    destruct ge_type; [destruct (to_ge_type updated)|]; reflexivity.
Qed.

Ltac split_cases :=
  repeat match goal with
         | |- context [match ?x with _ => _ end] =>
             lazymatch x with
             | context [match _ with _ => _ end] => fail
             | _ => destruct x; simpl
             end
         end.

(** X21.  [get_expectation], [remove_expectation], and [add_expectation]
    and [replace_expectation] called with [ge_type=False], change the
    local suite only when they return: whenever one of them raises, at
    whatever step, every attribute of the suite is as it was before the
    call. *)
Theorem failed_expectation_call_leaves_the_suite_alone
    (op : Mutation) (st : State) (e : PyExc) :
  match op with
  | Do_get_expectation _ _ | Do_remove_expectation _
  | Do_add_expectation _ false | Do_replace_expectation _ false => True
  | _ => False
  end ->
  fst (run op st) = Raise e ->
  self (snd (run op st)) = self st.
Proof.
  destruct st as [s cs].
  destruct op as [| | | | | | | |i g|x g|x g|i| |]; simpl;
    try contradiction; try destruct g; try contradiction; intros _;
    unfold discard; run_suite; split_cases;
    intros Hraise; try discriminate Hraise; reflexivity.
Qed.

(** *** Attaching a suite *)

(** X22.  Assigning an id to a suite that was built without one does not
    attach it: the suite has an id but no engine.  [get_expectation] then
    still asks to attach the suite first, while [remove_expectation],
    [add_expectation] and [replace_expectation] of an expectation that
    converts, and the four setters that push metadata, raise
    [AttributeError]; none of them sends anything. *)
Theorem assigning_an_id_does_not_attach
    (a : InitArgs) (calls0 calls1 : list LCall) (s : Suite) (suite_id : Z) :
  __init__ a calls0 = (Ok s, calls1) ->
  truthy_id (_id s) = false ->
  suite_id <> 0%Z ->
  let st := snd (set_id suite_id (mkState s calls1)) in
  has_id (self st) /\ ~ attached (self st) /\
  (forall i g, get_expectation i g st = (Raise attach_first, st)) /\
  (forall i,
     remove_expectation i st = (Raise (AttributeError "delete"), st)) /\
  (forall x g e,
     _convert_expectation x = Ok e ->
     add_expectation x g st = (Raise (AttributeError "create"), st) /\
     replace_expectation x g st
     = (Raise (AttributeError "check_for_id"), st)) /\
  (forall field,
     fst (setter_of field st)
     = Raise (AttributeError "update_metadata_from_fields") /\
     calls (snd (setter_of field st)) = calls1).
Proof.
  intros Hinit Hfalsy Hnonzero.
  destruct (init_detached _ _ _ _ Hinit Hfalsy) as [Heng Hsuite_eng].
  cbv zeta. unfold set_id, assign, modify. simpl.
  assert (Hid : negb (suite_id =? 0)%Z = true).
  { apply Bool.negb_true_iff. now apply Z.eqb_neq. }
  split; [exact Hid|]. split.
  { intros (_ & [eng Hx] & _). simpl in Hx. rewrite Heng in Hx.
    discriminate. }
  split; [|split; [|split]].
  - intros i g. run_suite. rewrite Hid, Heng. reflexivity.
  - intros i. run_suite. rewrite Hid. simpl. rewrite Heng. reflexivity.
  - intros x g e Hconv. split; run_suite; rewrite Hid, Hconv; simpl;
      rewrite Heng; reflexivity.
  - intros field.
    rewrite setter_run by (simpl; rewrite Hsuite_eng; discriminate).
    cbv zeta. simpl. rewrite Hid. rewrite update_metadata_run. simpl.
    assert (Hx : _expectation_suite_engine
                   (stored_by field (with_id (Some suite_id) s))
                 = Some None) by (destruct field; exact Hsuite_eng).
    rewrite Hx. split; reflexivity.
Qed.

(** X23.  Assigning a non-zero id and then wiring the two engines, as a
    feature group does when it attaches a suite, leaves the suite
    attached, with engines built from the identifiers passed, and sends
    nothing.  The same wiring on a suite whose id is missing or zero
    raises [ValueError] at the first engine. *)
Theorem wiring_after_an_id_attaches
    (st : State) (suite_id fs fg : Z) :
  fs <> 0%Z -> fg <> 0%Z ->
  let wiring :=
    (_init_expectation_engine fs fg ;;;
     _init_expectation_suite_engine (Some fs) (Some fg))%py in
  (suite_id <> 0%Z ->
   exists s',
     (set_id suite_id ;;; wiring)%py st = (Ok tt, mkState s' (calls st)) /\
     attached s' /\
     _id s' = Some suite_id /\
     _expectation_engine s' = Some (mkExpectationEngine fs fg suite_id) /\
     _expectation_suite_engine s'
     = Some (Some (mkExpectationSuiteEngine fs fg))) /\
  (truthy_id (_id (self st)) = false ->
   wiring st
   = (Raise (ValueError
               initialise_expectation_suite_for_single_expectation_api_message),
      st)).
Proof.
  intros Hfs Hfg. cbv zeta.
  assert (Hb : forall z : Z, z <> 0%Z -> negb (z =? 0)%Z = true).
  { intros z Hz. apply Bool.negb_true_iff. now apply Z.eqb_neq. }
  split.
  - intros Hid. eexists.
    unfold set_id, _init_expectation_engine, _init_expectation_suite_engine,
      bind, assign, modify, gets, ret, raise. simpl.
    rewrite (Hb _ Hid), (Hb _ Hfs), (Hb _ Hfg). simpl.
    split; [reflexivity|]. split.
    + split; [exact (Hb _ Hid)|]. split; eexists; reflexivity.
    + repeat split.
  - intros Hfalsy.
    unfold _init_expectation_engine, bind, assign, modify, gets, ret, raise.
    destruct st as [s cs]. simpl in *.
    destruct (_id s) as [i|]; [|reflexivity].
    rewrite Hfalsy. reflexivity.
Qed.

(** *** What no public mutation changes *)

Lemma same_origin_refl (s : Suite) : same_origin s s.
Proof. repeat split. Qed.

Lemma same_origin_trans (s1 s2 s3 : Suite) :
  same_origin s1 s2 -> same_origin s2 s3 -> same_origin s1 s3.
Proof.
  unfold same_origin. intros (A1 & A2 & A3) (B1 & B2 & B3).
  repeat split; congruence.
Qed.

Ltac origin :=
  repeat first
    [ exact same_origin_refl
    | exact same_origin_trans
    | apply respects_ret
    | apply respects_raise
    | apply respects_lift
    | apply respects_gets
    | apply respects_call
    | apply respects_the_expectation_engine
    | apply respects_update_metadata
    | apply respects_set_expectations
    | apply respects_set_meta
    | apply respects_assign
    | apply respects_bind
    | match goal with
      | |- respects _ (if ?b then _ else _) => destruct b
      | |- respects _ (match ?x with _ => _ end) => destruct x
      | |- same_origin _ _ => repeat split
      | |- forall _, _ => intro
      end ].

Lemma run_respects_origin (op : Mutation) : respects same_origin (run op).
Proof.
  destruct op; simpl;
    unfold set_id, set_expectation_suite_name, set_data_asset_type,
      set_ge_coud_id, set_run_validation, set_validation_ingestion_policy,
      discard, get_expectation, add_expectation, replace_expectation,
      remove_expectation, _init_expectation_engine,
      _init_expectation_suite_engine;
    origin.
Qed.

(** X24.  Through any sequence of public calls on a suite, whether they
    return or raise, the feature store id, the feature group id and the
    href stay what they were; a policy stored in upper case stays in upper
    case; and the id changes only if the sequence assigns it. *)
Theorem history_keeps_origin_and_policy_case
    (ops : list Mutation) (st : State) :
  same_origin (self st) (self (run_all ops st)) /\
  (policy_in_upper_case (self st) ->
   policy_in_upper_case (self (run_all ops st))) /\
  (forallb (fun op => negb (is_id_setter op)) ops = true ->
   _id (self (run_all ops st)) = _id (self st)).
Proof.
  unfold run_all. revert st.
  induction ops as [|op ops IH]; intros st; simpl.
  - split; [apply same_origin_refl|]. split; auto.
  - destruct (IH (snd (run op st))) as (Horigin & Hpolicy & Hid).
    split; [|split].
    + eapply same_origin_trans; [apply run_respects_origin|exact Horigin].
    + intros Hupper. apply Hpolicy.
      now apply run_keeps_policy_in_upper_case.
    + intros Hops. apply andb_prop in Hops. destruct Hops as [Hop Hops].
      rewrite (Hid Hops).
      apply Bool.negb_true_iff in Hop.
      exact (proj1 (run_respects_identifiers op Hop st)).
Qed.


(** *** [from_response_json] and [from_ge_type] *)

(** X25.  The camel-case dictionary that [to_json_dict()] returns is
    accepted by [from_response_json], which decamelizes it first: for a
    suite whose parents are both set or both unset, and set if it has an
    id, whose policy is in upper case and whose meta is a dictionary, it
    returns one suite, without any engine call, with the same id, parents,
    name, validation flag and policy, the decamelized meta and the rebuilt
    expectations, no href, and both engines if the suite has an id. *)
Theorem response_of_to_json_dict_rebuilds_the_suite
    (s : Suite) (calls0 : list LCall) (es' : list GeExpectation) :
  decamelizes_json_dict_keys ->
  parents_known s ->
  parents_paired s ->
  policy_in_upper_case s ->
  (exists m, _meta s = PyDict m) ->
  traverse rebuilt_expectation (_expectations s) = Ok es' ->
  exists s',
    from_response_json (to_json_dict s false) calls0
    = (Returns (OneSuite s'), calls0) /\
    _id s' = _id s /\
    _feature_store_id s' = _feature_store_id s /\
    _feature_group_id s' = _feature_group_id s /\
    _expectation_suite_name s' = _expectation_suite_name s /\
    _run_validation s' = _run_validation s /\
    _validation_ingestion_policy s' = _validation_ingestion_policy s /\
    _expectations s' = es' /\
    _meta s' = process_keys decamelize_key (_meta s) /\
    _href s' = None /\
    (has_id s -> attached s' /\ engines_match s').
Proof.
  intros Hkeys Hknown Hpaired Hupper [m Hmeta] Hes'.
  unfold from_response_json. cbv zeta.
  change (decamelize_dict decamelize_key (to_json_dict s false))
    with (to_json_dict s true).
  rewrite (to_json_dict_decamelized s Hkeys).
  cbn [dict_get String.eqb Ascii.eqb Bool.eqb].
  unfold new, bind_arguments.
  cbn [missing_parameters required_parameters filter dict_get String.eqb
       Ascii.eqb Bool.eqb].
  unfold arg_str, arg_bool, arg_optional_str, arg_any.
  rewrite (arg_optional_int_of_option_int "id" (_id s)) by reflexivity.
  rewrite (arg_optional_int_of_option_int "feature_store_id"
             (_feature_store_id s)) by reflexivity.
  rewrite (arg_optional_int_of_option_int "feature_group_id"
             (_feature_group_id s)) by reflexivity.
  cbn [dict_get String.eqb Ascii.eqb Bool.eqb rbind].
  rewrite Hmeta. cbn [process_keys].
  match goal with
  | |- context [__init__ ?a calls0] =>
      destruct (init_of_list_and_dict a calls0 _ es' _ eq_refl Hknown
                  eq_refl (traverse_rebuilt _ _ Hes') eq_refl)
        as (s' & Hinit & _ & Hexp & Hm & _);
      destruct (init_fields _ _ _ _ Hinit) as (Hname & Hrun & Hpol & _);
      destruct (init_keeps_parents _ _ _ _ Hinit) as [Hparents Hhref];
      pose proof (init_id _ _ _ _ Hinit) as Hid;
      pose proof (init_attached _ _ _ _ Hinit) as Hon
  end.
  rewrite Hinit. exists s'.
  cbn in Hname, Hrun, Hpol, Hhref, Hid.
  unfold init_parents in Hparents. cbn in Hparents.
  assert (Hfsfg : _feature_store_id s' = _feature_store_id s /\
                  _feature_group_id s' = _feature_group_id s).
  { destruct Hpaired as [[Hfs Hfg]|(fs & fg & Hfs & Hfg)];
      rewrite Hfs in Hparents; rewrite ?Hfg in Hparents; rewrite Hfs, Hfg;
      injection Hparents as <- <-; split; reflexivity. }
  destruct Hfsfg as [Hfs Hfg].
  split; [reflexivity|].
  repeat (split; [assumption|]).
  split; [rewrite Hpol, Hupper; exact Hupper|].
  split; [exact Hexp|]. split; [exact Hm|]. split; [exact Hhref|].
  intros Hhas. apply Hon. unfold has_id in *. now rewrite Hid.
Qed.

Lemma construct_all_builds (items : list LVal) (calls0 calls1 : list LCall)
    (suites : list Suite) :
  construct_all items calls0 = (Ok suites, calls1) ->
  Forall2 (fun item suite =>
             exists d, item = PyDict d /\ new d calls0 = (Ok suite, calls0))
          items suites.
Proof.
  revert suites calls1.
  induction items as [|item items IH]; intros suites calls1; simpl.
  - intros [= <- _]. constructor.
  - destruct item as [|b|z|f|t|l|d|o]; try discriminate.
    destruct (new d calls0) as [[s|e] c1] eqn:Hnew; [|discriminate].
    pose proof (new_makes_no_call d calls0) as Hsame.
    rewrite Hnew in Hsame. simpl in Hsame. subst c1.
    destruct (construct_all items calls0) as [[rest|e] c2] eqn:Hrest;
      [|discriminate].
    intros [= <- _]. constructor; [|exact (IH _ _ eq_refl)].
    exists d. now split.
Qed.

(** X26.  On an answer with a [count], [from_response_json] returns
    [None] when the count is zero, whether or not there are items, and
    raises [KeyError] when the count is not zero and there are no items.
    A list that it returns holds one suite per element that iterating
    over the items yields, in that order, each being what the constructor
    returns on the entries of that element. *)
Theorem list_response_gives_one_suite_per_item
    (json_dict : list (string * LVal)) (calls0 : list LCall) :
  let json_decamelized := decamelize_dict decamelize_key json_dict in
  (forall count,
     dict_get "count" json_decamelized = Some count ->
     equals_zero count = Ok true ->
     from_response_json json_dict calls0 = (Returns NoSuite, calls0)) /\
  (forall count,
     dict_get "count" json_decamelized = Some count ->
     equals_zero count = Ok false ->
     dict_get "items" json_decamelized = None ->
     from_response_json json_dict calls0
     = (Throws (KeyError "items"), calls0)) /\
  (forall suites calls1,
     from_response_json json_dict calls0 = (Returns (ManySuites suites), calls1) ->
     calls1 = calls0 /\
     exists items elements,
       dict_get "items" json_decamelized = Some items /\
       iterate items = Ok elements /\
       List.length suites = List.length elements /\
       Forall2 (fun item suite =>
                  exists d,
                    item = PyDict d /\ new d calls0 = (Ok suite, calls0))
               elements suites).
Proof.
  cbv zeta. unfold from_response_json. cbv zeta.
  split; [|split].
  - intros count -> ->. reflexivity.
  - intros count -> -> ->. reflexivity.
  - intros suites calls1.
    destruct (dict_get "count" _) as [count|].
    + destruct (equals_zero count) as [[|]|e]; try discriminate.
      destruct (dict_get "items" _) as [items|]; [|discriminate].
      destruct (iterate items) as [l|e] eqn:Hiter; [|discriminate].
      destruct (construct_all l calls0) as [[built|e] c1] eqn:Hall;
        [|discriminate].
      intros [= <- <-].
      pose proof (construct_all_makes_no_call l calls0) as Hsame.
      rewrite Hall in Hsame. simpl in Hsame.
      split; [exact Hsame|].
      pose proof (construct_all_builds _ _ _ _ Hall) as Hbuilt.
      exists items, l. split; [reflexivity|]. split; [exact Hiter|].
      split; [|exact Hbuilt].
      symmetry. exact (Forall2_length Hbuilt).
    + destruct (new _ calls0) as [[s|e] c1]; discriminate.
Qed.


Lemma dict_get_app {V} (k : string) (d t : list (string * V)) :
  dict_get k (d ++ t)
  = match dict_get k d with
    | Some v => Some v
    | None => dict_get k t
    end.
Proof.
  induction d as [|[k' v'] d IH]; simpl; [reflexivity|].
  destruct (String.eqb k k'); [reflexivity|exact IH].
Qed.

Lemma dict_get_del_other {V} (k k' : string) (d : list (string * V)) :
  String.eqb k' k = false ->
  dict_get k' (dict_del k d) = dict_get k' d.
Proof.
  intros Hne. induction d as [|[k0 v0] d IH]; simpl; [reflexivity|].
  destruct (String.eqb k k0) eqn:Hk.
  - apply String.eqb_eq in Hk. subst k0. now rewrite Hne.
  - simpl. destruct (String.eqb k' k0); [reflexivity|exact IH].
Qed.

(** The constructor called with a dictionary and the five keywords that
    [from_ge_type] writes out. *)
Lemma new_with_keywords (d : list (string * LVal)) (id_value : LVal)
    (rv : bool) (pol : string) (fs fg : option Z)
    (calls0 calls1 : list LCall) (s : Suite) :
  existsb (fun k => contains k d) explicit_keywords = false ->
  new (d ++ [ ("id", id_value);
              ("run_validation", PyBool rv);
              ("validation_ingestion_policy", PyStr pol);
              ("feature_group_id", of_option_int fg);
              ("feature_store_id", of_option_int fs) ]) calls0
  = (Ok s, calls1) ->
  calls1 = calls0 /\
  of_option_int (_id s) = id_value /\
  _run_validation s = rv /\
  _validation_ingestion_policy s = upper pol /\
  (forall a b, fs = Some a -> fg = Some b ->
     _feature_store_id s = Some a /\ _feature_group_id s = Some b).
Proof.
  intros Hfree Hnew.
  pose proof (new_makes_no_call
                (d ++ [ ("id", id_value);
                        ("run_validation", PyBool rv);
                        ("validation_ingestion_policy", PyStr pol);
                        ("feature_group_id", of_option_int fg);
                        ("feature_store_id", of_option_int fs) ]) calls0)
    as Hsame.
  rewrite Hnew in Hsame. simpl in Hsame. split; [exact Hsame|].
  unfold explicit_keywords, contains in Hfree. simpl in Hfree.
  repeat (apply Bool.orb_false_iff in Hfree;
          let Hk := fresh "Hk" in destruct Hfree as [Hk Hfree]).
  assert (Hget : forall k (t : list (string * LVal)),
            match dict_get k d with Some _ => true | None => false end = false ->
            dict_get k (d ++ t) = dict_get k t).
  { intros k t Hk'. rewrite dict_get_app.
    destruct (dict_get k d); [discriminate|reflexivity]. }
  revert Hnew. unfold new, bind_arguments.
  destruct (missing_parameters _); [|discriminate].
  destruct (arg_str "expectation_suite_name" "" _) as [a_name|e]; simpl;
    [|discriminate].
  unfold arg_optional_int, arg_bool, arg_str.
  rewrite !Hget by assumption.
  cbn [dict_get String.eqb Ascii.eqb Bool.eqb].
  assert (Hint : forall o : option Z,
            match @of_option_int (Obj GeExpectation ExpectationConfiguration) o
            with
            | PyNone => Ok None
            | PyInt z => Ok (Some z)
            | _ => Raise (IllTypedArgument "x")
            end = Ok o) by (intros [z|]; reflexivity).
  destruct id_value as [|b|z|f|t|l|m|o]; simpl; try discriminate;
    (destruct fs as [a_fs|]; destruct fg as [a_fg|]; simpl;
     destruct (arg_optional_str "href" _) as [a_href|e]; simpl;
     try discriminate;
     intros Hinit;
     destruct (init_fields _ _ _ _ Hinit) as (_ & Hrun & Hpol & _);
     pose proof (init_id _ _ _ _ Hinit) as Hid;
     destruct (init_keeps_parents _ _ _ _ Hinit) as [Hparents _];
     cbn in Hrun, Hpol, Hid, Hparents;
     rewrite Hid; repeat (split; [first [reflexivity|assumption]|]);
     intros a b Ha Hb; try discriminate;
     injection Ha as <-; injection Hb as <-;
     injection Hparents as <- <-; split; reflexivity).
Qed.

(** X27.  [from_ge_type] writes five keywords out in its call of the
    constructor, so a Great Expectations dictionary that has one of them
    as a key, the popped [id] apart, makes it raise [TypeError] before any
    suite is built.  A suite that it returns has the validation flag
    passed, the policy passed in upper case, the parents passed when both
    are, and as its id the one passed or, when none is passed, the one of
    the dictionary. *)
Theorem from_ge_type_takes_the_id_passed_or_the_one_of_the_suite
    (suite_dict : list (string * LVal))
    (run_validation : bool) (validation_ingestion_policy : string)
    (id feature_store_id feature_group_id : option Z)
    (calls0 : list LCall) :
  let built :=
    from_ge_type suite_dict run_validation validation_ingestion_policy
      id feature_store_id feature_group_id calls0 in
  (forall k,
     In k explicit_keywords ->
     contains k suite_dict = true ->
     k <> "id"%string \/ id <> None ->
     exists msg, built = (Raise (TypeError msg), calls0)) /\
  (forall s calls1,
     built = (Ok s, calls1) ->
     calls1 = calls0 /\
     _run_validation s = run_validation /\
     _validation_ingestion_policy s = upper validation_ingestion_policy /\
     (forall fs fg,
        feature_store_id = Some fs -> feature_group_id = Some fg ->
        _feature_store_id s = Some fs /\ _feature_group_id s = Some fg) /\
     match id with
     | Some i => _id s = Some i
     | None =>
         match dict_get "id" suite_dict with
         | Some v => of_option_int (_id s) = v
         | None => _id s = None
         end
     end).
Proof.
  cbv zeta. unfold from_ge_type. split.
  - intros k Hin Hhas Hcase.
    assert (Hfound : forall d : list (string * LVal),
              contains k d = true ->
              existsb (fun k => contains k d) explicit_keywords = true).
    { intros d Hd. apply existsb_exists. exists k. now split. }
    destruct id as [i|].
    + cbn [fst snd]. rewrite (Hfound _ Hhas). eexists. reflexivity.
    + destruct Hcase as [Hk|Hid]; [|contradiction].
      destruct (dict_get "id" suite_dict) as [v|]; cbn [fst snd].
      * rewrite (Hfound (dict_del "id" suite_dict)).
        -- eexists. reflexivity.
        -- unfold contains in *. rewrite dict_get_del_other; [exact Hhas|].
           now apply String.eqb_neq.
      * rewrite (Hfound _ Hhas). eexists. reflexivity.
  - intros s calls1.
    destruct id as [i|]; [|destruct (dict_get "id" suite_dict) as [v|] eqn:Hv];
      cbn [fst snd];
      match goal with
      | |- context [existsb ?f explicit_keywords] =>
          destruct (existsb f explicit_keywords) eqn:Hfree; [discriminate|]
      end;
      intros Hnew;
      destruct (new_with_keywords _ _ _ _ _ _ _ _ _ Hfree Hnew)
        as (Hcalls & Hid & Hrun & Hpol & Hparents);
      (split; [exact Hcalls|]); (split; [exact Hrun|]);
      (split; [exact Hpol|]); (split; [exact Hparents|]).
    + destruct (_id s); simpl in Hid; congruence.
    + exact Hid.
    + destruct (_id s); simpl in Hid; [discriminate|reflexivity].
Qed.


(** X28.  [get_expectation] only reads: in every state, and whether it
    returns or raises, the suite is left as it was, and either nothing is
    sent or exactly one call is made, the lookup of that expectation id on
    the expectation engine of a suite that has an id. *)
Theorem get_expectation_only_reads
    (expectation_id : Z) (ge_type : bool) (st : State) :
  let st' := snd (get_expectation expectation_id ge_type st) in
  self st' = self st /\
  (calls st' = calls st \/
   exists eng,
     has_id (self st) /\
     _expectation_engine (self st) = Some eng /\
     calls st' = calls st ++ [Call_get eng expectation_id]).
Proof.
  cbv zeta. destruct st as [s cs]. unfold has_id. run_suite.
  destruct (truthy_id (_id s)); [|split; [reflexivity|now left]].
  destruct (_expectation_engine s) as [eng|];
    [|split; [reflexivity|now left]].
  destruct ge_type; simpl;
    destruct (backend cs (Call_get eng expectation_id)) as [found|e]; simpl;
    try destruct (to_ge_type found); simpl;
    (split; [reflexivity|right; exists eng; repeat split]).
Qed.


End SuiteLifecycleProperties.

(** ** The statements above on the test doubles *)

Section SuiteLifecycleInstances.

Import ExpectationSuite SuiteLifecycle PyX Doubles.Suites.

Abbreviation an_expectation :=
  (PyDict [("expectation_type", PyStr "expect_column_to_exist")]
   : PyVal (Obj (@GeExpectation collaborators)
                (@ExpectationConfiguration collaborators))).
Abbreviation the_engine := (mkExpectationEngine 67 13 21).

(** An instance of X11: the suite built from a backend response. *)
Lemma constructed_suite_is_attached_iff_it_has_an_id_witness :
  __init__ remote_args [] = (Ok remote_suite, []) /\
  _id remote_suite = Some 21%Z.
Proof.
  split; [reflexivity|].
  exact (proj1 (@constructed_suite_is_attached_iff_it_has_an_id
                  collaborators remote_args [] [] remote_suite eq_refl)).
Defined.

(** An instance of X12: the parents of that suite come from its href. *)
Lemma constructed_suite_has_both_parents_or_none_witness :
  __init__ remote_args [] = (Ok remote_suite, []) /\
  parents_paired remote_suite.
Proof.
  split; [reflexivity|].
  exact (proj1 (@constructed_suite_has_both_parents_or_none
                  collaborators remote_args [] [] remote_suite eq_refl)).
Defined.

(** An instance of X13: an href as the backend writes it. *)
Lemma href_gives_the_parent_identifiers_witness :
  _init_feature_store_and_feature_group_ids_from_href
    "/project/119/featurestores/67/featuregroups/13/expectationsuite/21"
  = Ok (67%Z, 13%Z).
Proof.
  refine (proj1 href_gives_the_parent_identifiers
            "/project/119" "67" "13" "e/21"
            eq_refl eq_refl eq_refl eq_refl _ eq_refl eq_refl _ eq_refl);
    discriminate.
Defined.

(** An instance of X14: the attached suite pushes once. *)
Lemma metadata_setters_push_the_updated_suite_once_witness :
  has_id (self remote_state) /\
  exists update,
    calls (snd (setter_of (Field_run_validation false) remote_state))
    = [update].
Proof.
  assert (Hid : has_id (self remote_state)) by (vm_compute; reflexivity).
  assert (Hengine : _expectation_suite_engine (self remote_state)
                    = Some (Some (mkExpectationSuiteEngine 67 13)))
    by (vm_compute; reflexivity).
  assert (Hfields : exists fields,
            to_dict (stored_by (Field_run_validation false)
                       (self remote_state))
            = Ok fields)
    by (vm_compute; eexists; reflexivity).
  destruct Hfields as [fields Hfields].
  split; [exact Hid|].
  exists (Call_update_metadata_from_fields (mkExpectationSuiteEngine 67 13)
            (decamelize_dict (@decamelize_key collaborators) fields)).
  rewrite (proj1 (@metadata_setters_push_the_updated_suite_once
                    collaborators (Field_run_validation false) remote_state)
             (mkExpectationSuiteEngine 67 13) fields Hid Hengine Hfields).
  reflexivity.
Defined.

(** An instance of X15: an id without an engine. *)
Lemma failed_push_keeps_the_local_value_witness :
  let st := snd (set_id 5 local_state) in
  has_id (self st) /\
  exists msg,
    setter_of (Field_run_validation false) st
    = (Raise (AttributeError msg),
       mkState (with_run_validation false (self st)) []).
Proof.
  intros st. split; [reflexivity|].
  exact (proj1 (proj2
           (@failed_push_keeps_the_local_value
              collaborators (Field_run_validation false) st eq_refl))
           eq_refl).
Defined.

(** An instance of X16: the meta of the local suite. *)
Lemma unattached_suite_makes_no_engine_call_witness :
  unattached (self local_state) /\
  calls (snd (run (Assign_meta (PyDict [])) local_state)) = [].
Proof.
  split; [reflexivity|].
  exact (@unattached_suite_makes_no_engine_call
           collaborators (Assign_meta (PyDict [])) local_state eq_refl).
Defined.

(** An instance of X17: the expectations of the attached suite. *)
Lemma local_only_mutations_make_no_engine_call_witness :
  attached remote_suite /\
  calls (snd (run (Assign_expectations (PyList [an_expectation]))
                remote_state))
  = [].
Proof.
  split; [split; [reflexivity|split; eexists; reflexivity]|].
  exact (@local_only_mutations_make_no_engine_call
           collaborators (Assign_expectations (PyList [an_expectation]))
           I remote_state).
Defined.

(** An instance of X18: the backend of the doubles answers an empty
    list. *)
Lemma add_expectation_creates_then_refetches_witness :
  has_id remote_suite /\
  add_expectation an_expectation false remote_state
  = (Ok (PyObj (OExpectation "expect_column_to_exist")),
     mkState (with_expectations [] remote_suite)
       [ Call_create the_engine "expect_column_to_exist";
         Call_get_expectations_by_suite_id the_engine ]).
Proof.
  split; [reflexivity|].
  exact (proj2 (proj2
           (@add_expectation_creates_then_refetches
              collaborators an_expectation false remote_state the_engine
              "expect_column_to_exist" eq_refl eq_refl eq_refl))
           (PyObj (OExpectation "expect_column_to_exist")) [] []
           eq_refl eq_refl eq_refl).
Defined.

(** An instance of X19. *)
Lemma remove_expectation_deletes_then_refetches_witness :
  has_id remote_suite /\
  remove_expectation (Some 4%Z) remote_state
  = (Ok tt,
     mkState (with_expectations [] remote_suite)
       [ Call_delete the_engine (Some 4%Z);
         Call_get_expectations_by_suite_id the_engine ]).
Proof.
  split; [reflexivity|].
  exact (proj2
           (@remove_expectation_deletes_then_refetches
              collaborators (Some 4%Z) remote_state the_engine
              eq_refl eq_refl)
           PyNone [] [] eq_refl eq_refl eq_refl).
Defined.

(** An instance of X20. *)
Lemma replace_expectation_checks_the_id_before_any_call_witness :
  has_id remote_suite /\
  replace_expectation an_expectation false remote_state
  = (Ok (PyObj (OExpectation "expect_column_to_exist")),
     mkState (with_expectations [] remote_suite)
       [ Call_update the_engine "expect_column_to_exist";
         Call_get_expectations_by_suite_id the_engine ]).
Proof.
  split; [reflexivity|].
  exact (proj2
           (@replace_expectation_checks_the_id_before_any_call
              collaborators an_expectation false remote_state the_engine
              "expect_column_to_exist" eq_refl eq_refl eq_refl)
           "expect_column_to_exist"
           (PyObj (OExpectation "expect_column_to_exist")) [] []
           eq_refl eq_refl eq_refl eq_refl).
Defined.

(** An instance of X21: an expectation that cannot be converted. *)
Lemma failed_expectation_call_leaves_the_suite_alone_witness :
  (exists msg,
     fst (run (Do_add_expectation PyNone false) remote_state)
     = Raise (TypeError msg)) /\
  self (snd (run (Do_add_expectation PyNone false) remote_state))
  = remote_suite.
Proof.
  split; [eexists; reflexivity|].
  exact (@failed_expectation_call_leaves_the_suite_alone
           collaborators (Do_add_expectation PyNone false) remote_state
           _ I eq_refl).
Defined.

(** An instance of X22: the local suite, given the id 5. *)
Lemma assigning_an_id_does_not_attach_witness :
  let st := snd (set_id 5 local_state) in
  __init__ local_args [] = (Ok local_suite, []) /\
  get_expectation 1 true st
  = (Raise (FeatureStoreException
              "Attach the expectation suite to a feature group first."),
     st) /\
  remove_expectation (Some 1%Z) st = (Raise (AttributeError "delete"), st).
Proof.
  intros st. split; [reflexivity|].
  assert (Hnonzero : 5%Z <> 0%Z) by discriminate.
  pose proof (@assigning_an_id_does_not_attach
                collaborators local_args [] [] local_suite 5%Z
                eq_refl eq_refl Hnonzero)
    as (_ & _ & Hget & Hremove & _).
  split; [exact (Hget 1%Z true)|exact (Hremove (Some 1%Z))].
Defined.

(** An instance of X23: the local suite, attached by hand. *)
Lemma wiring_after_an_id_attaches_witness :
  exists s' : @Suite collaborators,
    attached s' /\
    _expectation_engine s' = Some (mkExpectationEngine 67 13 5).
Proof.
  assert (H5 : 5%Z <> 0%Z) by discriminate.
  assert (H67 : 67%Z <> 0%Z) by discriminate.
  assert (H13 : 13%Z <> 0%Z) by discriminate.
  destruct (proj1 (@wiring_after_an_id_attaches
                     collaborators local_state 5%Z 67%Z 13%Z H67 H13) H5)
    as (s' & _ & Hattached & _ & Hengine & _).
  exists s'. split; assumption.
Defined.

(** An instance of X24: two setters on the attached suite, the second of
    which raises. *)
Lemma history_keeps_origin_and_policy_case_witness :
  let ops := [ Assign_validation_ingestion_policy "strict";
               Assign_meta (PyStr "not json") ] in
  policy_in_upper_case (self remote_state) /\
  policy_in_upper_case (self (run_all ops remote_state)) /\
  _href (self (run_all ops remote_state))
  = Some "/project/119/featurestores/67/featuregroups/13/expectationsuite/21".
Proof.
  intros ops.
  assert (Hupper : policy_in_upper_case (self remote_state))
    by (vm_compute; reflexivity).
  assert (Hbefore :
    _href (self remote_state)
    = Some "/project/119/featurestores/67/featuregroups/13/expectationsuite/21")
    by (vm_compute; reflexivity).
  pose proof (@history_keeps_origin_and_policy_case
                collaborators ops remote_state)
    as ((_ & _ & Hhref) & Hpolicy & _).
  split; [exact Hupper|].
  split; [exact (Hpolicy Hupper)|].
  rewrite <- Hbefore. exact Hhref.
Defined.

(** An instance of X25: the suite built from a backend response. *)
Lemma response_of_to_json_dict_rebuilds_the_suite_witness :
  parents_paired remote_suite /\
  exists s',
    from_response_json (to_json_dict remote_suite false) []
    = (Returns (OneSuite s'), []) /\
    _id s' = Some 21%Z /\
    _feature_store_id s' = Some 67%Z /\
    _feature_group_id s' = Some 13%Z /\
    _href s' = None.
Proof.
  assert (Hpaired : parents_paired remote_suite).
  { right. exists 67%Z, 13%Z. split; reflexivity. }
  assert (Hknown : parents_known remote_suite).
  { intros _. split; discriminate. }
  split; [exact Hpaired|].
  destruct (@response_of_to_json_dict_rebuilds_the_suite
              collaborators remote_suite [] [] eq_refl Hknown Hpaired
              eq_refl (ex_intro _ [] eq_refl) eq_refl)
    as (s' & Hbuilt & Hid & Hfs & Hfg & _ & _ & _ & _ & _ & Hhref & _).
  exists s'. repeat split; assumption.
Defined.

(** An instance of X26: an empty page. *)
Lemma list_response_gives_one_suite_per_item_witness :
  @from_response_json collaborators [("count", PyInt 0)] []
  = (Returns NoSuite, []).
Proof.
  exact (proj1 (@list_response_gives_one_suite_per_item
                  collaborators [("count", PyInt 0)] [])
           (PyInt 0) eq_refl eq_refl).
Defined.

(** An instance of X27: an id in the dictionary and another one passed. *)
Lemma from_ge_type_takes_the_id_passed_or_the_one_of_the_suite_witness :
  exists msg,
    @from_ge_type collaborators
      [ ("expectation_suite_name", PyStr "sales");
        ("expectations", PyList []);
        ("meta", PyDict []);
        ("id", PyInt 3) ]
      true "always" (Some 4%Z) None None []
    = (Raise (TypeError msg), []).
Proof.
  assert (Hpassed : Some 4%Z <> None) by discriminate.
  exact (proj1 (@from_ge_type_takes_the_id_passed_or_the_one_of_the_suite
                  collaborators
                  [ ("expectation_suite_name", PyStr "sales");
                    ("expectations", PyList []);
                    ("meta", PyDict []);
                    ("id", PyInt 3) ]
                  true "always" (Some 4%Z) None None [])
           "id"%string (or_introl eq_refl) eq_refl (or_intror Hpassed)).
Defined.

End SuiteLifecycleInstances.
